(** * promptsource/seqio_tasks/tasks.py: registration of seqio tasks and mixtures

    A shallow embedding of the registration script.  Python strings are
    [string]s (sequences of code points below 256), dictionaries whose order
    matters are association lists, the rows of the CSV manifest are [gmap]s,
    and the statements that can raise are written in a state-and-error monad
    over the globals of the script. *)

From Stdlib Require Import Ascii String.
From stdpp Require Import base option list strings gmap.

(** ** Exceptions and results *)

Inductive Exn : Type :=
  | KeyError (key : string)
  | IndexError
  | TypeError
  | ValueError (msg : string)
  | Raised (what : string).

Inductive result (A : Type) : Type :=
  | Ok (a : A)
  | Err (e : Exn).
Arguments Ok {A} a.
Arguments Err {A} e.

Definition rbind {A B} (r : result A) (k : A → result B) : result B :=
  match r with
  | Ok a => k a
  | Err e => Err e
  end.

Notation "'let?' x ':=' r 'in' k" := (rbind r (fun x => k))
  (at level 10, x pattern, r at level 100, k at level 200).

Fixpoint rmap {A B} (f : A → result B) (l : list A) : result (list B) :=
  match l with
  | [] => Ok []
  | x :: l' =>
      let? y := f x in
      let? ys := rmap f l' in
      Ok (y :: ys)
  end.

(** ** The Python string methods the script uses *)

Module Py.

(** [s.startswith(p)] *)
Fixpoint startswith (s p : string) : bool :=
  match p, s with
  | EmptyString, _ => true
  | String a p', String b s' => if Ascii.eqb a b then startswith s' p' else false
  | String _ _, EmptyString => false
  end.

(** [s.endswith(p)]: some suffix of [s] is [p]. *)
Fixpoint endswith (s p : string) : bool :=
  String.eqb s p ||
  match s with
  | EmptyString => false
  | String _ s' => endswith s' p
  end.

Fixpoint drop (n : nat) (s : string) : string :=
  match n, s with
  | S n', String _ s' => drop n' s'
  | _, _ => s
  end.

(** [sub in s] *)
Fixpoint contains (s sub : string) : bool :=
  startswith s sub ||
  match s with
  | EmptyString => false
  | String _ s' => contains s' sub
  end.

(** [s.partition(sep)] when [sep] occurs: the text before the first
    occurrence and the text after it. *)
Fixpoint cut (s sep : string) : option (string * string) :=
  if startswith s sep then Some (EmptyString, drop (String.length sep) s)
  else match s with
       | EmptyString => None
       | String c s' =>
           match cut s' sep with
           | Some (pre, post) => Some (String c pre, post)
           | None => None
           end
       end.

(** [s.split(sep)] for a non-empty separator.  Each cut removes at least
    one character, so [String.length s] rounds are enough. *)
Fixpoint split_rounds (n : nat) (s sep : string) : list string :=
  match n with
  | O => [s]
  | S n' =>
      match cut s sep with
      | None => [s]
      | Some (pre, post) => pre :: split_rounds n' post sep
      end
  end.

Definition split (s sep : string) : list string :=
  split_rounds (String.length s) s sep.

(** [str.isspace] on one character (code points below 256). *)
Definition isspace (c : ascii) : bool :=
  let n := nat_of_ascii c in
  ((9 <=? n) && (n <=? 13) || (28 <=? n) && (n <=? 32)
   || (n =? 133) || (n =? 160))%nat.

Fixpoint lstrip (s : string) : string :=
  match s with
  | String c s' => if isspace c then lstrip s' else s
  | EmptyString => EmptyString
  end.

Fixpoint rstrip (s : string) : string :=
  match s with
  | EmptyString => EmptyString
  | String c s' =>
      match rstrip s' with
      | EmptyString => if isspace c then EmptyString else String c EmptyString
      | r => String c r
      end
  end.

(** [s.strip()] *)
Definition strip (s : string) : string := rstrip (lstrip s).

(** [seq[i]] on a list *)
Definition index {A} (l : list A) (i : nat) : result A :=
  match l !! i with
  | Some x => Ok x
  | None => Err IndexError
  end.

(** [d[k]] on a dictionary kept as an association list *)
Fixpoint getitem {V} (d : list (string * V)) (k : string) : result V :=
  match d with
  | [] => Err (KeyError k)
  | (k', v) :: d' => if String.eqb k' k then Ok v else getitem d' k
  end.

End Py.

(** ** The label-list regular expression of [get_label_strings]

    [re.search] on the pattern [label_list_re] of line 44: group 1 is a run
    without braces, then two opening braces and blanks, group 2 is a bracketed
    text that starts and ends with a quote character, then blanks, a second
    bracketed text, blanks, two closing braces, and group 3 is a run without
    braces up to the end.  The matcher is the backtracking one: every [*] is greedy and gives
    characters back one at a time, and the first match found is the one
    returned.  The pattern starts with [^], so a match can only start at the
    first character. *)

Module Re.

Section Combinators.
Context {A : Type}.

(** one character of the class [p], then [k] *)
Definition chr (p : ascii → bool) (k : string → option A) (s : string) : option A :=
  match s with
  | String c s' => if p c then k s' else None
  | EmptyString => None
  end.

(** [p*], greedy: the longest run first, then shorter ones *)
Fixpoint star (p : ascii → bool) (k : string → option A) (s : string) : option A :=
  match s with
  | String c s' =>
      if p c then
        match star p k s' with
        | Some r => Some r
        | None => k s
        end
      else k s
  | EmptyString => k s
  end.
End Combinators.

Definition lit (a : ascii) (c : ascii) : bool := Ascii.eqb a c.

(** [[^\{\}]] *)
Definition not_brace (c : ascii) : bool := negb (lit "{" c || lit "}" c).

(** the class of line 44 for the quote: a double quote, a vertical bar or a
    single quote *)
Definition quote (c : ascii) : bool := lit "034" c || lit "|" c || lit "'" c.

(** [.] without DOTALL: anything but a line feed *)
Definition dot (c : ascii) : bool := negb (lit "010" c).

(** [\s] *)
Definition space (c : ascii) : bool := Py.isspace c.

(** [$] without MULTILINE: at the end, or just before a final line feed *)
Definition at_end (s : string) : bool :=
  match s with
  | EmptyString => true
  | String c EmptyString => lit "010" c
  | _ => false
  end.

(** the text between two positions, each given by what is left to read *)
Definition text (from to : string) : string :=
  String.substring 0 (String.length from - String.length to) from.

Definition Groups : Type := string * string * string.

(** group 2: an opening bracket, blanks, a quote, any text, a quote,
    blanks, a closing bracket *)
Definition list_re (k : string → option Groups) : string → option Groups :=
  chr (lit "[") $ star space $ chr quote $ star dot $ chr quote $
  star space $ chr (lit "]") k.

(** blanks, a bracketed text, blanks, two closing braces *)
Definition index_re (k : string → option Groups) : string → option Groups :=
  star space $ chr (lit "[") $ star dot $ chr (lit "]") $ star space $
  chr (lit "}") $ chr (lit "}") k.

(** group 3 and the end of the text *)
Definition tail_re (k : string → option Groups) (g3_start : string) : option Groups :=
  star not_brace
    (λ g3_end, if at_end g3_end then k (text g3_start g3_end) else None)
    g3_start.

(** the groups 1, 2 and 3 of the match, or [None] *)
Definition label_list_re (target : string) : option Groups :=
  star not_brace (λ g1_end,
    (chr (lit "{") $ chr (lit "{") $ star space $ λ g2_start,
      list_re (λ g2_end,
        index_re (tail_re (λ g3,
          Some (text target g1_end, text g2_start g2_end, g3))) g2_end)
      g2_start) g1_end) target.

End Re.

(** ** Values computed by [eval]

    The values the label lists of templates evaluate to: strings and lists,
    with [None] and integers for the items that are not strings. *)

#[warnings="-register-all"]
Inductive PyVal : Type :=
  | PyNone
  | PyInt (n : Z)
  | PyStr (s : string)
  | PyList (items : list PyVal).

(** [for x in v]: a list gives its items, a string its characters *)
Definition py_iter (v : PyVal) : result (list PyVal) :=
  match v with
  | PyList items => Ok items
  | PyStr s => Ok ((λ c, PyStr (String c EmptyString)) <$> list_ascii_of_string s)
  | PyNone | PyInt _ => Err TypeError
  end.

(** [before + v + after] for strings [before] and [after] *)
Definition py_concat (before : string) (v : PyVal) (after : string) : result string :=
  match v with
  | PyStr s => Ok (before +:+ s +:+ after)
  | _ => Err TypeError
  end.

(** ** Templates (promptsource.templates) *)

Record Metadata : Type := {
  metrics : list string;
  original_task : bool;
}.

Record Template : Type := {
  jinja : string;
  metadata : Metadata;
}.

(** Modelled from the spec: promptsource.templates.DatasetTemplates is not in
    src/.  The templates of one (dataset, subset) pair, keyed by template
    name; [all_template_names] lists the names and [dataset[name]] looks one
    up. *)
Definition DatasetTemplates : Type := list (string * Template).

Definition all_template_names (dataset : DatasetTemplates) : list string :=
  fst <$> dataset.

Definition Key : Type := string * option string.

(** Modelled from the spec: promptsource.templates.TemplateCollection is not
    in src/.  A template collection keyed by (dataset, subset): [keys] are the
    pairs it holds and [get_dataset] gives the templates of a pair.  The script
    asks for the ANLI templates (line 198) after it has removed ANLI from the
    collection (line 173), so [remove] takes a pair out of [keys] and leaves
    [get_dataset] as it is. *)
Record TemplateCollection : Type := {
  keys : list Key;
  get_dataset : string → option string → DatasetTemplates;
}.

Definition remove (dataset_name : string) (subset_name : option string)
    (c : TemplateCollection) : TemplateCollection :=
  {| keys := filter (λ k, k ≠ (dataset_name, subset_name)) (keys c);
     get_dataset := get_dataset c |}.

(** ** Metrics, postprocessors, tasks *)

(** The functions of [t5.evaluation.metrics] the script names, [other_metric]
    for the rest of that module, and [rank_classification] with its
    [num_classes] bound by [functools.partial]. *)
Inductive Metric : Type :=
  | bleu | rouge | span_squad | squad | trivia_qa | accuracy
  | sequence_accuracy | pearson_corrcoef | spearman_corrcoef
  | multirc_f1_over_all_answers | auc | coqa_f1 | edit_distance
  | other_metric (name : string)
  | rank_classification_metric (num_classes : nat).

Definition GET_METRICS : list (string * Metric) := [
  ("BLEU", bleu);
  ("ROUGE", rouge);
  ("Span Squad", span_squad);
  ("Squad", squad);
  ("Trivia QA", trivia_qa);
  ("Accuracy", accuracy);
  ("Sequence Accuracy", sequence_accuracy);
  ("Pearson Correlation", pearson_corrcoef);
  ("Spearman Correlation", spearman_corrcoef);
  ("MultiRC", multirc_f1_over_all_answers);
  ("AUC", auc);
  ("COQA F1", coqa_f1);
  ("Edit Distance", edit_distance);
  ("Other", accuracy)
].

(** [strip_whitespace], and the three functions a task can carry as its
    [postprocess_fn]: [strip_whitespace] itself, the closure of
    [maybe_get_class_id_postprocessor] over [labels], and
    [t5.data.postprocessors.rank_classification]. *)
Definition strip_whitespace (output_or_target : string) : string :=
  Py.strip output_or_target.

Inductive Postprocessor : Type :=
  | strip_whitespace_fn
  | class_id_postprocess_fn (labels : list string)
  | rank_classification_postprocessor.

Inductive Preprocessor : Type :=
  | tokenize
  | append_eos
  | rank_classification_preprocessor (labels : list string).

Record Feature : Type := { add_eos : bool }.

(** [functools.partial(get_tf_dataset, seed=None, ...)] *)
Record DatasetFn : Type := {
  fn_seed : option Z;
  fn_dataset_name : string;
  fn_subset_name : option string;
  fn_template : Template;
  fn_split_mapping : list (string * string);
}.

(** [seqio.FunctionDataSource] *)
Record DataSource : Type := {
  dataset_fn : DatasetFn;
  splits : list string;
  num_input_examples : list (string * nat);
}.

Record Task : Type := {
  task_name : string;
  source : DataSource;
  preprocessors : list Preprocessor;
  output_features : list (string * Feature);
  metric_fns : list Metric;
  postprocess_fn : Postprocessor;
}.

(** The rate function of a mixture: [seqio.mixing_rate_num_examples], with
    [maximum] when [functools.partial] binds it. *)
Record Rate : Type := { maximum : option Z }.

Record Mixture : Type := {
  mixture_name : string;
  mixture_tasks : list string;
  default_rate : Rate;
}.

(** ** The globals of the script and its monad *)

Record State : Type := {
  all_templates : TemplateCollection;
  TaskRegistry : list Task;
  train_mixture : list string;
  eval_mixture : list string;
}.

(** [seqio.TaskRegistry.names()] *)
Definition names (st : State) : list string := task_name <$> TaskRegistry st.

(** A statement runs on a state and either completes with a value or raises;
    in both cases the state is left as the statement made it.  The statements
    of the script run on its globals. *)
Definition Run (S A : Type) : Type := S → result A * S.

Definition M (A : Type) : Type := Run State A.

Definition ret {S A} (a : A) : Run S A := λ st, (Ok a, st).

Definition raise {S A} (e : Exn) : Run S A := λ st, (Err e, st).

Definition bind {S A B} (m : Run S A) (k : A → Run S B) : Run S B :=
  λ st, match m st with
        | (Ok a, st') => k a st'
        | (Err e, st') => (Err e, st')
        end.

Definition lift {S A} (r : result A) : Run S A :=
  λ st, (r, st).

Definition gets {A} (f : State → A) : M A := λ st, (Ok (f st), st).

Definition modify (f : State → State) : M unit := λ st, (Ok tt, f st).

Notation "'let*' x ':=' m 'in' k" := (bind m (fun x => k))
  (at level 10, x pattern, m at level 100, k at level 200).

(** [for x in l: body x] *)
Fixpoint for_each {A} (l : list A) (body : A → M unit) : M unit :=
  match l with
  | [] => ret tt
  | x :: l' => let* _ := body x in for_each l' body
  end.

(** [seqio.TaskRegistry.add]: the registry keeps the tasks in the order they
    were added and refuses a name it already holds. *)
Definition TaskRegistry_add (task : Task) : M unit :=
  let* registered := gets names in
  if bool_decide (task_name task ∈ registered)
  then raise (ValueError "Attempting to register duplicate provider")
  else modify (λ st,
    {| all_templates := all_templates st;
       TaskRegistry := TaskRegistry st ++ [task];
       train_mixture := train_mixture st;
       eval_mixture := eval_mixture st |}).

Definition train_mixture_append (name : string) : M unit :=
  modify (λ st,
    {| all_templates := all_templates st;
       TaskRegistry := TaskRegistry st;
       train_mixture := train_mixture st ++ [name];
       eval_mixture := eval_mixture st |}).

Definition eval_mixture_append (name : string) : M unit :=
  modify (λ st,
    {| all_templates := all_templates st;
       TaskRegistry := TaskRegistry st;
       train_mixture := train_mixture st;
       eval_mixture := eval_mixture st ++ [name] |}).

Definition all_templates_remove (dataset_name : string) (subset_name : option string) : M unit :=
  modify (λ st,
    {| all_templates := remove dataset_name subset_name (all_templates st);
       TaskRegistry := TaskRegistry st;
       train_mixture := train_mixture st;
       eval_mixture := eval_mixture st |}).

(** ** What the script takes from outside *)

(** [utils.get_task_name] and [utils.get_dataset_splits] (split name to number
    of examples) of this package, the two metric tables of
    [t5.data.glue_utils], and Python's [eval].

    [eval] is called at line 49, inside get_label_strings, on a text taken
    from the template.  The expression it evaluates can name the local
    [template] (the other locals, [target], [label_list_re],
    [label_string_match] and [before_label], are computed from it) and every
    global of the module, and it can call their methods: it is given the
    template, it runs on the globals, and it may leave them changed, also when
    it raises. *)
Class Externals : Type := {
  get_task_name : string → option string → string → string;
  get_dataset_splits : string → option string → result (list (string * nat));
  get_glue_metric : option string → result (list Metric);
  get_super_glue_metric : option string → result (list Metric);
  py_eval : Template → string → M PyVal;
}.

(** [datasets.load_dataset] (split name to dataset), [utils.apply_template]
    and [utils.hf_dataset_to_tf_dataset].  They read and change what is
    outside the script (the hub, the cache, the files on disk): each runs on
    a [World]. *)
Class DatasetBackend : Type := {
  World : Type;
  HFDataset : Type;
  TFDataset : Type;
  load_dataset : string → option string → Run World (list (string * HFDataset));
  apply_template : HFDataset → Template → Run World HFDataset;
  hf_dataset_to_tf_dataset : HFDataset → Run World TFDataset;
}.

(** ** Lines 42 to 146: the functions *)

Section Functions.
Context `{Externals}.

Definition get_label_strings (template : Template) : M (option (list string)) :=
  let* target := lift (Py.index (Py.split (jinja template) "|||") 1) in
  match Re.label_list_re (Py.strip target) with
  | Some (before_label, group2, after_label) =>
      let* labels := py_eval template group2 in
      let* labels := lift (py_iter labels) in
      let* labels :=
        lift (rmap (λ label, py_concat before_label label after_label) labels) in
      ret (Some labels)
  | None => ret None
  end.

Definition maybe_get_class_id_postprocessor (template : Template) : M Postprocessor :=
  let* labels := get_label_strings template in
  match labels with
  | Some labels => ret (class_id_postprocess_fn labels)
  | None => ret strip_whitespace_fn
  end.

(** line 71 deletes [shuffle_files] and [seed]; the rest runs on the world *)
Definition get_tf_dataset `{DatasetBackend} (split : string)
    (shuffle_files : bool) (seed : option Z)
    (dataset_name : string) (subset_name : option string)
    (template : Template) (split_mapping : list (string * string)) :
    Run World TFDataset :=
  let* dataset := load_dataset dataset_name subset_name in
  let* mapped := lift (Py.getitem split_mapping split) in
  let* dataset := lift (Py.getitem dataset mapped) in
  let* dataset := apply_template dataset template in
  hf_dataset_to_tf_dataset dataset.

(** lines 82 to 91 *)
Definition task_metrics (dataset_name : string) (subset_name : option string)
    (template : Template) : result (list Metric) :=
  if String.eqb dataset_name "glue" then get_glue_metric subset_name
  else if String.eqb dataset_name "super_glue" then
    if bool_decide (subset_name ∈ [Some "wsc.fixed"; Some "multirc"])
    then Ok [accuracy]
    else get_super_glue_metric subset_name
  else rmap (Py.getitem GET_METRICS) (metrics (metadata template)).

(** [x or y] on an optional string and on an optional dictionary *)
Definition or_str (x : option string) (y : string) : string :=
  match x with
  | Some ((String _ _) as s) => s
  | _ => y
  end.

Definition or_dict {V} (x : option (list (string * V))) (y : list (string * V)) :
    list (string * V) :=
  match x with
  | Some ((_ :: _) as d) => d
  | _ => y
  end.

Definition default_output_features : list (string * Feature) :=
  [("inputs", {| add_eos := false |}); ("targets", {| add_eos := true |})].

Definition default_preprocessors : list Preprocessor := [tokenize; append_eos].

Definition add_task (dataset_name : string) (subset_name : option string)
    (template_name : string) (task_name : option string)
    (split_mapping : option (list (string * string))) : M unit :=
  let* templates := gets all_templates in
  let* template :=
    lift (Py.getitem (get_dataset templates dataset_name subset_name) template_name) in
  let task_name :=
    or_str task_name (get_task_name dataset_name subset_name template_name) in
  let* metrics := lift (task_metrics dataset_name subset_name template) in
  let* dataset_splits := lift (get_dataset_splits dataset_name subset_name) in
  let split_mapping :=
    or_dict split_mapping ((λ k, (k, k)) <$> (fst <$> dataset_splits)) in
  let dataset_fn :=
    {| fn_seed := None;
       fn_dataset_name := dataset_name;
       fn_subset_name := subset_name;
       fn_template := template;
       fn_split_mapping := split_mapping |} in
  let* num_examples :=
    lift (rmap (λ s, let? mapped := Py.getitem split_mapping s in
                     let? n := Py.getitem dataset_splits mapped in
                     Ok (s, n))
               (fst <$> split_mapping)) in
  let data_source :=
    {| dataset_fn := dataset_fn;
       splits := fst <$> split_mapping;
       num_input_examples := num_examples |} in
  let output_features := default_output_features in
  let preprocessors := default_preprocessors in
  (* Add train and normal eval tasks *)
  let* postprocess_fn := maybe_get_class_id_postprocessor template in
  let* _ := TaskRegistry_add
    {| task_name := task_name;
       source := data_source;
       preprocessors := preprocessors;
       output_features := output_features;
       metric_fns := metrics;
       postprocess_fn := postprocess_fn |} in
  (* Add rank classification eval task *)
  let* labels := get_label_strings template in
  match labels with
  | Some ((_ :: _) as labels) =>
      TaskRegistry_add
        {| task_name := task_name +:+ "_score_eval";
           source := data_source;
           preprocessors := rank_classification_preprocessor labels :: preprocessors;
           output_features := output_features;
           metric_fns := [rank_classification_metric (length labels)];
           postprocess_fn := rank_classification_postprocessor |}
  | _ => ret tt
  end.

End Functions.

(** ** Lines 149 to 168: the manifest *)

(** A row as [csv.DictReader] gives it: column name to text. *)
Abbreviation Row := (gmap string string).

(** A row as the script keeps it: line 160 puts [None] under [subset]. *)
Abbreviation KeptRow := (gmap string (option string)).

Record Lists : Type := {
  train_sets : list KeptRow;
  eval_sets : list KeptRow;
  do_train : list Key;
  do_eval : list Key;
}.

Definition no_lists : Lists :=
  {| train_sets := []; eval_sets := []; do_train := []; do_eval := [] |}.

(** [row[column]] *)
Definition row_get (row : Row) (column : string) : result string :=
  match row !! column with
  | Some v => Ok v
  | None => Err (KeyError column)
  end.

(** the truth value of a string *)
Definition truthy (s : string) : bool :=
  match s with
  | EmptyString => false
  | String _ _ => true
  end.

(** the row after line 160 *)
Definition with_subset (row : Row) (subset : option string) : KeptRow :=
  match subset with
  | None => <["subset" := None]> (Some <$> row)
  | Some _ => Some <$> row
  end.

(** the columns the loop of line 156 looks up *)
Definition read_columns : list string :=
  ["skip"; "subset"; "do_train"; "do_eval"; "HF_name"].

(** one pass of the loop of line 156 *)
Definition read_row (row : Row) (l : Lists) : result Lists :=
  let? skip := row_get row "skip" in
  if truthy skip then Ok l
  else
    let? subset := row_get row "subset" in
    let subset : option string :=
      if String.eqb subset EmptyString then None else Some subset in
    let kept : KeptRow := with_subset row subset in
    let? train := row_get row "do_train" in
    let? l :=
      if String.eqb train "TRUE" then
        let? HF_name := row_get row "HF_name" in
        Ok {| train_sets := train_sets l ++ [kept];
              eval_sets := eval_sets l;
              do_train := do_train l ++ [(HF_name, subset)];
              do_eval := do_eval l |}
      else Ok l in
    let? eval := row_get row "do_eval" in
    if String.eqb eval "TRUE" then
      let? HF_name := row_get row "HF_name" in
      Ok {| train_sets := train_sets l;
            eval_sets := eval_sets l ++ [kept];
            do_train := do_train l;
            do_eval := do_eval l ++ [(HF_name, subset)] |}
    else Ok l.

Fixpoint read_rows (rows : list Row) (l : Lists) : result Lists :=
  match rows with
  | [] => Ok l
  | row :: rows' => let? l' := read_row row l in read_rows rows' l'
  end.

Definition read_manifest (rows : list Row) : result Lists :=
  read_rows rows no_lists.

(** ** Lines 172 to 206: the tasks *)

Section Registration.
Context `{Externals}.

(** the name an ANLI task is registered under (line 199) *)
Definition anli_task_name (anli_round template_name : string) : string :=
  get_task_name "anli" None template_name +:+ "_" +:+ anli_round.

(** the body of the loop of line 182 *)
Definition register_template (do_train do_eval : list Key)
    (dataset_name : string) (subset_name : option string)
    (dataset : DatasetTemplates) (template_name : string) : M unit :=
  let* _ := add_task dataset_name subset_name template_name None None in
  let DST_name := get_task_name dataset_name subset_name template_name in
  let* _ :=
    if bool_decide ((dataset_name, subset_name) ∈ do_train)
    then train_mixture_append DST_name
    else ret tt in
  if bool_decide ((dataset_name, subset_name) ∈ do_eval) then
    let* template := lift (Py.getitem dataset template_name) in
    if original_task (metadata template)
    then eval_mixture_append DST_name
    else ret tt
  else ret tt.

(** the body of the loop of line 176 *)
Definition register_dataset (do_train do_eval : list Key) (key : Key) : M unit :=
  let '(dataset_name, subset_name) := key in
  let train_or_eval := (do_train ++ do_eval)%list in
  if bool_decide (key ∉ train_or_eval) then
    all_templates_remove dataset_name subset_name
  else
    let* templates := gets all_templates in
    let dataset := get_dataset templates dataset_name subset_name in
    for_each (all_template_names dataset)
      (register_template do_train do_eval dataset_name subset_name dataset).

(** the body of the loop of line 198 *)
Definition register_anli_template (anli_round : string) (template_name : string) : M unit :=
  let task_name := anli_task_name anli_round template_name in
  let split_mapping :=
    [("train", "train_" +:+ anli_round);
     ("validation", "dev_" +:+ anli_round);
     ("test", "test_" +:+ anli_round)] in
  let* _ := add_task "anli" None template_name (Some task_name) (Some split_mapping) in
  eval_mixture_append task_name.

(** the body of the loop of line 197 *)
Definition register_anli_round (anli_round : string) : M unit :=
  let* templates := gets all_templates in
  for_each (all_template_names (get_dataset templates "anli" None))
    (register_anli_template anli_round).

Definition anli_rounds : list string := ["r1"; "r2"; "r3"].

(** lines 173 to 206, on globals whose [all_templates] is the collection as
    line 172 loads it *)
Definition register_tasks (do_train do_eval : list Key) : M unit :=
  let* _ := all_templates_remove "anli" None in
  let* ks := gets (λ st, keys (all_templates st)) in
  let* _ := for_each ks (register_dataset do_train do_eval) in
  for_each anli_rounds register_anli_round.

End Registration.

(** ** Lines 219 to 296: the mixtures *)

Definition TASK_BLACKLIST : list string := [
  "hotpot_qa_distractor_Generate_Explanations";
  "hotpot_qa_fullwiki_Generate_Explanations";
  "hotpot_qa_distractor_Generate_Answer_and_Explanations";
  "hotpot_qa_fullwiki_Generate_Answer_and_Explanations";
  "hotpot_qa_fullwiki_Generate_Answer";
  "hotpot_qa_distractor_Generate_Answer";
  "hotpot_qa_distractor_Generate_Title_2";
  "hotpot_qa_fullwiki_Generate_Title_2";
  "hotpot_qa_fullwiki_Generate_Title_1";
  "hotpot_qa_distractor_Generate_Title_1";
  "hotpot_qa_distractor_Generate_Question";
  "hotpot_qa_fullwiki_Generate_Question";
  "tab_fact_tab_fact_tab_fact_3";
  "tab_fact_tab_fact_tab_fact_2";
  "tab_fact_tab_fact_tab_fact_1";
  "tab_fact_tab_fact_tab_fact_7";
  "tab_fact_tab_fact_tab_fact_4";
  "tab_fact_tab_fact_tab_fact_5";
  "tab_fact_tab_fact_tab_fact_6";
  "wiki_hop_masked_Choose_Best_Object_Candidate";
  "wiki_hop_masked_Indirect_Question_about_Birthplace_Citizenship_Place_of_Death";
  "narrativeqa_Template_05";
  "ecthr_cases_alleged_violation_prediction_silver_rationales";
  "gigaword_summarize_"
].

Definition max_500_000 : Rate := {| maximum := Some 500000%Z |}.
Definition uncapped : Rate := {| maximum := None |}.

(** [task.split("_score_eval")[0]]; a split is never empty *)
Definition before_score_eval (task : string) : string :=
  default EmptyString (head (Py.split task "_score_eval")).

(** the seven calls of [seqio.MixtureRegistry.add], in order *)
Definition mixtures (st : State) : list Mixture := [
  {| mixture_name := "all_tasks_combined_max_1m";
     mixture_tasks := filter (λ task, task ∉ TASK_BLACKLIST) (names st);
     default_rate := max_500_000 |};
  {| mixture_name := "all_super_glue_tasks";
     mixture_tasks := filter (λ task, Py.startswith task "super_glue") (names st);
     default_rate := uncapped |};
  {| mixture_name := "clean_tasks";
     mixture_tasks := filter (λ task, task ∉ TASK_BLACKLIST) (train_mixture st);
     default_rate := max_500_000 |};
  {| mixture_name := "clean_eval_tasks";
     mixture_tasks := filter (λ task, task ∉ TASK_BLACKLIST) (eval_mixture st);
     default_rate := max_500_000 |};
  {| mixture_name := "anli_eval_tasks";
     mixture_tasks := filter (λ task, Py.startswith task "anli") (eval_mixture st);
     default_rate := max_500_000 |};
  {| mixture_name := "score_eval_tasks";
     mixture_tasks := filter (λ task, Py.endswith task "_score_eval") (names st);
     default_rate := max_500_000 |};
  {| mixture_name := "clean_score_eval_tasks";
     mixture_tasks :=
       filter (λ task, Py.endswith task "_score_eval"
                       ∧ before_score_eval task ∈ eval_mixture st
                       ∧ before_score_eval task ∉ TASK_BLACKLIST)
              (names st);
     default_rate := max_500_000 |}
].

(** ** The whole script *)

Definition initial_state (collection : TemplateCollection) : State :=
  {| all_templates := collection;
     TaskRegistry := [];
     train_mixture := [];
     eval_mixture := [] |}.

(** The manifest rows and the template collection in, the lists of the
    manifest, the globals and the mixtures out. *)
Definition script `{Externals} (rows : list Row) (collection : TemplateCollection) :
    result (Lists * State * list Mixture) :=
  let? l := read_manifest rows in
  match register_tasks (do_train l) (do_eval l) (initial_state collection) with
  | (Ok _, st) => Ok (l, st, mixtures st)
  | (Err e, _) => Err e
  end.

(** ** A small manifest and collection to run the script on *)

Module Sample.

Definition sentiment : Template :=
  {| jinja := "{{text}} Is it good? ||| {{ ['negative', 'positive'] [label] }}";
     metadata := {| metrics := ["Accuracy"]; original_task := true |} |}.

Definition summary : Template :=
  {| jinja := "Summarize: {{document}} ||| {{summary}}";
     metadata := {| metrics := ["ROUGE"; "BLEU"]; original_task := false |} |}.

Definition entails : Template :=
  {| jinja := "{{premise}} Does it follow that {{hypothesis}}? ||| {{ ['Yes', 'Maybe', 'No'] [label] }}";
     metadata := {| metrics := ["Accuracy"]; original_task := true |} |}.

(** a template whose jinja has no separator *)
Definition unsplit : Template :=
  {| jinja := "{{text}} {{label}}";
     metadata := {| metrics := ["Accuracy"]; original_task := true |} |}.

(** a template with a metric the table of line 17 does not hold *)
Definition ranked : Template :=
  {| jinja := "{{query}} ||| {{answer}}";
     metadata := {| metrics := ["Accuracy"; "Mean Reciprocal Rank"];
                    original_task := true |} |}.

Definition collection : TemplateCollection :=
  {| keys := [("imdb", None); ("xsum", None); ("anli", None); ("trec", None)];
     get_dataset := λ dataset_name subset_name,
       match dataset_name, subset_name with
       | "imdb", None => [("sentiment", sentiment)]
       | "xsum", None => [("summary", summary)]
       | "anli", None => [("entails", entails)]
       | "trec", None => [("unsplit", unsplit)]
       | "ms_marco", None => [("ranked", ranked)]
       | _, _ => []
       end |}.

Definition three_splits : list (string * nat) :=
  [("train", 100); ("validation", 10); ("test", 10)].

Definition anli_splits : list (string * nat) :=
  [("train_r1", 100); ("dev_r1", 10); ("test_r1", 10);
   ("train_r2", 100); ("dev_r2", 10); ("test_r2", 10);
   ("train_r3", 100); ("dev_r3", 10); ("test_r3", 10)].

(** the externals at the inputs the sample uses; [eval] gives the label lists
    of the sample and touches no global *)
Definition externals : Externals :=
  {| get_task_name := λ dataset_name subset_name template_name,
       match subset_name with
       | Some subset_name => dataset_name +:+ "_" +:+ subset_name +:+ "_" +:+ template_name
       | None => dataset_name +:+ "_" +:+ template_name
       end;
     get_dataset_splits := λ dataset_name _,
       Ok (if String.eqb dataset_name "anli" then anli_splits else three_splits);
     get_glue_metric := λ _, Ok [accuracy];
     get_super_glue_metric := λ _, Ok [accuracy];
     py_eval := λ _ source,
       lift (if String.eqb source "['negative', 'positive']"
             then Ok (PyList [PyStr "negative"; PyStr "positive"])
             else if String.eqb source "['Yes', 'Maybe', 'No']"
             then Ok (PyList [PyStr "Yes"; PyStr "Maybe"; PyStr "No"])
             else Err (Raised "SyntaxError")) |}.

Definition row (skip subset train eval HF_name : string) : Row :=
  <["skip" := skip]> (<["subset" := subset]> (<["do_train" := train]>
    (<["do_eval" := eval]> (<["HF_name" := HF_name]> ∅)))).

Definition manifest : list Row :=
  [row EmptyString EmptyString "TRUE" "TRUE" "imdb";
   row EmptyString EmptyString "TRUE" EmptyString "xsum";
   row "x" EmptyString "TRUE" "TRUE" "trec"].

Definition empty_state : State := initial_state collection.

(** the manifest with one more row, which asks for training on ANLI *)
Definition anli_row : Row := row EmptyString EmptyString "TRUE" EmptyString "anli".
Definition anli_manifest : list Row := manifest ++ [anli_row].

(** the globals after add_task on the sentiment template *)
Definition after_sentiment : State :=
  (add_task (H:=externals) "imdb" None "sentiment" None None empty_state).2.

(** two rows that differ in a column the script does not look up *)
Definition plain_row : Row := row EmptyString EmptyString "TRUE" EmptyString "imdb".
Definition noted_row : Row := <["note" := "checked"]> plain_row.


(** a row with one flag in another case and the other one as the script
    wants it *)
Definition mixed_row : Row := row EmptyString EmptyString "True" "TRUE" "imdb".

(** what get_label_strings gives for a template, with the externals of the
    sample *)
Definition label_strings (template : Template) : result (option (list string)) :=
  (get_label_strings (H:=externals) template empty_state).1.

End Sample.

(** ** How the globals change *)

(** The registry and the two mixture lists only get longer, and the templates
    of a pair stay what they are. *)
Definition grows (st st' : State) : Prop :=
  TaskRegistry st `prefix_of` TaskRegistry st'
  ∧ train_mixture st `prefix_of` train_mixture st'
  ∧ eval_mixture st `prefix_of` eval_mixture st'
  ∧ get_dataset (all_templates st') = get_dataset (all_templates st).

(** what the main loop may add to eval_mixture for one pair *)
Definition eval_entry `{Externals} (do_eval : list Key) (c : TemplateCollection)
    (key : Key) (name : string) : Prop :=
  key ∈ do_eval
  ∧ ∃ template_name template,
      Py.getitem (get_dataset c key.1 key.2) template_name = Ok template
      ∧ original_task (metadata template) = true
      ∧ name = get_task_name key.1 key.2 template_name.

(** the subset of a pair, from the text of the subset column (line 159) *)
Definition subset_of (subset : string) : option string :=
  if decide (subset = EmptyString) then None else Some subset.

(** a row that is not skipped and asks for evaluation of the pair [key] *)
Definition eval_row (row : Row) (key : Key) : Prop :=
  row !! "skip" = Some EmptyString ∧ row !! "do_eval" = Some "TRUE"
  ∧ row !! "HF_name" = Some key.1
  ∧ ∃ subset, row !! "subset" = Some subset ∧ key.2 = subset_of subset.

(** ** More templates to run the functions on *)

Module Cases.

(** a template whose target holds no expression *)
Definition constant : Template :=
  {| jinja := "Is this spam? {{text}} ||| no";
     metadata := {| metrics := ["Accuracy"]; original_task := false |} |}.

(** a template whose label list is not an expression of Python *)
Definition broken : Template :=
  {| jinja := "{{text}} ||| {{ ['a',, 'b'] [label] }}";
     metadata := {| metrics := ["Accuracy"]; original_task := true |} |}.

(** a template whose label list evaluates to the empty list *)
Definition vacuous : Template :=
  {| jinja := "{{text}} ||| {{ ['a'][1:] + [x for x in ''] [label] }}";
     metadata := {| metrics := ["Accuracy"]; original_task := true |} |}.

Definition collection : TemplateCollection :=
  {| keys := [("spam", None); ("toy", None)];
     get_dataset := λ dataset_name subset_name,
       match dataset_name, subset_name with
       | "spam", None => [("constant", constant)]
       | "toy", None => [("broken", broken); ("vacuous", vacuous)]
       | "imdb", None => [("sentiment", Sample.sentiment)]
       | _, _ => []
       end |}.

(** the externals of the sample, with [eval] at the label list of [vacuous] *)
Definition externals : Externals :=
  {| get_task_name := get_task_name (Externals:=Sample.externals);
     get_dataset_splits := get_dataset_splits (Externals:=Sample.externals);
     get_glue_metric := get_glue_metric (Externals:=Sample.externals);
     get_super_glue_metric := get_super_glue_metric (Externals:=Sample.externals);
     py_eval := λ template source,
       if String.eqb source "['a'][1:] + [x for x in '']"
       then ret (PyList [])
       else py_eval (Externals:=Sample.externals) template source |}.

Definition empty_state : State := initial_state collection.




(** a loader with the three splits of the sample, each of one example; its
    world is the list of the datasets it has loaded *)
Definition backend : DatasetBackend :=
  {| World := list string;
     HFDataset := list string;
     TFDataset := list string;
     load_dataset := λ dataset_name _ world,
       (Ok [("train", ["a film"]); ("validation", ["a play"]); ("test", ["a book"])],
        world ++ [dataset_name]);
     apply_template := λ data _, ret data;
     hf_dataset_to_tf_dataset := λ data, ret data |}.

(** the split mapping of an ANLI round *)
Definition round_mapping : list (string * string) :=
  [("train", "train_r1"); ("validation", "dev_r1"); ("test", "test_r1")].

End Cases.

(** ** Notions for the properties of the functions *)

(** [m] gives [r] whatever the globals hold, and leaves them as they are *)
Definition quiet {A} (m : M A) (r : result A) : Prop := ∀ st, m st = (r, st).

(** get_label_strings is quiet on the templates of a collection, with
    [label_strings] what it gives for each: eval of their label lists gives
    the same value whatever the globals hold and changes none of them *)
Definition labels_on `{Externals} (c : TemplateCollection)
    (label_strings : Template → result (option (list string))) : Prop :=
  ∀ dataset_name subset_name template_name template,
    Py.getitem (get_dataset c dataset_name subset_name) template_name = Ok template →
    quiet (get_label_strings template) (label_strings template).

Definition quiet_on `{Externals} (c : TemplateCollection) : Prop :=
  ∀ dataset_name subset_name template_name template,
    Py.getitem (get_dataset c dataset_name subset_name) template_name = Ok template →
    ∃ r, quiet (get_label_strings template) r.

(** a text of blanks only *)
Definition all_space (s : string) : Prop :=
  Forall (λ c, Py.isspace c = true) (list_ascii_of_string s).

(** a text without braces *)
Definition brace_free (s : string) : Prop :=
  Forall (λ c, Re.not_brace c = true) (list_ascii_of_string s).

(** the data source add_task builds (lines 96 to 108) *)
Definition task_source (dataset_name : string) (subset_name : option string)
    (template : Template) (split_mapping : list (string * string))
    (num_examples : list (string * nat)) : DataSource :=
  {| dataset_fn :=
       {| fn_seed := None;
          fn_dataset_name := dataset_name;
          fn_subset_name := subset_name;
          fn_template := template;
          fn_split_mapping := split_mapping |};
     splits := fst <$> split_mapping;
     num_input_examples := num_examples |}.

(** the task of lines 120 to 127, for the label strings of the template *)
Definition primary_task (name : string) (src : DataSource) (metrics : list Metric)
    (labels : option (list string)) : Task :=
  {| task_name := name;
     source := src;
     preprocessors := default_preprocessors;
     output_features := default_output_features;
     metric_fns := metrics;
     postprocess_fn :=
       match labels with
       | Some labels => class_id_postprocess_fn labels
       | None => strip_whitespace_fn
       end |}.

(** the task of lines 139 to 146 *)
Definition score_eval_task (name : string) (src : DataSource) (labels : list string) : Task :=
  {| task_name := name +:+ "_score_eval";
     source := src;
     preprocessors := rank_classification_preprocessor labels :: default_preprocessors;
     output_features := default_output_features;
     metric_fns := [rank_classification_metric (length labels)];
     postprocess_fn := rank_classification_postprocessor |}.

(** the example counts of line 107 *)
Definition mapped_examples (split_mapping : list (string * string))
    (dataset_splits : list (string * nat)) : result (list (string * nat)) :=
  rmap (λ s, let? mapped := Py.getitem split_mapping s in
             let? n := Py.getitem dataset_splits mapped in
             Ok (s, n))
       (fst <$> split_mapping).

(** the split mapping add_task uses (line 94) *)
Definition used_mapping (split_mapping : option (list (string * string)))
    (dataset_splits : list (string * nat)) : list (string * string) :=
  or_dict split_mapping ((λ k, (k, k)) <$> (fst <$> dataset_splits)).

(** the tasks add_task registers, given what it looked up *)
Definition tasks_of (name : string) (src : DataSource) (metrics : list Metric)
    (labels : option (list string)) : list Task :=
  primary_task name src metrics labels
  :: match labels with
     | Some ((_ :: _) as labels) => [score_eval_task name src labels]
     | _ => []
     end.

(** the pair a row adds to do_train (for the column do_train) or to do_eval
    (for the column do_eval), if it adds one *)
Definition flag_pair (flag : string) (row : Row) : option Key :=
  match row !! "skip", row !! "subset", row !! flag, row !! "HF_name" with
  | Some EmptyString, Some subset, Some value, Some HF_name =>
      if decide (value = "TRUE") then Some (HF_name, subset_of subset) else None
  | _, _, _, _ => None
  end.

(** [kept] is what the script keeps of [row], and [entry] is its pair *)
Definition kept_of (flag : string) (row : Row) (kept : KeptRow) (entry : Key) : Prop :=
  flag_pair flag row = Some entry ∧ kept = with_subset row entry.2.

(** the names add_task registers under the task name [name] for a template
    for which get_label_strings gives [labels] *)
Definition score_names (labels : result (option (list string))) (name : string) :
    list string :=
  name :: match labels with
          | Ok (Some (_ :: _)) => [name +:+ "_score_eval"]
          | _ => []
          end.

(** the names registered for the template called [template_name] of [dataset],
    with [name_of] giving the task name and [label_strings] what
    get_label_strings gives for each template *)
Definition template_names (label_strings : Template → result (option (list string)))
    (dataset : DatasetTemplates) (name_of : string → string)
    (template_name : string) : list string :=
  match Py.getitem dataset template_name with
  | Ok template => score_names (label_strings template) (name_of template_name)
  | Err _ => []
  end.

(** what one pass of the loop of line 176 adds to the registry, to
    train_mixture and to eval_mixture *)
Definition dataset_names `{Externals}
    (label_strings : Template → result (option (list string)))
    (do_train do_eval : list Key) (c : TemplateCollection) (key : Key) : list string :=
  if decide (key ∈ (do_train ++ do_eval)%list) then
    all_template_names (get_dataset c key.1 key.2)
      ≫= template_names label_strings (get_dataset c key.1 key.2)
           (get_task_name key.1 key.2)
  else [].

Definition dataset_train `{Externals} (do_train : list Key)
    (c : TemplateCollection) (key : Key) : list string :=
  if decide (key ∈ do_train)
  then get_task_name key.1 key.2 <$> all_template_names (get_dataset c key.1 key.2)
  else [].

Definition dataset_eval `{Externals} (do_eval : list Key)
    (c : TemplateCollection) (key : Key) : list string :=
  if decide (key ∈ do_eval) then
    all_template_names (get_dataset c key.1 key.2)
      ≫= λ template_name,
           match Py.getitem (get_dataset c key.1 key.2) template_name with
           | Ok template =>
               if original_task (metadata template)
               then [get_task_name key.1 key.2 template_name]
               else []
           | Err _ => []
           end
  else [].

(** what one pass of the loop of line 197 adds to the registry and to
    eval_mixture *)
Definition anli_names `{Externals}
    (label_strings : Template → result (option (list string)))
    (c : TemplateCollection) (anli_round : string) : list string :=
  all_template_names (get_dataset c "anli" None)
    ≫= template_names label_strings (get_dataset c "anli" None)
         (anli_task_name anli_round).

Definition anli_eval `{Externals} (c : TemplateCollection) (anli_round : string) :
    list string :=
  anli_task_name anli_round <$> all_template_names (get_dataset c "anli" None).

(** what holds of a task that reads the data source add_task builds *)
Definition loads_its_splits `{Externals} `{DatasetBackend}
    (dataset_name : string) (subset_name : option string)
    (dataset_splits : list (string * nat)) (task : Task) : Prop :=
  fn_dataset_name (dataset_fn (source task)) = dataset_name
  ∧ fn_subset_name (dataset_fn (source task)) = subset_name
  ∧ splits (source task) = fst <$> fn_split_mapping (dataset_fn (source task))
  ∧ fst <$> num_input_examples (source task) = splits (source task)
  ∧ ∀ split, split ∈ splits (source task) →
      ∃ mapped n,
        Py.getitem (fn_split_mapping (dataset_fn (source task))) split = Ok mapped
        ∧ Py.getitem dataset_splits mapped = Ok n
        ∧ (split, n) ∈ num_input_examples (source task)
        ∧ ∀ world world' loaded shuffle_files seed,
            load_dataset dataset_name subset_name world = (Ok loaded, world') →
            (∀ m, m ∈ (fst <$> dataset_splits) → m ∈ (fst <$> loaded)) →
            ∃ data,
              Py.getitem loaded mapped = Ok data
              ∧ get_tf_dataset split shuffle_files seed
                  (fn_dataset_name (dataset_fn (source task)))
                  (fn_subset_name (dataset_fn (source task)))
                  (fn_template (dataset_fn (source task)))
                  (fn_split_mapping (dataset_fn (source task))) world
                = (let* templated :=
                     apply_template data (fn_template (dataset_fn (source task))) in
                   hf_dataset_to_tf_dataset templated) world'.

(** * Properties *)

(** ** The string methods *)

Example split_three : Py.split "a|||b|||c" "|||" = ["a"; "b"; "c"].
Proof. reflexivity. Qed.

Example split_none : Py.split "abc" "|||" = ["abc"].
Proof. reflexivity. Qed.

Example split_suffix : Py.split "x_score_eval" "_score_eval" = ["x"; EmptyString].
Proof. reflexivity. Qed.

Example strip_blanks : Py.strip "  a b
 " = "a b".
Proof. reflexivity. Qed.

Example label_list_re_sentiment :
  Re.label_list_re "{{ ['negative', 'positive'] [label] }}"
  = Some (EmptyString, "['negative', 'positive']", EmptyString).
Proof. reflexivity. Qed.

Example label_list_re_free_text : Re.label_list_re "{{summary}}" = None.
Proof. reflexivity. Qed.

Lemma append_cons (c : ascii) (s t : string) :
  String c s +:+ t = String c (s +:+ t).
Proof. reflexivity. Qed.

Lemma append_nil (t : string) : EmptyString +:+ t = t.
Proof. reflexivity. Qed.

Lemma startswith_app (s p : string) :
  Py.startswith s p = true ↔ ∃ post, s = p +:+ post.
Proof.
  revert s. induction p as [|a p IH]; intros s; simpl.
  - split; [intros _; by exists s | by destruct s].
  - destruct s as [|b s]; simpl.
    + split; [done | by intros [post ?]].
    + setoid_rewrite append_cons.
      destruct (Ascii.eqb_spec a b) as [->|Hne].
      * rewrite IH. split; intros [post Hp]; exists post; congruence.
      * split; [done | intros [post Hp]; congruence].
Qed.

(** [sub in s] holds exactly when [s] is some text, [sub], and some text. *)
Lemma contains_app (s sub : string) :
  Py.contains s sub = true ↔ ∃ pre post, s = pre +:+ sub +:+ post.
Proof.
  induction s as [|c s IH]; cbn [Py.contains].
  - rewrite orb_false_r, startswith_app. split.
    + intros [post Hp]. by exists EmptyString, post.
    + intros [pre [post Hp]]. destruct pre; [by exists post | done].
  - rewrite orb_true_iff, IH, startswith_app. split.
    + intros [[post Hp] | [pre [post Hp]]].
      * by exists EmptyString, post.
      * exists (String c pre), post. rewrite append_cons. by rewrite Hp.
    + intros [pre [post Hp]]. destruct pre as [|c' pre].
      * left. by exists post.
      * right. exists pre, post. rewrite append_cons in Hp. congruence.
Qed.

Lemma cut_contains (s sep : string) :
  Py.contains s sep = false → Py.cut s sep = None.
Proof.
  induction s as [|c s IH]; cbn [Py.contains Py.cut]; intros Hc;
    apply orb_false_iff in Hc as [Hp Hc]; rewrite Hp; [done|].
  by rewrite IH.
Qed.

(** Without the separator in it, a text splits into itself alone. *)
Lemma split_without_separator (s sep : string) :
  Py.contains s sep = false → Py.split s sep = [s].
Proof.
  intros Hc. unfold Py.split.
  destruct (String.length s); cbn [Py.split_rounds]; [done|].
  by rewrite cut_contains.
Qed.

Lemma cut_is_contains (s sep : string) :
  is_Some (Py.cut s sep) ↔ Py.contains s sep = true.
Proof.
  induction s as [|c s IH]; cbn [Py.contains Py.cut].
  - destruct (Py.startswith _ _); simpl; split; (done || by intros [? ?]).
  - destruct (Py.startswith _ _); simpl; [split; eauto|].
    rewrite <- IH. destruct (Py.cut s sep) as [[? ?]|]; split; eauto; by intros [? ?].
Qed.

Lemma length_append (s t : string) :
  String.length (s +:+ t) = String.length s + String.length t.
Proof. induction s as [|c s IH]; [done|]. rewrite append_cons. simpl. by rewrite IH. Qed.

Lemma startswith_drop (s p : string) :
  Py.startswith s p = true → s = p +:+ Py.drop (String.length p) s.
Proof.
  revert s. induction p as [|a p IH]; intros s; [by destruct s|].
  destruct s as [|b s]; simpl; [done|].
  destruct (Ascii.eqb_spec a b) as [->|]; [|done].
  intros Hp. rewrite append_cons. f_equal. by apply IH.
Qed.

(** A cut takes the text apart around the separator. *)
Lemma cut_app (s sep pre post : string) :
  Py.cut s sep = Some (pre, post) → s = pre +:+ sep +:+ post.
Proof.
  revert pre. induction s as [|c s IH]; intros pre; cbn [Py.cut].
  - destruct (Py.startswith EmptyString sep) eqn:Hp; [|done].
    intros [= <- <-]. by apply startswith_drop.
  - destruct (Py.startswith (String c s) sep) eqn:Hp.
    + intros [= <- <-]. by apply startswith_drop.
    + destruct (Py.cut s sep) as [[pre' post']|]; [|done].
      intros [= <- <-]. rewrite append_cons. f_equal. by apply IH.
Qed.

(** The rounds of [Py.split] never run out: with a separator that is not
    empty, more rounds than the text has characters change nothing. *)
Lemma split_rounds_enough (n : nat) (s sep : string) :
  sep ≠ EmptyString → String.length s ≤ n →
  Py.split_rounds n s sep = Py.split s sep.
Proof.
  intros Hsep. unfold Py.split.
  assert (∀ n m s, String.length s ≤ n → String.length s ≤ m →
            Py.split_rounds n s sep = Py.split_rounds m s sep) as Hrounds.
  { clear n s. induction n as [|n IH]; intros m s Hn Hm.
    - destruct s; [|simpl in Hn; lia]. destruct m; [done|].
      cbn [Py.split_rounds].
      destruct (Py.cut EmptyString sep) as [[pre post]|] eqn:Hcut; [|done].
      apply cut_app in Hcut.
      destruct pre, sep; rewrite ?append_nil, ?append_cons in Hcut; done.
    - destruct m as [|m].
      + destruct s; [|simpl in Hm; lia]. cbn [Py.split_rounds].
        destruct (Py.cut EmptyString sep) as [[pre post]|] eqn:Hcut; [|done].
        apply cut_app in Hcut.
      destruct pre, sep; rewrite ?append_nil, ?append_cons in Hcut; done.
      + cbn [Py.split_rounds].
        destruct (Py.cut s sep) as [[pre post]|] eqn:Hcut; [|done].
        f_equal. apply cut_app in Hcut.
        assert (String.length post < String.length s).
        { rewrite Hcut, !length_append. destruct sep; [done|]. simpl. lia. }
        apply IH; lia. }
  intros Hn. by apply Hrounds.
Qed.

(** ** Mixtures and the deny-list *)

Lemma blacklist_not_super_glue :
  Forall (λ name, Py.startswith name "super_glue" = false) TASK_BLACKLIST.
Proof. unfold TASK_BLACKLIST. repeat (constructor; [reflexivity|]). constructor. Qed.

Lemma blacklist_not_anli :
  Forall (λ name, Py.startswith name "anli" = false) TASK_BLACKLIST.
Proof. unfold TASK_BLACKLIST. repeat (constructor; [reflexivity|]). constructor. Qed.

Lemma blacklist_not_score_eval :
  Forall (λ name, Py.endswith name "_score_eval" = false) TASK_BLACKLIST.
Proof. unfold TASK_BLACKLIST. repeat (constructor; [reflexivity|]). constructor. Qed.

Lemma filter_avoids (P : string → Prop) `{!∀ x, Decision (P x)} (l : list string) :
  (∀ name, name ∈ TASK_BLACKLIST → ¬ P name) →
  Forall (λ task, task ∉ TASK_BLACKLIST) (filter P l).
Proof.
  intros HP. apply Forall_forall. intros task Hin Hbl.
  apply list_elem_of_filter in Hin as [Hp _]. by apply (HP task).
Qed.

(** C1.  Whatever the registry and the two mixture lists hold, the script
    registers the seven mixtures all_tasks_combined_max_1m,
    all_super_glue_tasks, clean_tasks, clean_eval_tasks, anli_eval_tasks,
    score_eval_tasks and clean_score_eval_tasks, and the task list of none of
    them holds a name of TASK_BLACKLIST. *)
Theorem mixtures_avoid_blacklist (st : State) :
  mixture_name <$> mixtures st
  = ["all_tasks_combined_max_1m"; "all_super_glue_tasks"; "clean_tasks";
     "clean_eval_tasks"; "anli_eval_tasks"; "score_eval_tasks";
     "clean_score_eval_tasks"]
  ∧ Forall (λ m, Forall (λ task, task ∉ TASK_BLACKLIST) (mixture_tasks m))
           (mixtures st).
Proof.
  split; [reflexivity|].
  pose proof blacklist_not_super_glue as Hsg.
  pose proof blacklist_not_anli as Hanli.
  pose proof blacklist_not_score_eval as Hse.
  rewrite Forall_forall in Hsg, Hanli, Hse.
  unfold mixtures. repeat apply Forall_cons_2; [..|apply Forall_nil_2]; simpl;
    apply filter_avoids; intros name Hbl.
  - tauto.
  - rewrite (Hsg name Hbl). simpl. tauto.
  - tauto.
  - tauto.
  - rewrite (Hanli name Hbl). simpl. tauto.
  - rewrite (Hse name Hbl). simpl. tauto.
  - rewrite (Hse name Hbl). simpl. tauto.
Qed.

(** ** get_tf_dataset *)


(** ** Dictionaries and the monad *)

Lemma getitem_ok {V} (d : list (string * V)) (k : string) (v : V) :
  Py.getitem d k = Ok v → (k, v) ∈ d.
Proof.
  induction d as [|[k' v'] d IH]; simpl; [done|].
  destruct (String.eqb_spec k' k) as [->|Hne].
  - intros [= ->]. apply list_elem_of_here.
  - intros Hd. apply list_elem_of_further. by apply IH.
Qed.

Lemma getitem_err {V} (d : list (string * V)) (k : string) (e : Exn) :
  Py.getitem d k = Err e → e = KeyError k ∧ (k ∉ (fst <$> d)).
Proof.
  induction d as [|[k' v'] d IH]; simpl.
  - intros [= <-]. split; [done|]. apply not_elem_of_nil.
  - destruct (String.eqb_spec k' k) as [->|Hne]; [done|].
    intros Hd. destruct (IH Hd) as [-> Hk]. split; [done|].
    intros [?|?]%elem_of_cons; simpl in *; [congruence | done].
Qed.

Lemma getitem_is_ok {V} (d : list (string * V)) (k : string) :
  k ∈ (fst <$> d) → ∃ v, Py.getitem d k = Ok v.
Proof.
  intros Hk. destruct (Py.getitem d k) as [v|e] eqn:Hd; [by exists v|].
  by apply getitem_err in Hd as [_ ?].
Qed.

(** A list of lookups raises at its first missing key. *)
Lemma rmap_getitem_err {V} (d : list (string * V)) (l : list string) (k : string) :
  k ∈ l → k ∉ (fst <$> d) →
  ∃ k', k' ∈ l ∧ (k' ∉ (fst <$> d)) ∧ rmap (Py.getitem d) l = Err (KeyError k').
Proof.
  induction l as [|x l IH]; [by intros ?%elem_of_nil|].
  intros Hin Hk. simpl.
  destruct (Py.getitem d x) as [v|e] eqn:Hx; simpl.
  - apply elem_of_cons in Hin as [->|Hin].
    + apply getitem_ok in Hx. destruct Hk.
      apply list_elem_of_fmap. by exists (x, v).
    + destruct (IH Hin Hk) as (k' & Hk' & Hd & ->).
      exists k'. split; [by apply list_elem_of_further | done].
  - apply getitem_err in Hx as [-> Hx].
    exists x. split; [apply list_elem_of_here | done].
Qed.

Lemma bind_ok {A B} (m : M A) (k : A → M B) (st st' : State) (b : B) :
  bind m k st = (Ok b, st') →
  ∃ a st1, m st = (Ok a, st1) ∧ k a st1 = (Ok b, st').
Proof.
  unfold bind. destruct (m st) as [[a|e] st1]; [|done]. intros Hk. by exists a, st1.
Qed.

Lemma lift_ok {A} (r : result A) (st st' : State) (a : A) :
  lift r st = (Ok a, st') → r = Ok a ∧ st' = st.
Proof. unfold lift. by intros [= -> ->]. Qed.

Lemma gets_ok {A} (f : State → A) (st st' : State) (a : A) :
  gets f st = (Ok a, st') → a = f st ∧ st' = st.
Proof. unfold gets. by intros [= <- <-]. Qed.

Lemma TaskRegistry_add_ok (task : Task) (st st' : State) :
  TaskRegistry_add task st = (Ok tt, st') →
  (task_name task ∉ names st)
  ∧ TaskRegistry st' = TaskRegistry st ++ [task]
  ∧ all_templates st' = all_templates st
  ∧ train_mixture st' = train_mixture st
  ∧ eval_mixture st' = eval_mixture st.
Proof.
  unfold TaskRegistry_add, bind, gets, modify, raise.
  case_bool_decide as Hin; [done|]. by intros [= <-].
Qed.

(** ** add_task *)

Section AddTask.
Context `{Externals}.

(** When get_label_strings is quiet on a template, so is
    maybe_get_class_id_postprocessor. *)
Lemma postprocessor_quiet (template : Template) (r : result (option (list string))) :
  quiet (get_label_strings template) r →
  quiet (maybe_get_class_id_postprocessor template)
    (match r with
     | Ok (Some labels) => Ok (class_id_postprocess_fn labels)
     | Ok None => Ok strip_whitespace_fn
     | Err e => Err e
     end).
Proof.
  intros Hquiet st. unfold maybe_get_class_id_postprocessor, bind. rewrite Hquiet.
  by destruct r as [[labels|]|e].
Qed.

(** When eval is quiet, get_label_strings is quiet on every template. *)
Lemma quiet_eval_labels :
  (∀ template source, ∃ r, quiet (py_eval template source) r) →
  ∀ template, ∃ r, quiet (get_label_strings template) r.
Proof.
  intros Heval template. unfold get_label_strings.
  destruct (Py.index (Py.split (jinja template) "|||") 1) as [target|e] eqn:Htarget.
  - destruct (Re.label_list_re (Py.strip target)) as [[[before group2] after]|] eqn:Hre.
    + destruct (Heval template group2) as [r Hr].
      exists (let? value := r in
              let? items := py_iter value in
              let? labels := rmap (λ label, py_concat before label after) items in
              Ok (Some labels)).
      intros st. unfold bind, lift. rewrite Hre, Hr.
      destruct r as [value|]; [|done]. simpl.
      destruct (py_iter value) as [items|]; [|done]. simpl.
      by destruct (rmap _ items).
    + exists (Ok None). intros st. unfold bind, lift. by rewrite Hre.
  - exists (Err e). by intros st.
Qed.

(** What a call of add_task that completes has done, for a template on
    which get_label_strings is quiet: one task under the task name, then one
    more when the template has labels. *)
Lemma add_task_ok (dataset_name : string) (subset_name : option string)
    (template_name : string) (name : option string)
    (split_mapping : option (list (string * string)))
    (template : Template) (r : result (option (list string))) (st st' : State) :
  Py.getitem (get_dataset (all_templates st) dataset_name subset_name) template_name
    = Ok template →
  quiet (get_label_strings template) r →
  add_task dataset_name subset_name template_name name split_mapping st = (Ok tt, st') →
  ∃ labels primary rest,
    r = Ok labels
    ∧ TaskRegistry st' = TaskRegistry st ++ primary :: rest
    ∧ all_templates st' = all_templates st
    ∧ train_mixture st' = train_mixture st
    ∧ eval_mixture st' = eval_mixture st
    ∧ task_name primary
      = or_str name (get_task_name dataset_name subset_name template_name)
    ∧ task_metrics dataset_name subset_name template = Ok (metric_fns primary)
    ∧ quiet (maybe_get_class_id_postprocessor template) (Ok (postprocess_fn primary))
    ∧ match labels with
      | Some ((_ :: _) as ls) =>
          ∃ secondary, rest = [secondary]
            ∧ task_name secondary = task_name primary +:+ "_score_eval"
            ∧ metric_fns secondary = [rank_classification_metric (length ls)]
            ∧ postprocess_fn secondary = rank_classification_postprocessor
      | _ => rest = []
      end.
Proof.
  unfold add_task. intros Htemplate Hquiet Hrun.
  pose proof (postprocessor_quiet _ _ Hquiet) as Hquiet'.
  apply bind_ok in Hrun as (templates & st1 & [-> ->]%gets_ok & Hrun).
  apply bind_ok in Hrun as (template' & st1 & [Htemplate' ->]%lift_ok & Hrun).
  assert (template' = template) as -> by congruence.
  apply bind_ok in Hrun as (ms & st1 & [Hms ->]%lift_ok & Hrun).
  apply bind_ok in Hrun as (dataset_splits & st1 & [Hsplits ->]%lift_ok & Hrun).
  apply bind_ok in Hrun as (num_examples & st1 & [Hnum ->]%lift_ok & Hrun).
  apply bind_ok in Hrun as (post & st1 & Hpost & Hrun).
  rewrite Hquiet' in Hpost. injection Hpost as Hpost <-.
  apply bind_ok in Hrun as ([] & st1 & Hadd & Hrun).
  apply bind_ok in Hrun as (labels & st2 & Hlabels & Hrun).
  rewrite Hquiet in Hlabels. injection Hlabels as -> <-.
  rewrite Hpost in Hquiet'.
  apply TaskRegistry_add_ok in Hadd as (_ & Hreg & Htc & Htrain & Heval).
  destruct labels as [[|l ls]|].
  - injection Hrun as <-. eexists _, _, []. rewrite Hreg.
    split_and!; try done.
  - apply TaskRegistry_add_ok in Hrun as (_ & Hreg' & Htc' & Htrain' & Heval').
    eexists _, _, [_].
    rewrite Hreg', Hreg, <- app_assoc. simpl.
    split_and!; try done; try congruence.
    eexists. split_and!; done.
  - injection Hrun as <-. eexists _, _, []. rewrite Hreg.
    split_and!; try done.
Qed.

Lemma task_name_not_score_eval (name : string) : name ≠ name +:+ "_score_eval".
Proof.
  induction name as [|c name IH]; [done|].
  rewrite append_cons. congruence.
Qed.

(** C2.  When add_task completes for a template, it has registered a task
    named task_name + _score_eval exactly when get_label_strings gives a
    non-empty list of label strings for that template, and that task has
    the single metric rank_classification with num_classes the number of
    those label strings.  The template is one on which get_label_strings is
    quiet: eval of its label list gives the same value whatever the globals
    hold and changes none of them. *)
Theorem add_task_score_eval (dataset_name : string) (subset_name : option string)
    (template_name : string) (name : option string)
    (split_mapping : option (list (string * string)))
    (template : Template) (st st' : State) :
  Py.getitem (get_dataset (all_templates st) dataset_name subset_name) template_name
    = Ok template →
  (∃ r, quiet (get_label_strings template) r) →
  add_task dataset_name subset_name template_name name split_mapping st = (Ok tt, st') →
  ∃ labels new,
    quiet (get_label_strings template) (Ok labels)
    ∧ TaskRegistry st' = TaskRegistry st ++ new
    ∧ ((∃ task, task ∈ new
          ∧ task_name task
            = or_str name (get_task_name dataset_name subset_name template_name)
              +:+ "_score_eval")
       ↔ (∃ ls, labels = Some ls ∧ ls ≠ []))
    ∧ (∀ task, task ∈ new →
         task_name task
         = or_str name (get_task_name dataset_name subset_name template_name)
           +:+ "_score_eval" →
         ∃ ls, labels = Some ls
           ∧ metric_fns task = [rank_classification_metric (length ls)]).
Proof.
  intros Htemplate [r Hquiet] Hrun.
  apply (add_task_ok _ _ _ _ _ _ _ _ _ Htemplate Hquiet) in Hrun
    as (labels & primary & rest & -> & Hreg & _ & _ & _ & Hname & _ & _ & Hrest).
  exists labels, (primary :: rest). split; [done|]. split; [done|].
  rewrite <- Hname.
  assert (∀ task, task ∈ primary :: rest →
            task_name task = task_name primary +:+ "_score_eval" → task ∈ rest)
    as Hsecondary.
  { intros task [->|Hin]%elem_of_cons Htask; [|done].
    by apply task_name_not_score_eval in Htask. }
  destruct labels as [[|l ls]|].
  - subst rest. split.
    + split.
      * intros (task & Hin & Htask). by apply Hsecondary, elem_of_nil in Hin.
      * intros (ls & [= <-] & Hls). done.
    + intros task Hin Htask. by apply Hsecondary, elem_of_nil in Hin.
  - destruct Hrest as (secondary & -> & Hsname & Hsmetrics & _). split.
    + split; [intros _; by exists (l :: ls) |].
      intros _. exists secondary. split; [|done].
      apply list_elem_of_further, list_elem_of_here.
    + intros task Hin Htask.
      apply Hsecondary, list_elem_of_singleton in Hin as ->; [|done].
      by exists (l :: ls).
  - subst rest. split.
    + split.
      * intros (task & Hin & Htask). by apply Hsecondary, elem_of_nil in Hin.
      * by intros (ls & [=] & _).
    + intros task Hin Htask. by apply Hsecondary, elem_of_nil in Hin.
Qed.

(** C4, as the code has it.  Every task carries a metric list and a
    postprocessing function.  The task that add_task registers under the
    task name has the metrics get_glue_metric(subset) for the dataset glue,
    [accuracy] for super_glue with subset wsc.fixed or multirc,
    get_super_glue_metric(subset) for any other super_glue subset, and else
    the metrics that GET_METRICS holds for the names of the template's
    metadata; its postprocessing function is the one
    maybe_get_class_id_postprocessor gives.  The task it derives under
    task_name + _score_eval carries the single metric rank_classification
    and the rank_classification postprocessor instead.  The template is one
    on which get_label_strings is quiet. *)
Theorem add_task_metrics (dataset_name : string) (subset_name : option string)
    (template_name : string) (name : option string)
    (split_mapping : option (list (string * string)))
    (template : Template) (st st' : State) :
  Py.getitem (get_dataset (all_templates st) dataset_name subset_name) template_name
    = Ok template →
  (∃ r, quiet (get_label_strings template) r) →
  add_task dataset_name subset_name template_name name split_mapping st = (Ok tt, st') →
  ∃ primary rest,
    TaskRegistry st' = TaskRegistry st ++ primary :: rest
    ∧ task_name primary
      = or_str name (get_task_name dataset_name subset_name template_name)
    ∧ (dataset_name = "glue" →
         get_glue_metric subset_name = Ok (metric_fns primary))
    ∧ (dataset_name = "super_glue" →
         subset_name = Some "wsc.fixed" ∨ subset_name = Some "multirc" →
         metric_fns primary = [accuracy])
    ∧ (dataset_name = "super_glue" →
         subset_name ≠ Some "wsc.fixed" → subset_name ≠ Some "multirc" →
         get_super_glue_metric subset_name = Ok (metric_fns primary))
    ∧ (dataset_name ≠ "glue" → dataset_name ≠ "super_glue" →
         rmap (Py.getitem GET_METRICS) (metrics (metadata template))
         = Ok (metric_fns primary))
    ∧ quiet (maybe_get_class_id_postprocessor template) (Ok (postprocess_fn primary))
    ∧ Forall (λ task,
                task_name task = task_name primary +:+ "_score_eval"
                ∧ (∃ n, metric_fns task = [rank_classification_metric n])
                ∧ postprocess_fn task = rank_classification_postprocessor)
             rest.
Proof.
  intros Htemplate [r Hquiet] Hrun.
  apply (add_task_ok _ _ _ _ _ _ _ _ _ Htemplate Hquiet) in Hrun
    as (labels & primary & rest & -> & Hreg & _ & _ & _
        & Hname & Hmetrics & Hpost & Hrest).
  exists primary, rest. split; [done|]. split; [done|].
  unfold task_metrics in Hmetrics.
  split_and!.
  - intros ->. done.
  - intros -> Hsubset. simpl in Hmetrics.
    rewrite bool_decide_eq_true_2 in Hmetrics; [congruence|].
    destruct Hsubset as [->| ->];
      [apply list_elem_of_here | apply list_elem_of_further, list_elem_of_here].
  - intros -> Hwsc Hmultirc. simpl in Hmetrics.
    rewrite bool_decide_eq_false_2 in Hmetrics; [done|].
    intros [?|[?|?%elem_of_nil]%elem_of_cons]%elem_of_cons; done.
  - intros Hglue Hsuper.
    destruct (String.eqb_spec dataset_name "glue"); [done|].
    by destruct (String.eqb_spec dataset_name "super_glue").
  - done.
  - destruct labels as [[|l ls]|]; try (subst rest; by apply Forall_nil_2).
    destruct Hrest as (secondary & -> & Hsname & Hsmetrics & Hspost).
    apply Forall_singleton. eauto.
Qed.

(** C6.  For a template of a dataset other than glue and super_glue whose
    metadata lists a metric name that GET_METRICS does not hold, add_task
    raises KeyError on such a name, and the globals, the task registry
    among them, are as they were before the call. *)
Theorem add_task_unknown_metric (dataset_name : string) (subset_name : option string)
    (template_name : string) (name : option string)
    (split_mapping : option (list (string * string)))
    (template : Template) (metric : string) (st : State) :
  Py.getitem (get_dataset (all_templates st) dataset_name subset_name) template_name
    = Ok template →
  dataset_name ≠ "glue" → dataset_name ≠ "super_glue" →
  metric ∈ metrics (metadata template) →
  metric ∉ (fst <$> GET_METRICS) →
  ∃ unknown,
    unknown ∈ metrics (metadata template)
    ∧ (unknown ∉ (fst <$> GET_METRICS))
    ∧ add_task dataset_name subset_name template_name name split_mapping st
      = (Err (KeyError unknown), st).
Proof.
  intros Htemplate Hglue Hsuper Hin Hunknown.
  destruct (rmap_getitem_err GET_METRICS _ _ Hin Hunknown)
    as (unknown & Hin' & Hunknown' & Hlookup).
  exists unknown. split; [done|]. split; [done|].
  unfold add_task, bind, gets, lift. rewrite Htemplate.
  unfold task_metrics.
  destruct (String.eqb_spec dataset_name "glue"); [done|].
  destruct (String.eqb_spec dataset_name "super_glue"); [done|].
  by rewrite Hlookup.
Qed.

(** When get_label_strings raises for the template, add_task raises: either
    at an earlier line, with the globals as they were, or at line 126, with
    the same exception and the globals as get_label_strings left them. *)
Lemma add_task_label_error (dataset_name : string) (subset_name : option string)
    (template_name : string) (name : option string)
    (split_mapping : option (list (string * string)))
    (template : Template) (e : Exn) (st st1 : State) :
  Py.getitem (get_dataset (all_templates st) dataset_name subset_name) template_name
    = Ok template →
  get_label_strings template st = (Err e, st1) →
  ∃ e' st', add_task dataset_name subset_name template_name name split_mapping st
            = (Err e', st')
            ∧ (st' = st ∨ st' = st1 ∧ e' = e).
Proof.
  intros Htemplate Hlabels.
  unfold add_task, bind, gets, lift. rewrite Htemplate.
  destruct (task_metrics _ _ _); [|by eauto].
  destruct (get_dataset_splits _ _); [|by eauto].
  destruct (rmap _ _); [|by eauto].
  unfold maybe_get_class_id_postprocessor, bind. rewrite Hlabels. by eauto 6.
Qed.

(** A call of add_task that completes has found its template. *)
Lemma add_task_template (dataset_name : string) (subset_name : option string)
    (template_name : string) (name : option string)
    (split_mapping : option (list (string * string))) (st st' : State) :
  add_task dataset_name subset_name template_name name split_mapping st = (Ok tt, st') →
  ∃ template,
    Py.getitem (get_dataset (all_templates st) dataset_name subset_name) template_name
    = Ok template.
Proof.
  unfold add_task. intros Hrun.
  apply bind_ok in Hrun as (templates & st1 & [-> ->]%gets_ok & Hrun).
  apply bind_ok in Hrun as (template & st1 & [Htemplate ->]%lift_ok & Hrun).
  by exists template.
Qed.

(** C9.  For a template whose jinja has no ||| in it, get_label_strings
    raises IndexError at split(...)[1], whatever the globals hold and before
    it evaluates anything; add_task, which calls it, raises for such a
    template too and leaves the globals as they were.  So both are defined
    only for templates whose jinja holds the separator. *)
Theorem get_label_strings_needs_separator (template : Template) :
  Py.contains (jinja template) "|||" = false →
  quiet (get_label_strings template) (Err IndexError)
  ∧ ∀ dataset_name subset_name template_name name split_mapping st,
      Py.getitem (get_dataset (all_templates st) dataset_name subset_name)
        template_name = Ok template →
      ∃ e, add_task dataset_name subset_name template_name name split_mapping st
           = (Err e, st).
Proof.
  intros Hsep.
  assert (quiet (get_label_strings template) (Err IndexError)) as Hlabels.
  { intros st. unfold get_label_strings, bind, lift.
    by rewrite split_without_separator. }
  split; [done|]. intros dataset_name subset_name template_name name split_mapping st
    Htemplate.
  destruct (add_task_label_error dataset_name subset_name template_name name
              split_mapping _ _ _ _ Htemplate (Hlabels st))
    as (e' & st' & Hrun & [->|[-> _]]); by exists e'.
Qed.

End AddTask.

(** ** The manifest *)

Lemma read_row_run (row : Row) (l : Lists) (skip subset train eval HF_name : string) :
  row !! "skip" = Some skip → row !! "subset" = Some subset →
  row !! "do_train" = Some train → row !! "do_eval" = Some eval →
  row !! "HF_name" = Some HF_name →
  read_row row l =
    Ok (if truthy skip then l
        else
          let subset' := if String.eqb subset EmptyString then None else Some subset in
          let l1 :=
            if String.eqb train "TRUE"
            then {| train_sets := train_sets l ++ [with_subset row subset'];
                    eval_sets := eval_sets l;
                    do_train := do_train l ++ [(HF_name, subset')];
                    do_eval := do_eval l |}
            else l in
          if String.eqb eval "TRUE"
          then {| train_sets := train_sets l1;
                  eval_sets := eval_sets l1 ++ [with_subset row subset'];
                  do_train := do_train l1;
                  do_eval := do_eval l1 ++ [(HF_name, subset')] |}
          else l1).
Proof.
  intros Hskip Hsubset Htrain Heval Hname.
  unfold read_row, row_get. rewrite Hskip, Hsubset, Htrain, Heval, Hname. simpl.
  destruct (truthy skip); [done|].
  by destruct (String.eqb train "TRUE"), (String.eqb eval "TRUE").
Qed.

Lemma truthy_nonempty (s : string) : truthy s = true ↔ s ≠ EmptyString.
Proof. by destruct s. Qed.

(** C5, as the code has it.  Of a manifest row the script looks up only the
    columns skip, subset, do_train, do_eval and HF_name.  A row with a
    non-empty skip field changes nothing.  For a row with an empty skip
    field, an empty subset becomes None, the pair (HF_name, subset) is added
    to do_train and the row to train_sets exactly when do_train is TRUE, and
    the pair is added to do_eval and the row to eval_sets exactly when
    do_eval is TRUE.  A row that differs only in other columns gives the same
    do_train and do_eval and adds a row to train_sets and to eval_sets in the
    same cases; the row these two lists keep is the whole row, its other
    columns included. *)
Theorem read_row_columns (row row' : Row) (l : Lists)
    (skip subset train eval HF_name : string) :
  row !! "skip" = Some skip → row !! "subset" = Some subset →
  row !! "do_train" = Some train → row !! "do_eval" = Some eval →
  row !! "HF_name" = Some HF_name →
  (∀ column, column ∈ read_columns → row' !! column = row !! column) →
  let subset' := if decide (subset = EmptyString) then None else Some subset in
  ∃ l1 l1',
    read_row row l = Ok l1 ∧ read_row row' l = Ok l1'
    ∧ (skip ≠ EmptyString → l1 = l)
    ∧ (skip = EmptyString →
         do_train l1
           = do_train l ++ (if decide (train = "TRUE") then [(HF_name, subset')] else [])
         ∧ train_sets l1
           = train_sets l
             ++ (if decide (train = "TRUE") then [with_subset row subset'] else [])
         ∧ do_eval l1
           = do_eval l ++ (if decide (eval = "TRUE") then [(HF_name, subset')] else [])
         ∧ eval_sets l1
           = eval_sets l
             ++ (if decide (eval = "TRUE") then [with_subset row subset'] else []))
    ∧ do_train l1' = do_train l1 ∧ do_eval l1' = do_eval l1
    ∧ length (train_sets l1') = length (train_sets l1)
    ∧ length (eval_sets l1') = length (eval_sets l1).
Proof.
  intros Hskip Hsubset Htrain Heval Hname Hsame subset'.
  pose proof (read_row_run row l _ _ _ _ _ Hskip Hsubset Htrain Heval Hname) as Hrow.
  rewrite <- (Hsame "skip") in Hskip by (by apply (bool_decide_unpack _)).
  rewrite <- (Hsame "subset") in Hsubset by (by apply (bool_decide_unpack _)).
  rewrite <- (Hsame "do_train") in Htrain by (by apply (bool_decide_unpack _)).
  rewrite <- (Hsame "do_eval") in Heval by (by apply (bool_decide_unpack _)).
  rewrite <- (Hsame "HF_name") in Hname by (by apply (bool_decide_unpack _)).
  pose proof (read_row_run row' l _ _ _ _ _ Hskip Hsubset Htrain Heval Hname) as Hrow'.
  eexists _, _. split; [exact Hrow|]. split; [exact Hrow'|].
  assert ((if String.eqb subset EmptyString then None else Some subset) = subset')
    as -> by (subst subset'; destruct (String.eqb_spec subset EmptyString);
              by case_decide).
  split.
  { intros Hne. apply truthy_nonempty in Hne. by rewrite Hne. }
  split.
  { intros ->. simpl.
    destruct (String.eqb_spec train "TRUE"), (String.eqb_spec eval "TRUE");
      repeat case_decide; try done; simpl; by rewrite ?app_nil_r. }
  destruct (truthy skip); [done|].
  destruct (String.eqb train "TRUE"), (String.eqb eval "TRUE"); simpl;
    by rewrite ?length_app.
Qed.


(** ** The loops *)

Global Instance grows_preorder : PreOrder grows.
Proof.
  split.
  - intros st. by repeat split.
  - intros st1 st2 st3 (? & ? & ? & ?) (? & ? & ? & ?).
    repeat split; try (by etrans); congruence.
Qed.

Lemma grows_names (st st' : State) (name : string) :
  grows st st' → name ∈ names st → name ∈ names st'.
Proof.
  intros ([new Hnew] & _) Hin. unfold names in *.
  rewrite Hnew, fmap_app, elem_of_app. by left.
Qed.

Lemma grows_train (st st' : State) (name : string) :
  grows st st' → name ∈ train_mixture st → name ∈ train_mixture st'.
Proof. intros (_ & [new Hnew] & _) Hin. rewrite Hnew, elem_of_app. by left. Qed.

Lemma grows_eval (st st' : State) (name : string) :
  grows st st' → name ∈ eval_mixture st → name ∈ eval_mixture st'.
Proof. intros (_ & _ & [new Hnew] & _) Hin. rewrite Hnew, elem_of_app. by left. Qed.

(** A loop that completes has run its body, to completion, on every item. *)
Lemma for_each_ok {A} (l : list A) (body : A → M unit) (st st' : State) :
  (∀ x s s', x ∈ l → grows st s → body x s = (Ok tt, s') → grows s s') →
  for_each l body st = (Ok tt, st') →
  grows st st'
  ∧ ∀ x, x ∈ l → ∃ s s', grows st s ∧ body x s = (Ok tt, s') ∧ grows s' st'.
Proof.
  revert st. induction l as [|y l IH]; intros st Hbody Hrun; simpl in Hrun.
  - injection Hrun as <-. split; [done|]. by intros x ?%elem_of_nil.
  - apply bind_ok in Hrun as ([] & st1 & Hy & Hrun).
    assert (grows st st1) as Hg
      by (eapply Hbody; [apply list_elem_of_here | done | done]).
    destruct (IH st1) as [Hg' Hall]; [|done|].
    { intros x s s' Hx Hs. apply Hbody; [by apply list_elem_of_further | by etrans]. }
    split; [by etrans|].
    intros x [->|Hx]%elem_of_cons.
    + by exists st, st1.
    + destruct (Hall x Hx) as (s & s' & ? & ? & ?).
      exists s, s'. split; [by etrans | done].
Qed.

(** A property of the globals that every completed pass keeps holds when the
    loop completes. *)
Lemma for_each_invariant {A} (I : State → Prop) (l : list A) (body : A → M unit)
    (st st' : State) :
  (∀ x s s', x ∈ l → I s → body x s = (Ok tt, s') → I s') →
  I st → for_each l body st = (Ok tt, st') → I st'.
Proof.
  revert st. induction l as [|y l IH]; intros st Hbody HI Hrun; simpl in Hrun.
  - by injection Hrun as <-.
  - apply bind_ok in Hrun as ([] & st1 & Hy & Hrun).
    apply (IH st1); [|by eapply Hbody; [apply list_elem_of_here|..]|done].
    intros x s s' Hx. apply Hbody. by apply list_elem_of_further.
Qed.

Lemma modify_ok (f : State → State) (st st' : State) :
  modify f st = (Ok tt, st') → st' = f st.
Proof. unfold modify. by intros [= <-]. Qed.

Section Loops.
Context `{Externals}.

(** get_label_strings is quiet on the templates of the collection [c] *)
Variable c : TemplateCollection.
Hypothesis labels_quiet : quiet_on c.

Lemma grows_templates (st s : State) :
  get_dataset (all_templates st) = get_dataset c → grows st s →
  get_dataset (all_templates s) = get_dataset c.
Proof. by intros Hc (_ & _ & _ & ->). Qed.

Lemma add_task_grows (dataset_name : string) (subset_name : option string)
    (template_name : string) (name : option string)
    (split_mapping : option (list (string * string))) (st st' : State) :
  get_dataset (all_templates st) = get_dataset c →
  add_task dataset_name subset_name template_name name split_mapping st = (Ok tt, st') →
  grows st st'
  ∧ or_str name (get_task_name dataset_name subset_name template_name) ∈ names st'
  ∧ train_mixture st' = train_mixture st
  ∧ eval_mixture st' = eval_mixture st.
Proof.
  intros Hc Hrun.
  destruct (add_task_template _ _ _ _ _ _ _ Hrun) as [template Htemplate].
  destruct (labels_quiet dataset_name subset_name template_name template)
    as [r Hquiet]; [by rewrite <- Hc|].
  destruct (add_task_ok _ _ _ _ _ _ _ _ _ Htemplate Hquiet Hrun)
    as (labels & primary & rest & _ & Hreg & Htc & Htrain & Heval & Hname & _).
  split_and!; [| |done|done].
  - unfold grows. rewrite Htc, Htrain, Heval, Hreg.
    split_and!; [by eexists | done..].
  - unfold names. rewrite Hreg, fmap_app, elem_of_app, fmap_cons, Hname.
    right. apply list_elem_of_here.
Qed.

(** one pass of the loop of line 182 *)
Lemma register_template_ok (do_train do_eval : list Key)
    (dataset_name : string) (subset_name : option string)
    (dataset : DatasetTemplates) (template_name : string) (st st' : State) :
  get_dataset (all_templates st) = get_dataset c →
  register_template do_train do_eval dataset_name subset_name dataset template_name st
    = (Ok tt, st') →
  grows st st'
  ∧ get_task_name dataset_name subset_name template_name ∈ names st'
  ∧ ((dataset_name, subset_name) ∈ do_train →
       get_task_name dataset_name subset_name template_name ∈ train_mixture st')
  ∧ (eval_mixture st' = eval_mixture st
     ∨ eval_mixture st'
         = eval_mixture st ++ [get_task_name dataset_name subset_name template_name]
       ∧ (dataset_name, subset_name) ∈ do_eval
       ∧ ∃ template, Py.getitem dataset template_name = Ok template
                     ∧ original_task (metadata template) = true).
Proof.
  unfold register_template. intros Hc Hrun.
  apply bind_ok in Hrun as ([] & st1 & Hadd & Hrun).
  apply add_task_grows in Hadd as (Hg1 & Hname & Htrain1 & Heval1); [|done].
  simpl in Hname.
  apply bind_ok in Hrun as ([] & st2 & Htrain & Hrun).
  assert (grows st1 st2 ∧ eval_mixture st2 = eval_mixture st1
          ∧ ((dataset_name, subset_name) ∈ do_train →
               get_task_name dataset_name subset_name template_name
               ∈ train_mixture st2)) as (Hg2 & Heval2 & Hin2).
  { destruct (decide ((dataset_name, subset_name) ∈ do_train)) as [Hkey|Hkey].
    - rewrite bool_decide_eq_true_2 in Htrain by done.
      apply modify_ok in Htrain as ->. simpl. split_and!; [|done|].
      + unfold grows. simpl. split_and!; [done|by eexists|done..].
      + intros _. rewrite elem_of_app. right. apply list_elem_of_here.
    - rewrite bool_decide_eq_false_2 in Htrain by done.
      injection Htrain as <-. done. }
  assert (grows st2 st'
          ∧ (eval_mixture st' = eval_mixture st2
             ∨ eval_mixture st'
                 = eval_mixture st2
                   ++ [get_task_name dataset_name subset_name template_name]
               ∧ (dataset_name, subset_name) ∈ do_eval
               ∧ ∃ template, Py.getitem dataset template_name = Ok template
                             ∧ original_task (metadata template) = true))
    as (Hg3 & Heval3).
  { destruct (decide ((dataset_name, subset_name) ∈ do_eval)) as [Hkey|Hkey];
      [rewrite bool_decide_eq_true_2 in Hrun by done
      |rewrite bool_decide_eq_false_2 in Hrun by done;
       injection Hrun as <-; split; [done|by left]].
    apply bind_ok in Hrun as (template & st3 & [Htemplate ->]%lift_ok & Hrun).
    destruct (original_task (metadata template)) eqn:Horiginal.
    - apply modify_ok in Hrun as ->. simpl. split.
      + unfold grows. simpl. split_and!; [done|done|by eexists|done].
      + right. split_and!; [done|done|by exists template].
    - injection Hrun as <-. split; [done|by left]. }
  split_and!.
  - by do 2 etrans.
  - eapply grows_names; [|done]. by etrans.
  - intros Hkey. eapply grows_train; [done|]. by apply Hin2.
  - rewrite Heval2, Heval1 in Heval3. done.
Qed.

(** one pass of the loop of line 198 *)
Lemma register_anli_template_ok (anli_round template_name : string) (st st' : State) :
  get_dataset (all_templates st) = get_dataset c →
  register_anli_template anli_round template_name st = (Ok tt, st') →
  grows st st'
  ∧ eval_mixture st' = eval_mixture st ++ [anli_task_name anli_round template_name].
Proof.
  unfold register_anli_template. intros Hc Hrun.
  apply bind_ok in Hrun as ([] & st1 & Hadd & Hrun).
  apply add_task_grows in Hadd as (Hg1 & _ & _ & Heval1); [|done].
  apply modify_ok in Hrun as ->. simpl. split; [|by rewrite Heval1].
  etrans; [done|]. unfold grows. simpl. split_and!; [done|done|by eexists|done].
Qed.

(** one pass of the loop of line 176 *)
Lemma register_dataset_ok (do_train do_eval : list Key) (key : Key) (st st' : State) :
  get_dataset (all_templates st) = get_dataset c →
  register_dataset do_train do_eval key st = (Ok tt, st') →
  grows st st'
  ∧ (key ∈ do_train →
       ∀ template_name,
         template_name ∈ all_template_names (get_dataset (all_templates st) key.1 key.2) →
         get_task_name key.1 key.2 template_name ∈ names st'
         ∧ get_task_name key.1 key.2 template_name ∈ train_mixture st')
  ∧ ∃ new, eval_mixture st' = eval_mixture st ++ new
           ∧ Forall (eval_entry do_eval (all_templates st) key) new.
Proof.
  destruct key as [dataset_name subset_name]. unfold register_dataset. simpl.
  intros Hc.
  destruct (decide ((dataset_name, subset_name) ∉ (do_train ++ do_eval)%list))
    as [Hkey|Hkey].
  - rewrite bool_decide_eq_true_2 by done. intros ->%modify_ok. simpl.
    split_and!.
    + by unfold grows.
    + intros Hin. destruct Hkey. rewrite elem_of_app. by left.
    + exists []. by rewrite app_nil_r.
  - rewrite bool_decide_eq_false_2 by done. intros Hrun.
    apply bind_ok in Hrun as (templates & st1 & [-> ->]%gets_ok & Hrun).
    pose proof Hrun as Hloop.
    apply for_each_ok in Hloop as [Hg Hall].
    2: { intros ? s ? _ Hs Hbody.
         apply register_template_ok in Hbody as [? _]; [done|].
         by apply (grows_templates st). }
    split_and!; [done| |].
    + intros Hin template_name Hname.
      destruct (Hall _ Hname) as (s & s' & Hs & Hbody & Hg').
      apply register_template_ok in Hbody as (_ & Hreg & Htrain & _);
        [|by apply (grows_templates st)].
      split; [by eapply grows_names | eapply grows_train; [done|by apply Htrain]].
    + assert (get_dataset (all_templates st') = get_dataset c ∧ ∃ new,
                eval_mixture st' = eval_mixture st ++ new
                ∧ Forall (eval_entry do_eval (all_templates st)
                            (dataset_name, subset_name)) new) as [_ Hnew]; [|done].
      revert Hrun.
      apply (for_each_invariant (λ s,
               get_dataset (all_templates s) = get_dataset c ∧ ∃ new,
                 eval_mixture s = eval_mixture st ++ new
                 ∧ Forall (eval_entry do_eval (all_templates st)
                             (dataset_name, subset_name)) new)).
      * intros template_name s s' _ (Hs & new & Hnew & Hentries) Hbody.
        apply register_template_ok in Hbody as (Hss' & _ & _ & Heval); [|done].
        destruct Heval as [Heval | (Heval & Hin & template & Htemplate & Horiginal)].
        -- split; [by apply (grows_templates s)|]. exists new. by rewrite Heval.
        -- split; [by apply (grows_templates s)|].
           exists (new ++ [get_task_name dataset_name subset_name template_name]).
           rewrite Heval, Hnew, <- app_assoc. split; [done|].
           apply Forall_app. split; [done|]. apply Forall_singleton.
           split; [done|]. by exists template_name, template.
      * split; [done|]. exists []. by rewrite app_nil_r.
Qed.

(** one pass of the loop of line 197 *)
Lemma register_anli_round_ok (anli_round : string) (st st' : State) :
  get_dataset (all_templates st) = get_dataset c →
  register_anli_round anli_round st = (Ok tt, st') →
  grows st st'
  ∧ (∀ template_name,
       template_name ∈ all_template_names (get_dataset (all_templates st) "anli" None) →
       anli_task_name anli_round template_name ∈ eval_mixture st')
  ∧ ∃ new, eval_mixture st' = eval_mixture st ++ new
           ∧ Forall (λ name, ∃ template_name,
               template_name
                 ∈ all_template_names (get_dataset (all_templates st) "anli" None)
               ∧ name = anli_task_name anli_round template_name) new.
Proof.
  unfold register_anli_round. intros Hc Hrun.
  apply bind_ok in Hrun as (templates & st1 & [-> ->]%gets_ok & Hrun).
  pose proof Hrun as Hloop.
  apply for_each_ok in Hloop as [Hg Hall].
  2: { intros ? s ? _ Hs Hbody.
       apply register_anli_template_ok in Hbody as [? _]; [done|].
       by apply (grows_templates st). }
  split_and!; [done| |].
  - intros template_name Hname.
    destruct (Hall _ Hname) as (s & s' & Hs & Hbody & Hg').
    apply register_anli_template_ok in Hbody as (_ & Heval);
      [|by apply (grows_templates st)].
    eapply grows_eval; [done|]. rewrite Heval, elem_of_app. right.
    apply list_elem_of_here.
  - assert (get_dataset (all_templates st') = get_dataset c ∧ ∃ new,
              eval_mixture st' = eval_mixture st ++ new
              ∧ Forall (λ name, ∃ template_name,
                  template_name
                    ∈ all_template_names (get_dataset (all_templates st) "anli" None)
                  ∧ name = anli_task_name anli_round template_name) new)
      as [_ Hnew]; [|done].
    revert Hrun.
    apply (for_each_invariant (λ s,
             get_dataset (all_templates s) = get_dataset c ∧ ∃ new,
               eval_mixture s = eval_mixture st ++ new
               ∧ Forall (λ name, ∃ template_name,
                   template_name
                     ∈ all_template_names (get_dataset (all_templates st) "anli" None)
                   ∧ name = anli_task_name anli_round template_name) new)).
    + intros template_name s s' Hname (Hs & new & Hnew & Hentries) Hbody.
      apply register_anli_template_ok in Hbody as (Hss' & Heval); [|done].
      split; [by apply (grows_templates s)|].
      exists (new ++ [anli_task_name anli_round template_name]).
      rewrite Heval, Hnew, <- app_assoc. split; [done|].
      apply Forall_app. split; [done|]. apply Forall_singleton. by exists template_name.
    + split; [done|]. exists []. by rewrite app_nil_r.
Qed.

End Loops.

(** lines 173 to 206 *)
Lemma register_tasks_ok `{Externals} (do_train do_eval : list Key) (st st' : State) :
  quiet_on (all_templates st) →
  register_tasks do_train do_eval st = (Ok tt, st') →
  let c := all_templates st in
  (∀ key template_name,
     key ∈ keys (remove "anli" None c) → key ∈ do_train →
     template_name ∈ all_template_names (get_dataset c key.1 key.2) →
     get_task_name key.1 key.2 template_name ∈ names st'
     ∧ get_task_name key.1 key.2 template_name ∈ train_mixture st')
  ∧ (∀ anli_round template_name,
       anli_round ∈ anli_rounds →
       template_name ∈ all_template_names (get_dataset c "anli" None) →
       anli_task_name anli_round template_name ∈ eval_mixture st')
  ∧ ∃ main anli,
      eval_mixture st' = eval_mixture st ++ main ++ anli
      ∧ Forall (λ name, ∃ key, key ∈ keys (remove "anli" None c)
                               ∧ eval_entry do_eval c key name) main
      ∧ Forall (λ name, ∃ anli_round template_name,
                  anli_round ∈ anli_rounds
                  ∧ template_name ∈ all_template_names (get_dataset c "anli" None)
                  ∧ name = anli_task_name anli_round template_name) anli.
Proof.
  unfold register_tasks. intros Hquiet Hrun. set (c := all_templates st) in *.
  apply bind_ok in Hrun as ([] & st0 & ->%modify_ok & Hrun).
  apply bind_ok in Hrun as (ks & st0 & [-> ->]%gets_ok & Hrun).
  apply bind_ok in Hrun as ([] & st1 & Hmain & Hanli).
  set (st0 := {| all_templates := remove "anli" None (all_templates st);
                 TaskRegistry := TaskRegistry st;
                 train_mixture := train_mixture st;
                 eval_mixture := eval_mixture st |}) in *.
  change (keys (all_templates st0)) with (keys (remove "anli" None c)) in Hmain.
  assert (∀ s, grows st0 s → get_dataset (all_templates s) = get_dataset c)
    as Hsame by (by intros s (_ & _ & _ & ->)).
  pose proof Hmain as Hloop.
  apply for_each_ok in Hloop as [Hg1 Hall1].
  2: { intros ? s ? _ Hs Hbody.
       apply (register_dataset_ok c Hquiet) in Hbody as [? _]; [done|by apply Hsame]. }
  pose proof Hanli as Hloop.
  apply for_each_ok in Hloop as [Hg2 Hall2].
  2: { intros ? s ? _ Hs Hbody.
       apply (register_anli_round_ok c Hquiet) in Hbody as [? _]; [done|].
       apply Hsame. by etrans. }
  split_and!.
  - intros key template_name Hkey Htrain Hname.
    destruct (Hall1 _ Hkey) as (s & s' & Hs & Hbody & Hs').
    apply (register_dataset_ok c Hquiet) in Hbody as (_ & Hreg & _); [|by apply Hsame].
    rewrite (Hsame s Hs) in Hreg.
    destruct (Hreg Htrain _ Hname) as [Hn Ht].
    assert (grows s' st') by (by etrans).
    split; [by apply (grows_names s') | by apply (grows_train s')].
  - intros anli_round template_name Hround Hname.
    destruct (Hall2 _ Hround) as (s & s' & Hs & Hbody & Hs').
    apply (register_anli_round_ok c Hquiet) in Hbody as (_ & Heval & _);
      [|apply Hsame; by etrans].
    rewrite (Hsame s) in Heval by (by etrans).
    apply (grows_eval s'); [done|]. by apply Heval.
  - assert (grows st0 st1 ∧ ∃ main, eval_mixture st1 = eval_mixture st ++ main
              ∧ Forall (λ name, ∃ key, key ∈ keys (remove "anli" None c)
                                       ∧ eval_entry do_eval c key name) main)
      as (_ & main & Hmain_eq & Hmain_all).
    { revert Hmain.
      apply (for_each_invariant (λ s, grows st0 s ∧ ∃ main,
               eval_mixture s = eval_mixture st ++ main
               ∧ Forall (λ name, ∃ key, key ∈ keys (remove "anli" None c)
                                        ∧ eval_entry do_eval c key name) main)).
      - intros key s s' Hkey (Hs & main & Heq & Hentries) Hbody.
        apply (register_dataset_ok c Hquiet) in Hbody
          as (Hss' & _ & new & Hnew & Hnew_all); [|by apply Hsame].
        split; [by etrans|]. exists (main ++ new).
        rewrite Hnew, Heq, <- app_assoc. split; [done|].
        apply Forall_app. split; [done|].
        unfold eval_entry in Hnew_all. rewrite (Hsame s Hs) in Hnew_all.
        eapply Forall_impl; [done|]. intros name Hentry. by exists key.
      - split; [done|]. exists []. by rewrite app_nil_r. }
    assert (grows st1 st' ∧ ∃ anli, eval_mixture st' = eval_mixture st1 ++ anli
              ∧ Forall (λ name, ∃ anli_round template_name,
                          anli_round ∈ anli_rounds
                          ∧ template_name
                              ∈ all_template_names (get_dataset c "anli" None)
                          ∧ name = anli_task_name anli_round template_name) anli)
      as (_ & anli & Hanli_eq & Hanli_all).
    { revert Hanli.
      apply (for_each_invariant (λ s, grows st1 s ∧ ∃ anli,
               eval_mixture s = eval_mixture st1 ++ anli
               ∧ Forall (λ name, ∃ anli_round template_name,
                           anli_round ∈ anli_rounds
                           ∧ template_name
                               ∈ all_template_names (get_dataset c "anli" None)
                           ∧ name = anli_task_name anli_round template_name) anli)).
      - intros anli_round s s' Hround (Hs & anli & Heq & Hentries) Hbody.
        apply (register_anli_round_ok c Hquiet) in Hbody
          as (Hss' & _ & new & Hnew & Hnew_all); [|apply Hsame; by etrans].
        split; [by etrans|]. exists (anli ++ new).
        rewrite Hnew, Heq, <- app_assoc. split; [done|].
        apply Forall_app. split; [done|].
        rewrite (Hsame s) in Hnew_all by (by etrans).
        eapply Forall_impl; [done|].
        intros name (template_name & ? & ?). by exists anli_round, template_name.
      - split; [done|]. exists []. by rewrite app_nil_r. }
    exists main, anli. split; [|done].
    by rewrite Hanli_eq, Hmain_eq, <- app_assoc.
Qed.

(** ** From the manifest to the registry *)

Lemma subset_of_eqb (subset : string) :
  (if String.eqb subset EmptyString then None else Some subset) = subset_of subset.
Proof. unfold subset_of. destruct (String.eqb_spec subset EmptyString); by case_decide. Qed.

Lemma read_row_do_train (row : Row) (l l' : Lists) (subset HF_name : string) :
  read_row row l = Ok l' →
  row !! "skip" = Some EmptyString → row !! "do_train" = Some "TRUE" →
  row !! "HF_name" = Some HF_name → row !! "subset" = Some subset →
  (HF_name, subset_of subset) ∈ do_train l'.
Proof.
  intros Hrow Hskip Htrain Hname Hsubset. revert Hrow.
  unfold read_row, row_get. rewrite Hskip, Htrain, Hname, Hsubset. simpl.
  rewrite subset_of_eqb.
  destruct (row !! "do_eval") as [eval|]; simpl; [|done].
  destruct (String.eqb eval "TRUE"); intros [= <-]; simpl;
    rewrite elem_of_app; right; apply list_elem_of_here.
Qed.

Lemma read_row_lists (row : Row) (l l' : Lists) :
  read_row row l = Ok l' →
  do_train l `prefix_of` do_train l'
  ∧ ∀ key, key ∈ do_eval l' → key ∈ do_eval l ∨ eval_row row key.
Proof.
  unfold read_row, row_get.
  destruct (row !! "skip") as [skip|] eqn:Hskip; simpl; [|done].
  destruct skip as [|c skip]; simpl; [|intros [= <-]; split; [reflexivity|by left]].
  destruct (row !! "subset") as [subset|] eqn:Hsubset; simpl; [|done].
  rewrite subset_of_eqb.
  destruct (row !! "do_train") as [train|]; simpl; [|done].
  destruct (row !! "HF_name") as [HF_name|] eqn:Hname; simpl.
  - destruct (row !! "do_eval") as [eval|] eqn:Heval; simpl;
      [|by destruct (String.eqb train "TRUE")].
    destruct (String.eqb train "TRUE"), (String.eqb_spec eval "TRUE") as [->|Hne];
      simpl; intros [= <-]; simpl;
      (split; [first [reflexivity | by eexists]|]); intros key Hkey;
      try (by left);
      (apply elem_of_app in Hkey as [?| ->%list_elem_of_singleton]; [by left|right]);
      unfold eval_row; simpl; (split_and!; try done); by exists subset.
  - destruct (String.eqb train "TRUE"); simpl; [done|].
    destruct (row !! "do_eval") as [eval|]; simpl; [|done].
    destruct (String.eqb eval "TRUE"); simpl; [done|].
    intros [= <-]. split; [reflexivity|by left].
Qed.

Lemma read_rows_do_train (rows : list Row) (row : Row) (l l' : Lists)
    (subset HF_name : string) :
  read_rows rows l = Ok l' → row ∈ rows →
  row !! "skip" = Some EmptyString → row !! "do_train" = Some "TRUE" →
  row !! "HF_name" = Some HF_name → row !! "subset" = Some subset →
  (HF_name, subset_of subset) ∈ do_train l'.
Proof.
  intros Hrows Hin Hskip Htrain Hname Hsubset.
  assert (∀ rows l l', read_rows rows l = Ok l' → do_train l `prefix_of` do_train l')
    as Hprefix.
  { clear. induction rows as [|r rows IH]; intros l l'; simpl.
    - by intros [= <-].
    - destruct (read_row r l) as [l1|] eqn:Hr; simpl; [|done].
      intros Hrows. etrans; [by apply read_row_lists in Hr as [? _] | by apply IH]. }
  revert l Hrows. induction rows as [|r rows IH]; intros l; simpl;
    [by apply elem_of_nil in Hin|].
  destruct (read_row r l) as [l1|] eqn:Hr; simpl; [|done]. intros Hrows.
  apply elem_of_cons in Hin as [<-|Hin]; [|by eapply IH].
  destruct (Hprefix _ _ _ Hrows) as [more ->]. rewrite elem_of_app. left.
  by eapply read_row_do_train.
Qed.

Lemma read_rows_do_eval (rows : list Row) (l l' : Lists) (key : Key) :
  read_rows rows l = Ok l' → key ∈ do_eval l' →
  key ∈ do_eval l ∨ ∃ row, row ∈ rows ∧ eval_row row key.
Proof.
  revert l. induction rows as [|r rows IH]; intros l; simpl.
  - intros [= <-]. by left.
  - destruct (read_row r l) as [l1|] eqn:Hr; simpl; [|done]. intros Hrows Hkey.
    destruct (IH _ Hrows Hkey) as [Hin | (row & Hin & Hrow)].
    + apply read_row_lists in Hr as [_ Hr]. destruct (Hr _ Hin) as [?|?]; [by left|].
      right. exists r. split; [apply list_elem_of_here | done].
    + right. exists row. split; [by apply list_elem_of_further | done].
Qed.

Lemma script_ok `{Externals} (rows : list Row) (collection : TemplateCollection)
    (l : Lists) (st : State) (ms : list Mixture) :
  script rows collection = Ok (l, st, ms) →
  read_manifest rows = Ok l
  ∧ register_tasks (do_train l) (do_eval l) (initial_state collection) = (Ok tt, st)
  ∧ ms = mixtures st.
Proof.
  unfold script. destruct (read_manifest rows) as [l0|]; simpl; [|done].
  destruct (register_tasks _ _ _) as [[[]|] st0] eqn:Htasks; [|done].
  intros [= <- <- <-]. done.
Qed.

(** C3, as the code has it.  When the script completes, then for every
    manifest row that is not skipped and has do_train equal to TRUE, and whose
    pair (HF_name, subset) is a key of the template collection other than
    anli (which line 173 takes out of the collection before the loop of line
    176 runs), the task registry holds a task named
    get_task_name(dataset, subset, template) for every template name of that
    pair, and train_mixture holds each such name.  The templates of the
    collection are such that get_label_strings is quiet on them: eval of a
    label list gives the same value whatever the globals hold and changes
    none of them. *)
Theorem train_rows_registered `{Externals} (rows : list Row)
    (collection : TemplateCollection) (l : Lists) (st : State) (ms : list Mixture)
    (row : Row) (HF_name subset template_name : string) :
  quiet_on collection →
  script rows collection = Ok (l, st, ms) →
  row ∈ rows →
  row !! "skip" = Some EmptyString → row !! "do_train" = Some "TRUE" →
  row !! "HF_name" = Some HF_name → row !! "subset" = Some subset →
  (HF_name, subset_of subset) ∈ keys collection →
  (HF_name, subset_of subset) ≠ ("anli", None) →
  template_name ∈ all_template_names (get_dataset collection HF_name (subset_of subset)) →
  get_task_name HF_name (subset_of subset) template_name ∈ names st
  ∧ get_task_name HF_name (subset_of subset) template_name ∈ train_mixture st.
Proof.
  intros Hquiet (Hmanifest & Htasks & _)%script_ok Hrow Hskip Htrain Hname Hsubset
    Hkey Hanli Htemplate.
  apply register_tasks_ok in Htasks as (Hmain & _); [|exact Hquiet]. simpl in Hmain.
  apply (Hmain (HF_name, subset_of subset) template_name); [|by eapply read_rows_do_train|done].
  by apply list_elem_of_filter.
Qed.

(** C8.  When the script completes, eval_mixture is what the main loop
    appended followed by what the ANLI loop appended.  Every name the main
    loop appended is get_task_name(dataset, subset, template) for a pair
    other than ANLI that a manifest row marks do_eval and for a template
    whose original_task flag is true.  The ANLI loop appended the task name
    of every round r1, r2, r3 and every ANLI template, whatever the manifest
    and the original_task flag say.  The templates of the collection are
    such that get_label_strings is quiet on them: eval of a label list gives
    the same value whatever the globals hold and changes none of them. *)
Theorem eval_mixture_entries `{Externals} (rows : list Row)
    (collection : TemplateCollection) (l : Lists) (st : State) (ms : list Mixture) :
  quiet_on collection →
  script rows collection = Ok (l, st, ms) →
  (∃ main anli,
     eval_mixture st = main ++ anli
     ∧ Forall (λ name, ∃ key template_name template,
                 key ≠ ("anli", None)
                 ∧ key ∈ keys collection
                 ∧ key ∈ do_eval l
                 ∧ (∃ row, row ∈ rows ∧ eval_row row key)
                 ∧ Py.getitem (get_dataset collection key.1 key.2) template_name
                   = Ok template
                 ∧ original_task (metadata template) = true
                 ∧ name = get_task_name key.1 key.2 template_name) main
     ∧ Forall (λ name, ∃ anli_round template_name,
                 anli_round ∈ anli_rounds
                 ∧ template_name ∈ all_template_names (get_dataset collection "anli" None)
                 ∧ name = anli_task_name anli_round template_name) anli)
  ∧ ∀ anli_round template_name,
      anli_round ∈ ["r1"; "r2"; "r3"] →
      template_name ∈ all_template_names (get_dataset collection "anli" None) →
      get_task_name "anli" None template_name +:+ "_" +:+ anli_round ∈ eval_mixture st.
Proof.
  intros Hquiet (Hmanifest & Htasks & _)%script_ok.
  apply register_tasks_ok in Htasks
    as (_ & Hanli & main & anli & Heq & Hmain & Hanli'); [|exact Hquiet].
  simpl in *. split; [|exact Hanli].
  exists main, anli. split; [done|]. split; [|done].
  eapply Forall_impl; [done|].
  intros name (key & Hkey & Heval & template_name & template & Htemplate & Horiginal & ->).
  exists key, template_name, template.
  apply list_elem_of_filter in Hkey as [Hne Hkey].
  split_and!; try done.
  destruct (read_rows_do_eval _ _ _ _ Hmanifest Heval) as [Hin|?]; [|done].
  by apply elem_of_nil in Hin.
Qed.

(** * The sample, run *)

Lemma in_read_columns (P : string → Prop) :
  P "skip" → P "subset" → P "do_train" → P "do_eval" → P "HF_name" →
  ∀ column, column ∈ read_columns → P column.
Proof.
  intros ? ? ? ? ? column Hin. unfold read_columns in Hin.
  repeat (apply elem_of_cons in Hin as [->|Hin]; [done|]).
  by apply elem_of_nil in Hin.
Qed.

(** eval as the sample has it is quiet, and so is get_label_strings *)
Lemma sample_eval_quiet (template : Template) (source : string) :
  ∃ r, quiet (py_eval (Externals:=Sample.externals) template source) r.
Proof. eexists. intros st. reflexivity. Qed.

Lemma sample_labels_quiet (template : Template) :
  ∃ r, quiet (get_label_strings (H:=Sample.externals) template) r.
Proof. apply quiet_eval_labels, sample_eval_quiet. Qed.

Lemma sample_label_strings (template : Template) :
  quiet (get_label_strings (H:=Sample.externals) template) (Sample.label_strings template).
Proof.
  destruct (sample_labels_quiet template) as [r Hr].
  unfold Sample.label_strings. rewrite Hr. exact Hr.
Qed.

Lemma sample_quiet_on (c : TemplateCollection) : quiet_on (H:=Sample.externals) c.
Proof. intros ? ? ? template _. apply sample_labels_quiet. Qed.

Lemma sample_labels_on (c : TemplateCollection) :
  labels_on (H:=Sample.externals) c Sample.label_strings.
Proof. intros ? ? ? template _. apply sample_label_strings. Qed.

(** the registry of the sample holds a second task for the sentiment
    template, with the rank classification metric *)
Lemma add_task_score_eval_witness :
  add_task (H:=Sample.externals) "imdb" None "sentiment" None None Sample.empty_state
    = (Ok tt, Sample.after_sentiment)
  ∧ ∃ labels new,
      quiet (get_label_strings (H:=Sample.externals) Sample.sentiment) (Ok labels)
      ∧ TaskRegistry Sample.after_sentiment = new.
Proof.
  assert (add_task (H:=Sample.externals) "imdb" None "sentiment" None None
            Sample.empty_state = (Ok tt, Sample.after_sentiment)) as Hrun
    by (vm_compute; reflexivity).
  split; [exact Hrun|].
  destruct (add_task_score_eval (H:=Sample.externals) "imdb" None "sentiment" None None
              Sample.sentiment Sample.empty_state Sample.after_sentiment)
    as (labels & new & Hlabels & Hreg & _);
    [reflexivity | apply sample_labels_quiet | exact Hrun |].
  exists labels, new. split; [exact Hlabels | exact Hreg].
Defined.

Lemma train_rows_registered_witness :
  match script (H:=Sample.externals) Sample.manifest Sample.collection with
  | Ok (_, st, _) => "imdb_sentiment" ∈ names st ∧ "imdb_sentiment" ∈ train_mixture st
  | Err _ => False
  end.
Proof.
  destruct (script (H:=Sample.externals) Sample.manifest Sample.collection)
    as [[[l st] ms]|e] eqn:Hscript; [|vm_compute in Hscript; discriminate Hscript].
  apply (train_rows_registered (H:=Sample.externals) Sample.manifest Sample.collection
           l st ms (Sample.row EmptyString EmptyString "TRUE" "TRUE" "imdb")
           "imdb" EmptyString "sentiment" (sample_quiet_on _) Hscript).
  - apply list_elem_of_here.
  - reflexivity.
  - reflexivity.
  - reflexivity.
  - reflexivity.
  - apply list_elem_of_here.
  - discriminate.
  - apply list_elem_of_here.
Defined.

(** C3, as the claim has it, fails: the manifest asks for training on ANLI
    in a row that is not skipped, the collection holds a template for ANLI,
    and after the script neither the registry nor train_mixture holds
    get_task_name of that template. *)
Lemma anli_row_not_registered :
  Sample.anli_row ∈ Sample.anli_manifest
  ∧ Sample.anli_row !! "skip" = Some EmptyString
  ∧ Sample.anli_row !! "do_train" = Some "TRUE"
  ∧ Sample.anli_row !! "HF_name" = Some "anli"
  ∧ Sample.anli_row !! "subset" = Some EmptyString
  ∧ ("anli", None) ∈ keys Sample.collection
  ∧ "entails" ∈ all_template_names (get_dataset Sample.collection "anli" None)
  ∧ ∃ l st ms,
      script (H:=Sample.externals) Sample.anli_manifest Sample.collection = Ok (l, st, ms)
      ∧ ("anli", None) ∈ do_train l
      ∧ (get_task_name (Externals:=Sample.externals) "anli" None "entails" ∉ names st)
      ∧ (get_task_name (Externals:=Sample.externals) "anli" None "entails"
         ∉ train_mixture st).
Proof.
  split; [by apply (bool_decide_unpack _)|].
  do 4 (split; [reflexivity|]).
  split; [by apply (bool_decide_unpack _)|].
  split; [apply list_elem_of_here|].
  destruct (script (H:=Sample.externals) Sample.anli_manifest Sample.collection)
    as [[[l st] ms]|e] eqn:Hscript; [|vm_compute in Hscript; discriminate Hscript].
  exists l, st, ms. split; [done|].
  assert (do_train l = [("imdb", None); ("xsum", None); ("anli", None)]
          ∧ names st
            = ["imdb_sentiment"; "imdb_sentiment_score_eval"; "xsum_summary";
               "anli_entails_r1"; "anli_entails_r1_score_eval";
               "anli_entails_r2"; "anli_entails_r2_score_eval";
               "anli_entails_r3"; "anli_entails_r3_score_eval"]
          ∧ train_mixture st = ["imdb_sentiment"; "xsum_summary"])
    as (-> & -> & ->).
  { apply (f_equal (λ r, match r with
                         | Ok (l, st, _) => Some (do_train l, names st, train_mixture st)
                         | Err _ => None
                         end)) in Hscript.
    vm_compute in Hscript. by injection Hscript as -> -> ->. }
  split_and!; by apply (bool_decide_unpack _).
Qed.

(** C4, as the claim has it, fails: the task imdb_sentiment_score_eval is
    registered for a dataset that is neither glue nor super_glue, and its
    metric list is not the one GET_METRICS gives for the template's
    metrics. *)
Lemma score_eval_task_has_other_metrics :
  ∃ task,
    add_task (H:=Sample.externals) "imdb" None "sentiment" None None Sample.empty_state
      = (Ok tt, Sample.after_sentiment)
    ∧ task ∈ TaskRegistry Sample.after_sentiment
    ∧ task_name task = "imdb_sentiment_score_eval"
    ∧ metric_fns task = [rank_classification_metric 2]
    ∧ rmap (Py.getitem GET_METRICS) (metrics (metadata Sample.sentiment)) = Ok [accuracy]
    ∧ Ok (metric_fns task)
      ≠ rmap (Py.getitem GET_METRICS) (metrics (metadata Sample.sentiment)).
Proof.
  destruct (TaskRegistry Sample.after_sentiment !! 1) as [task|] eqn:Htask;
    [|vm_compute in Htask; discriminate Htask].
  exists task. split; [vm_compute; reflexivity|].
  split; [by eapply list_elem_of_lookup_2|].
  vm_compute in Htask. injection Htask as <-.
  split_and!; [reflexivity..|]. vm_compute. discriminate.
Qed.

Lemma add_task_metrics_witness :
  ∃ primary rest,
    TaskRegistry Sample.after_sentiment = primary :: rest
    ∧ metric_fns primary = [accuracy]
    ∧ Forall (λ task, ∃ n, metric_fns task = [rank_classification_metric n]) rest.
Proof.
  destruct (add_task_metrics (H:=Sample.externals) "imdb" None "sentiment" None None
              Sample.sentiment Sample.empty_state Sample.after_sentiment)
    as (primary & rest & Hreg & _ & _ & _ & _ & Hmetrics & _ & Hrest);
    [reflexivity | apply sample_labels_quiet | vm_compute; reflexivity |].
  exists primary, rest. split; [exact Hreg|]. split.
  - assert (Ok (metric_fns primary) = Ok [accuracy]) as Heq.
    { rewrite <- Hmetrics; [reflexivity | discriminate | discriminate]. }
    by injection Heq.
  - eapply Forall_impl; [exact Hrest|]. by intros task (_ & ? & _).
Defined.

(** C5, as the claim has it, fails: two rows that agree on the five columns
    and differ in another one leave different train_sets. *)
Lemma read_row_keeps_other_columns :
  (∀ column, column ∈ read_columns →
     Sample.noted_row !! column = Sample.plain_row !! column)
  ∧ ∃ l1 l2,
      read_row Sample.plain_row no_lists = Ok l1
      ∧ read_row Sample.noted_row no_lists = Ok l2
      ∧ train_sets l1 ≠ train_sets l2.
Proof.
  split; [by apply in_read_columns|].
  eexists _, _. split; [reflexivity|]. split; [reflexivity|].
  intros Heq.
  apply (f_equal (λ kept : list KeptRow,
                    match kept with [row] => row !! "note" | _ => None end)) in Heq.
  vm_compute in Heq. discriminate Heq.
Qed.

Lemma read_row_columns_witness :
  ∃ l1 l1',
    read_row Sample.plain_row no_lists = Ok l1
    ∧ read_row Sample.noted_row no_lists = Ok l1'
    ∧ do_train l1 = [("imdb", None)]
    ∧ do_train l1' = do_train l1 ∧ do_eval l1' = do_eval l1.
Proof.
  destruct (read_row_columns Sample.plain_row Sample.noted_row no_lists
              EmptyString EmptyString "TRUE" EmptyString "imdb")
    as (l1 & l1' & Hrow & Hrow' & _ & Hkept & Htrain & Heval & _);
    [reflexivity | reflexivity | reflexivity | reflexivity | reflexivity
    | by apply in_read_columns |].
  exists l1, l1'. split; [exact Hrow|]. split; [exact Hrow'|].
  split; [|by split].
  by destruct Hkept as (-> & _).
Defined.

Lemma add_task_unknown_metric_witness :
  ∃ unknown,
    add_task (H:=Sample.externals) "ms_marco" None "ranked" None None Sample.empty_state
    = (Err (KeyError unknown), Sample.empty_state).
Proof.
  destruct (add_task_unknown_metric (H:=Sample.externals) "ms_marco" None "ranked"
              None None Sample.ranked "Mean Reciprocal Rank" Sample.empty_state)
    as (unknown & _ & _ & Hrun).
  - reflexivity.
  - discriminate.
  - discriminate.
  - apply list_elem_of_further, list_elem_of_here.
  - apply (bool_decide_unpack _). vm_compute. reflexivity.
  - by exists unknown.
Defined.

Lemma eval_mixture_entries_witness :
  match script (H:=Sample.externals) Sample.manifest Sample.collection with
  | Ok (_, st, _) =>
      "anli_entails_r1" ∈ eval_mixture st
      ∧ "anli_entails_r2" ∈ eval_mixture st
      ∧ "anli_entails_r3" ∈ eval_mixture st
  | Err _ => False
  end.
Proof.
  destruct (script (H:=Sample.externals) Sample.manifest Sample.collection)
    as [[[l st] ms]|e] eqn:Hscript; [|vm_compute in Hscript; discriminate Hscript].
  destruct (eval_mixture_entries (H:=Sample.externals) Sample.manifest Sample.collection
              l st ms (sample_quiet_on _) Hscript) as [_ Hanli].
  split_and!.
  - apply (Hanli "r1" "entails"); apply list_elem_of_here.
  - apply (Hanli "r2" "entails");
      [apply list_elem_of_further, list_elem_of_here | apply list_elem_of_here].
  - apply (Hanli "r3" "entails");
      [do 2 apply list_elem_of_further; apply list_elem_of_here
      | apply list_elem_of_here].
Defined.

Lemma get_label_strings_needs_separator_witness :
  quiet (get_label_strings (H:=Sample.externals) Sample.unsplit) (Err IndexError)
  ∧ ∃ e, add_task (H:=Sample.externals) "trec" None "unsplit" None None Sample.empty_state
         = (Err e, Sample.empty_state).
Proof.
  destruct (get_label_strings_needs_separator (H:=Sample.externals) Sample.unsplit)
    as [Hlabels Htask]; [reflexivity|].
  split; [exact Hlabels|].
  apply (Htask "trec" None "unsplit" None None Sample.empty_state). reflexivity.
Defined.

(** C10, as the claim has it, fails: a row whose do_train is True, which is
    not the exact text TRUE, and whose do_eval is TRUE is placed in the eval
    lists. *)
Lemma mixed_case_row_in_eval_lists :
  Sample.mixed_row !! "skip" = Some EmptyString
  ∧ Sample.mixed_row !! "do_train" = Some "True"
  ∧ "True" ≠ "TRUE"
  ∧ Sample.mixed_row !! "do_eval" = Some "TRUE"
  ∧ ∃ l,
      read_row Sample.mixed_row no_lists = Ok l
      ∧ train_sets l = [] ∧ do_train l = []
      ∧ eval_sets l = [with_subset Sample.mixed_row None]
      ∧ do_eval l = [("imdb", None)]
      ∧ ¬ (eval_sets l = eval_sets no_lists ∧ do_eval l = do_eval no_lists).
Proof.
  do 2 (split; [reflexivity|]). split; [discriminate|]. split; [reflexivity|].
  eexists. split; [reflexivity|]. simpl.
  split_and!; [reflexivity..|]. by intros [_ ?].
Qed.



(** * Further properties of the functions *)

(** ** strip_whitespace *)

Lemma all_space_cons (c : ascii) (s : string) :
  all_space (String c s) ↔ Py.isspace c = true ∧ all_space s.
Proof. unfold all_space. simpl. by rewrite Forall_cons. Qed.

Lemma all_space_nil : all_space EmptyString.
Proof. apply Forall_nil_2. Qed.

Lemma lstrip_app (s : string) :
  ∃ pre, s = pre +:+ Py.lstrip s ∧ all_space pre.
Proof.
  induction s as [|c s (pre & Hs & Hpre)]; simpl.
  - exists EmptyString. split; [done | apply all_space_nil].
  - destruct (Py.isspace c) eqn:Hc.
    + exists (String c pre). rewrite append_cons, <- Hs. split; [done|].
      by apply all_space_cons.
    + exists EmptyString. split; [done | apply all_space_nil].
Qed.

Lemma lstrip_head (s r : string) (c : ascii) :
  Py.lstrip s = String c r → Py.isspace c = false.
Proof.
  induction s as [|a s IH]; simpl; [done|].
  destruct (Py.isspace a) eqn:Ha; [done|]. by intros [= <- _].
Qed.

Lemma lstrip_fixed (s : string) :
  (∀ c r, s = String c r → Py.isspace c = false) → Py.lstrip s = s.
Proof. destruct s as [|c s]; simpl; [done|]. intros Hc. by rewrite (Hc c s). Qed.

Lemma rstrip_app (s : string) :
  ∃ post, s = Py.rstrip s +:+ post ∧ all_space post.
Proof.
  induction s as [|c s (post & Hs & Hpost)]; simpl.
  - exists EmptyString. split; [done | apply all_space_nil].
  - destruct (Py.rstrip s) as [|b y] eqn:Hr.
    + rewrite append_nil in Hs. subst post. destruct (Py.isspace c) eqn:Hc.
      * exists (String c s). split; [done|]. by apply all_space_cons.
      * exists s. by rewrite append_cons, append_nil.
    + exists post. rewrite append_cons, <- Hs. done.
Qed.

Lemma rstrip_last (s r : string) (c : ascii) :
  Py.rstrip s = r +:+ String c EmptyString → Py.isspace c = false.
Proof.
  revert r. induction s as [|a s IH]; intros r; simpl.
  - destruct r; rewrite ?append_nil, ?append_cons; done.
  - destruct (Py.rstrip s) as [|b y] eqn:Hr.
    + destruct (Py.isspace a) eqn:Ha.
      * destruct r; rewrite ?append_nil, ?append_cons; done.
      * destruct r as [|a' r]; rewrite ?append_nil, ?append_cons.
        -- by intros [= <-].
        -- intros [= _ Hnil]. destruct r; rewrite ?append_nil, ?append_cons in Hnil; done.
    + destruct r as [|a' r]; rewrite ?append_nil, ?append_cons; [done|].
      intros [= _ Hy]. by apply (IH r).
Qed.

Lemma rstrip_head (s : string) :
  match s with
  | EmptyString => Py.rstrip s = EmptyString
  | String c _ => Py.rstrip s = EmptyString ∨ ∃ y, Py.rstrip s = String c y
  end.
Proof.
  destruct s as [|c s]; simpl; [done|].
  destruct (Py.rstrip s); [|by right; eexists].
  destruct (Py.isspace c); [by left | by right; eexists].
Qed.

Lemma rstrip_fixed (s : string) : Py.rstrip (Py.rstrip s) = Py.rstrip s.
Proof.
  induction s as [|c s IH]; simpl; [done|].
  destruct (Py.rstrip s) as [|b y] eqn:Hr.
  - destruct (Py.isspace c) eqn:Hc; simpl; [done|]. by rewrite Hc.
  - change (Py.rstrip (String c (String b y)))
      with (match Py.rstrip (String b y) with
            | EmptyString => if Py.isspace c then EmptyString else String c EmptyString
            | String b' y' => String c (String b' y')
            end).
    by rewrite IH.
Qed.

(** X1.  strip_whitespace takes blanks, and only blanks, off the two ends:
    the text is blanks, then the result, then blanks; the result neither
    starts nor ends with a blank; and stripping a stripped text changes
    nothing. *)
Theorem strip_whitespace_ends (output_or_target : string) :
  (∃ pre post,
     output_or_target = pre +:+ strip_whitespace output_or_target +:+ post
     ∧ all_space pre ∧ all_space post)
  ∧ (∀ c r, strip_whitespace output_or_target = String c r → Py.isspace c = false)
  ∧ (∀ c r, strip_whitespace output_or_target = r +:+ String c EmptyString →
            Py.isspace c = false)
  ∧ strip_whitespace (strip_whitespace output_or_target)
    = strip_whitespace output_or_target.
Proof.
  unfold strip_whitespace, Py.strip.
  assert (∀ c r, Py.rstrip (Py.lstrip output_or_target) = String c r →
                 Py.isspace c = false) as Hhead.
  { intros c r Hr.
    pose proof (rstrip_head (Py.lstrip output_or_target)) as Hh.
    destruct (Py.lstrip output_or_target) as [|a s] eqn:Hl; [congruence|].
    destruct Hh as [Hh|[y Hh]]; [congruence|].
    assert (a = c) as <- by congruence. by eapply lstrip_head. }
  split_and!.
  - destruct (lstrip_app output_or_target) as (pre & Hs & Hpre).
    destruct (rstrip_app (Py.lstrip output_or_target)) as (post & Hs' & Hpost).
    exists pre, post. split; [|done]. by rewrite <- Hs', <- Hs.
  - done.
  - intros c r. apply rstrip_last.
  - rewrite (lstrip_fixed _ Hhead). apply rstrip_fixed.
Qed.

(** ** The label-list pattern *)

Lemma append_assoc (s t u : string) : (s +:+ t) +:+ u = s +:+ t +:+ u.
Proof. induction s as [|c s IH]; [done|]. rewrite !append_cons. by rewrite IH. Qed.

Lemma append_empty_r (s : string) : s +:+ EmptyString = s.
Proof. induction s as [|c s IH]; [done|]. rewrite append_cons. by rewrite IH. Qed.

Lemma chr_some {A} (p : ascii → bool) (k : string → option A) (s : string) (r : A) :
  Re.chr p k s = Some r → ∃ c s', s = String c s' ∧ p c = true ∧ k s' = Some r.
Proof.
  destruct s as [|c s]; simpl; [done|].
  destruct (p c) eqn:Hc; [|done]. intros Hk. by exists c, s.
Qed.

Lemma star_some {A} (p : ascii → bool) (k : string → option A) (s : string) (r : A) :
  Re.star p k s = Some r →
  ∃ run s', s = run +:+ s'
            ∧ Forall (λ c, p c = true) (list_ascii_of_string run)
            ∧ k s' = Some r.
Proof.
  induction s as [|c s IH]; simpl.
  - intros Hk. exists EmptyString, EmptyString. by split_and!; [|apply Forall_nil_2|].
  - assert (k (String c s) = Some r →
            ∃ run s', String c s = run +:+ s'
                      ∧ Forall (λ c, p c = true) (list_ascii_of_string run)
                      ∧ k s' = Some r) as Hhere.
    { intros Hk. exists EmptyString, (String c s). by split_and!; [|apply Forall_nil_2|]. }
    destruct (p c) eqn:Hc; [|done].
    destruct (Re.star p k s) as [r'|] eqn:Hs; [|done].
    intros [= ->]. destruct (IH eq_refl) as (run & s' & -> & Hrun & Hk).
    exists (String c run), s'. rewrite append_cons. split_and!; [done| |done].
    simpl. by apply Forall_cons.
Qed.

Lemma lit_true (a c : ascii) : Re.lit a c = true → c = a.
Proof. unfold Re.lit. by intros ->%Ascii.eqb_eq. Qed.

Lemma text_app (run rest : string) : Re.text (run +:+ rest) rest = run.
Proof.
  unfold Re.text. rewrite length_append.
  replace (String.length run + String.length rest - String.length rest)
    with (String.length run) by lia.
  induction run as [|c run IH].
  - rewrite append_nil. by destruct rest.
  - rewrite append_cons. simpl. by rewrite IH.
Qed.

Ltac flatten_append :=
  repeat first [rewrite append_assoc | rewrite append_cons | rewrite append_nil].

Ltac split_chr H :=
  let c := fresh "c" in let Hc := fresh "Hc" in
  apply chr_some in H as (c & ? & -> & Hc & H);
  first [apply lit_true in Hc; subst c | idtac].

Ltac split_star H :=
  apply star_some in H as (? & ? & -> & ? & H).

(** the shape of a target the pattern of line 44 matches *)
Lemma label_list_re_parts (target g1 g2 g3 : string) :
  Re.label_list_re target = Some (g1, g2, g3) →
  ∃ ws1 ws2 q1 inner q2 ws3 ws4 idx ws5 nl,
    target = g1 +:+ "{{" +:+ ws1 +:+ g2 +:+ ws4 +:+ "[" +:+ idx +:+ "]"
                +:+ ws5 +:+ "}}" +:+ g3 +:+ nl
    ∧ g2 = "[" +:+ ws2 +:+ String q1 inner +:+ String q2 ws3 +:+ "]"
    ∧ brace_free g1 ∧ brace_free g3
    ∧ all_space ws1 ∧ all_space ws2 ∧ all_space ws3
    ∧ all_space ws4 ∧ all_space ws5
    ∧ Re.quote q1 = true ∧ Re.quote q2 = true
    ∧ Forall (λ c, Re.dot c = true) (list_ascii_of_string inner)
    ∧ Forall (λ c, Re.dot c = true) (list_ascii_of_string idx)
    ∧ (nl = EmptyString ∨ nl = String "010" EmptyString).
Proof.
  unfold Re.label_list_re, Re.list_re, Re.index_re, Re.tail_re. intros H.
  apply star_some in H as (run1 & ? & -> & Hg1 & H).
  split_chr H. split_chr H.
  apply star_some in H as (ws1 & ? & -> & Hws1 & H).
  split_chr H.
  apply star_some in H as (ws2 & ? & -> & Hws2 & H).
  apply chr_some in H as (q1 & ? & -> & Hq1 & H).
  apply star_some in H as (inner & ? & -> & Hinner & H).
  apply chr_some in H as (q2 & ? & -> & Hq2 & H).
  apply star_some in H as (ws3 & ? & -> & Hws3 & H).
  split_chr H.
  apply star_some in H as (ws4 & ? & -> & Hws4 & H).
  split_chr H.
  apply star_some in H as (idx & ? & -> & Hidx & H).
  split_chr H.
  apply star_some in H as (ws5 & ? & -> & Hws5 & H).
  split_chr H. split_chr H.
  apply star_some in H as (run3 & nl & -> & Hg3 & H).
  destruct (Re.at_end nl) eqn:Hnl; [|done].
  rewrite !text_app in H.
  match type of H with
  | Some (_, Re.text ?from ?to, _) = _ =>
      replace from
        with (("[" +:+ ws2 +:+ String q1 inner +:+ String q2 ws3 +:+ "]") +:+ to) in H
        by (by flatten_append)
  end.
  rewrite text_app in H. injection H as <- <- <-.
  exists ws1, ws2, q1, inner, q2, ws3, ws4, idx, ws5, nl.
  split_and!; try done.
  - by flatten_append.
  - destruct nl as [|c [|? ?]]; [by left| |done].
    right. by rewrite (lit_true "010" c Hnl).
Qed.

(** X2.  When the pattern of line 44 matches a target, the target is: group
    1, two opening braces, blanks, group 2, blanks, a bracketed index on one
    line, blanks, two closing braces, group 3 (and at most a final line
    feed).  Groups 1 and 3 hold no brace, and group 2 is a bracket, blanks, a
    quote character, a text on one line, a quote character, blanks and the
    closing bracket. *)
Theorem label_list_re_sound (target g1 g2 g3 : string) :
  Re.label_list_re target = Some (g1, g2, g3) →
  ∃ ws1 ws2 q1 inner q2 ws3 ws4 idx ws5 nl,
    target = g1 +:+ "{{" +:+ ws1 +:+ g2 +:+ ws4 +:+ "[" +:+ idx +:+ "]"
                +:+ ws5 +:+ "}}" +:+ g3 +:+ nl
    ∧ g2 = "[" +:+ ws2 +:+ String q1 inner +:+ String q2 ws3 +:+ "]"
    ∧ brace_free g1 ∧ brace_free g3
    ∧ all_space ws1 ∧ all_space ws2 ∧ all_space ws3
    ∧ all_space ws4 ∧ all_space ws5
    ∧ Re.quote q1 = true ∧ Re.quote q2 = true
    ∧ Forall (λ c, Re.dot c = true) (list_ascii_of_string inner)
    ∧ Forall (λ c, Re.dot c = true) (list_ascii_of_string idx)
    ∧ (nl = EmptyString ∨ nl = String "010" EmptyString).
Proof. apply label_list_re_parts. Qed.

Lemma label_list_re_sound_witness :
  ∃ ws1 ws4 idx ws5 nl,
    "{{ ['negative', 'positive'] [label] }}"
    = "{{" +:+ ws1 +:+ "['negative', 'positive']" +:+ ws4 +:+ "[" +:+ idx +:+ "]"
           +:+ ws5 +:+ "}}" +:+ nl.
Proof.
  destruct (label_list_re_sound "{{ ['negative', 'positive'] [label] }}"
              EmptyString "['negative', 'positive']" EmptyString)
    as (ws1 & ws2 & q1 & inner & q2 & ws3 & ws4 & idx & ws5 & nl & Htarget & _);
    [reflexivity|].
  exists ws1, ws4, idx, ws5, nl. exact Htarget.
Defined.

(** ** get_label_strings *)

Lemma list_ascii_app (s t : string) :
  list_ascii_of_string (s +:+ t) = list_ascii_of_string s ++ list_ascii_of_string t.
Proof. induction s as [|c s IH]; [done|]. rewrite append_cons. simpl. by rewrite IH. Qed.

Lemma brace_free_app (s t : string) :
  brace_free (s +:+ t) ↔ brace_free s ∧ brace_free t.
Proof. unfold brace_free. by rewrite list_ascii_app, Forall_app. Qed.

Lemma rmap_concat (before after : string) (items : list PyVal) (labels : list string) :
  rmap (λ label, py_concat before label after) items = Ok labels →
  ∃ texts, items = PyStr <$> texts
           ∧ labels = (λ text, before +:+ text +:+ after) <$> texts.
Proof.
  revert labels. induction items as [|item items IH]; intros labels; simpl.
  - intros [= <-]. by exists [].
  - destruct item as [| |text|]; simpl; try done.
    destruct (rmap _ items) as [labels'|]; simpl; [|done].
    intros [= <-]. destruct (IH labels' eq_refl) as (texts & -> & ->).
    by exists (text :: texts).
Qed.

Section LabelStrings.
Context `{Externals}.

(** what get_label_strings has done when it returns a list *)
Lemma get_label_strings_some (template : Template) (labels : list string)
    (st st' : State) :
  get_label_strings template st = (Ok (Some labels), st') →
  ∃ target before group2 after value items,
    Py.split (jinja template) "|||" !! 1 = Some target
    ∧ Re.label_list_re (Py.strip target) = Some (before, group2, after)
    ∧ py_eval template group2 st = (Ok value, st')
    ∧ py_iter value = Ok items
    ∧ rmap (λ label, py_concat before label after) items = Ok labels.
Proof.
  unfold get_label_strings, Py.index, bind, lift, ret.
  destruct (Py.split (jinja template) "|||" !! 1) as [target|]; [|done].
  destruct (Re.label_list_re (Py.strip target)) as [[[before group2] after]|] eqn:Hre;
    [|done].
  destruct (py_eval template group2 st) as [[value|] st1] eqn:Heval; [|done].
  destruct (py_iter value) as [items|] eqn:Hiter; [|done].
  destruct (rmap _ items) as [labels'|] eqn:Hmap; [|done].
  intros [= <- <-]. by exists target, before, group2, after, value, items.
Qed.

(** X3.  When get_label_strings returns a list, the text after the first
    separator, stripped, is a text without braces, two opening braces,
    blanks, the expression that eval is given, an index, two closing braces
    and a text without braces; eval, called once on that expression, gave a
    value whose items are strings only and left the globals as
    get_label_strings leaves them; and the labels are these strings, in
    order, each between the two texts. *)
Theorem get_label_strings_labels (template : Template) (labels : list string)
    (st st' : State) :
  get_label_strings template st = (Ok (Some labels), st') →
  ∃ target before blanks expression index after value texts,
    Py.split (jinja template) "|||" !! 1 = Some target
    ∧ Py.strip target
      = before +:+ "{{" +:+ blanks +:+ expression +:+ index +:+ "}}" +:+ after
    ∧ brace_free before ∧ brace_free after ∧ all_space blanks
    ∧ py_eval template expression st = (Ok value, st')
    ∧ py_iter value = Ok (PyStr <$> texts)
    ∧ labels = (λ text, before +:+ text +:+ after) <$> texts
    ∧ length labels = length texts.
Proof.
  intros (target & before & group2 & after & value & items & Htarget & Hre & Heval
          & Hiter & Hmap)%get_label_strings_some.
  apply rmap_concat in Hmap as (texts & -> & ->).
  apply label_list_re_parts in Hre
    as (ws1 & ws2 & q1 & inner & q2 & ws3 & ws4 & idx & ws5 & nl & Hstrip & _
        & Hbefore & Hafter & Hws1 & _ & _ & _ & _ & _ & _ & _ & _ & Hnl).
  exists target, before, ws1, group2,
    (ws4 +:+ "[" +:+ idx +:+ "]" +:+ ws5), after, value, texts.
  split_and!; try done; [|by rewrite length_fmap].
  destruct Hnl as [->| ->].
  - rewrite Hstrip. flatten_append. by rewrite append_empty_r.
  - exfalso.
    assert (Py.isspace "010" = false) as Hspace; [|done].
    apply (rstrip_last (Py.lstrip target)
             (before +:+ "{{" +:+ ws1 +:+ group2 +:+ ws4 +:+ "[" +:+ idx +:+ "]"
                     +:+ ws5 +:+ "}}" +:+ after)).
    fold (Py.strip target). rewrite Hstrip. by flatten_append.
Qed.

(** the pattern does not match a text without braces, and eval is not
    called *)
Lemma plain_target_no_labels (template : Template) (target : string) :
  Py.split (jinja template) "|||" !! 1 = Some target →
  brace_free target →
  quiet (get_label_strings template) (Ok None).
Proof.
  intros Htarget Hfree st. unfold get_label_strings, Py.index, bind, lift.
  rewrite Htarget.
  destruct (Re.label_list_re (Py.strip target)) as [[[before group2] after]|] eqn:Hre;
    [|done].
  exfalso.
  apply label_list_re_parts in Hre
    as (ws1 & ws2 & q1 & inner & q2 & ws3 & ws4 & idx & ws5 & nl & Hstrip & _).
  destruct (lstrip_app target) as (pre & Hl & _).
  destruct (rstrip_app (Py.lstrip target)) as (post & Hr & _).
  fold (Py.strip target) in Hr. rewrite Hr, Hstrip in Hl. rewrite Hl in Hfree.
  apply brace_free_app in Hfree as [_ Hfree].
  apply brace_free_app in Hfree as [Hfree _].
  apply brace_free_app in Hfree as [_ Hfree].
  unfold brace_free in Hfree. rewrite append_cons in Hfree. simpl in Hfree.
  apply Forall_cons in Hfree as [Hbrace _]. done.
Qed.

(** X4.  A target without any brace has no label list: get_label_strings
    returns None for it whatever the globals hold and whatever eval would
    do, since eval is not called, and it leaves the globals as they are. *)
Theorem get_label_strings_plain_target (template : Template) (target : string) :
  Py.split (jinja template) "|||" !! 1 = Some target →
  brace_free target →
  quiet (get_label_strings template) (Ok None).
Proof. apply plain_target_no_labels. Qed.

End LabelStrings.

Lemma get_label_strings_labels_witness :
  ∃ before after texts,
    get_label_strings (H:=Sample.externals) Sample.sentiment Sample.empty_state
    = (Ok (Some ((λ text, before +:+ text +:+ after) <$> texts)), Sample.empty_state)
    ∧ length texts = 2.
Proof.
  destruct (get_label_strings_labels (H:=Sample.externals) Sample.sentiment
              ["negative"; "positive"] Sample.empty_state Sample.empty_state)
    as (target & before & blanks & expression & index & after & value & texts
        & _ & _ & _ & _ & _ & _ & _ & Hlabels & Hlen);
    [reflexivity|].
  exists before, after, texts. split; [by rewrite <- Hlabels | by rewrite <- Hlen].
Defined.

Lemma get_label_strings_plain_target_witness :
  quiet (get_label_strings (H:=Sample.externals) Cases.constant) (Ok None).
Proof.
  apply (get_label_strings_plain_target (H:=Sample.externals) Cases.constant " no").
  - reflexivity.
  - unfold brace_free. simpl. repeat constructor.
Defined.

(** ** The tasks of add_task *)

Section Tasks.
Context `{Externals}.

(** What a call of add_task that completes has looked up and registered, for
    a template on which get_label_strings is quiet. *)
Lemma add_task_tasks (dataset_name : string) (subset_name : option string)
    (template_name : string) (name : option string)
    (split_mapping : option (list (string * string)))
    (template : Template) (r : result (option (list string))) (st st' : State) :
  Py.getitem (get_dataset (all_templates st) dataset_name subset_name) template_name
    = Ok template →
  quiet (get_label_strings template) r →
  add_task dataset_name subset_name template_name name split_mapping st = (Ok tt, st') →
  ∃ metrics dataset_splits num_examples labels,
    r = Ok labels
    ∧ task_metrics dataset_name subset_name template = Ok metrics
    ∧ get_dataset_splits dataset_name subset_name = Ok dataset_splits
    ∧ mapped_examples (used_mapping split_mapping dataset_splits) dataset_splits
      = Ok num_examples
    ∧ TaskRegistry st'
      = TaskRegistry st
        ++ tasks_of (or_str name (get_task_name dataset_name subset_name template_name))
             (task_source dataset_name subset_name template
                (used_mapping split_mapping dataset_splits) num_examples)
             metrics labels.
Proof.
  unfold add_task. intros Htemplate Hquiet Hrun.
  pose proof (postprocessor_quiet _ _ Hquiet) as Hquiet'.
  apply bind_ok in Hrun as (templates & st1 & [-> ->]%gets_ok & Hrun).
  apply bind_ok in Hrun as (template' & st1 & [Htemplate' ->]%lift_ok & Hrun).
  assert (template' = template) as -> by congruence.
  apply bind_ok in Hrun as (ms & st1 & [Hms ->]%lift_ok & Hrun).
  apply bind_ok in Hrun as (dataset_splits & st1 & [Hsplits ->]%lift_ok & Hrun).
  apply bind_ok in Hrun as (num_examples & st1 & [Hnum ->]%lift_ok & Hrun).
  apply bind_ok in Hrun as (post & st1 & Hpost & Hrun).
  rewrite Hquiet' in Hpost. injection Hpost as Hpost <-.
  apply bind_ok in Hrun as ([] & st1 & Hadd & Hrun).
  apply bind_ok in Hrun as (labels & st2 & Hlabels & Hrun).
  rewrite Hquiet in Hlabels. injection Hlabels as -> <-.
  apply TaskRegistry_add_ok in Hadd as (_ & Hreg & _).
  exists ms, dataset_splits, num_examples, labels.
  split_and!; try done.
  destruct labels as [[|l ls]|]; injection Hpost as <-.
  - injection Hrun as <-. by rewrite Hreg.
  - apply TaskRegistry_add_ok in Hrun as (_ & Hreg' & _).
    by rewrite Hreg', Hreg, <- app_assoc.
  - injection Hrun as <-. by rewrite Hreg.
Qed.

End Tasks.

Section TaskProperties.
Context `{Externals}.


(** X6.  When get_label_strings gives no label list, or an empty one,
    add_task registers one task only.  Its postprocessing function is
    strip_whitespace when there is no list (line 66), and the class id
    mapping over no classes when the list is empty (line 57 tests for None,
    line 131 for emptiness).  The template is one on which get_label_strings
    is quiet. *)
Theorem add_task_without_labels (dataset_name : string) (subset_name : option string)
    (template_name : string) (name : option string)
    (split_mapping : option (list (string * string)))
    (template : Template) (labels : option (list string)) (st st' : State) :
  Py.getitem (get_dataset (all_templates st) dataset_name subset_name) template_name
    = Ok template →
  quiet (get_label_strings template) (Ok labels) →
  labels = None ∨ labels = Some [] →
  add_task dataset_name subset_name template_name name split_mapping st = (Ok tt, st') →
  ∃ task,
    TaskRegistry st' = TaskRegistry st ++ [task]
    ∧ task_name task = or_str name (get_task_name dataset_name subset_name template_name)
    ∧ postprocess_fn task
      = match labels with
        | None => strip_whitespace_fn
        | Some _ => class_id_postprocess_fn []
        end.
Proof.
  intros Htemplate Hlabels Hnone Hrun.
  destruct (add_task_tasks _ _ _ _ _ _ _ _ _ Htemplate Hlabels Hrun)
    as (metrics & dataset_splits & num_examples & labels' & [= <-] & _ & _ & _ & Hreg).
  eexists. destruct Hnone as [-> | ->]; (split; [exact Hreg|done]).
Qed.

(** X7.  When get_label_strings gives a list that is not empty, add_task
    registers two tasks, in this order: the task under the task name, whose
    postprocessing function maps a label string to its position in the list,
    and the score_eval task, which ranks the same list, reads the same data
    source with the same output features, and runs the rank classification
    preprocessor before the preprocessors of the first task.  The template
    is one on which get_label_strings is quiet. *)
Theorem add_task_with_labels (dataset_name : string) (subset_name : option string)
    (template_name : string) (name : option string)
    (split_mapping : option (list (string * string)))
    (template : Template) (labels : list string) (st st' : State) :
  Py.getitem (get_dataset (all_templates st) dataset_name subset_name) template_name
    = Ok template →
  quiet (get_label_strings template) (Ok (Some labels)) →
  labels ≠ [] →
  add_task dataset_name subset_name template_name name split_mapping st = (Ok tt, st') →
  ∃ primary secondary,
    TaskRegistry st' = TaskRegistry st ++ [primary; secondary]
    ∧ postprocess_fn primary = class_id_postprocess_fn labels
    ∧ preprocessors secondary
      = rank_classification_preprocessor labels :: preprocessors primary
    ∧ metric_fns secondary = [rank_classification_metric (length labels)]
    ∧ source secondary = source primary
    ∧ output_features secondary = output_features primary
    ∧ fn_template (dataset_fn (source primary)) = template.
Proof.
  intros Htemplate Hlabels Hne Hrun.
  destruct (add_task_tasks _ _ _ _ _ _ _ _ _ Htemplate Hlabels Hrun)
    as (metrics & dataset_splits & num_examples & labels' & [= <-] & _ & _ & _ & Hreg).
  destruct labels as [|l ls]; [done|].
  eexists _, _. split; [exact Hreg|done].
Qed.

End TaskProperties.


Lemma add_task_without_labels_witness :
  (∃ task,
     TaskRegistry
       (add_task (H:=Cases.externals) "toy" None "vacuous" None None Cases.empty_state).2
     = [task]
     ∧ postprocess_fn task = class_id_postprocess_fn [])
  ∧ ∃ task,
      TaskRegistry
        (add_task (H:=Cases.externals) "spam" None "constant" None None Cases.empty_state).2
      = [task]
      ∧ postprocess_fn task = strip_whitespace_fn.
Proof.
  split.
  - destruct (add_task_without_labels (H:=Cases.externals) "toy" None "vacuous" None None
                Cases.vacuous (Some []) Cases.empty_state
                (add_task (H:=Cases.externals) "toy" None "vacuous" None None
                   Cases.empty_state).2)
      as (task & Hreg & _ & Hpost);
      [reflexivity | by intros st | by right | vm_compute; reflexivity |].
    exists task. split; [exact Hreg | exact Hpost].
  - destruct (add_task_without_labels (H:=Cases.externals) "spam" None "constant" None None
                Cases.constant None Cases.empty_state
                (add_task (H:=Cases.externals) "spam" None "constant" None None
                   Cases.empty_state).2)
      as (task & Hreg & _ & Hpost);
      [reflexivity | by intros st | by left | vm_compute; reflexivity |].
    exists task. split; [exact Hreg | exact Hpost].
Defined.

Lemma add_task_with_labels_witness :
  ∃ primary secondary,
    TaskRegistry Sample.after_sentiment = [primary; secondary]
    ∧ postprocess_fn primary = class_id_postprocess_fn ["negative"; "positive"]
    ∧ source secondary = source primary.
Proof.
  destruct (add_task_with_labels (H:=Sample.externals) "imdb" None "sentiment" None None
              Sample.sentiment ["negative"; "positive"] Sample.empty_state
              Sample.after_sentiment)
    as (primary & secondary & Hreg & Hpost & _ & _ & Hsource & _);
    [reflexivity | by intros st | discriminate | vm_compute; reflexivity |].
  exists primary, secondary. split; [exact Hreg|]. split; [exact Hpost | exact Hsource].
Defined.

(** ** The splits of a task *)

Lemma rmap_ok {A B} (f : A → result B) (l : list A) (ys : list B) :
  rmap f l = Ok ys → Forall2 (λ x y, f x = Ok y) l ys.
Proof.
  revert ys. induction l as [|x l IH]; intros ys; simpl.
  - intros [= <-]. constructor.
  - destruct (f x) as [y|] eqn:Hx; simpl; [|done].
    destruct (rmap f l) as [ys'|]; simpl; [|done].
    intros [= <-]. constructor; [done | by apply IH].
Qed.

Lemma rmap_err {A B} (f : A → result B) (l : list A) (e : Exn) :
  rmap f l = Err e → ∃ x, x ∈ l ∧ f x = Err e.
Proof.
  induction l as [|x l IH]; simpl; [done|].
  destruct (f x) as [y|e'] eqn:Hx; simpl.
  - destruct (rmap f l) as [ys'|e'']; simpl; [done|].
    intros [= ->]. destruct (IH eq_refl) as (x' & Hin & Hx').
    exists x'. split; [by apply list_elem_of_further | done].
  - intros [= ->]. exists x. split; [apply list_elem_of_here | done].
Qed.

Lemma rmap_fails {A B} (f : A → result B) (l : list A) (x : A) (e : Exn) :
  x ∈ l → f x = Err e → ∃ e', rmap f l = Err e'.
Proof.
  intros Hin Hx. destruct (rmap f l) as [ys|e'] eqn:Hl; [|by exists e'].
  apply rmap_ok in Hl. apply list_elem_of_lookup in Hin as [i Hi].
  destruct (Forall2_lookup_l _ _ _ _ _ Hl Hi) as (y & _ & Hy). congruence.
Qed.

(** the example counts have one entry for each split of the mapping, counted
    at the split the mapping names *)
Lemma mapped_examples_ok (split_mapping : list (string * string))
    (dataset_splits num_examples : list (string * nat)) :
  mapped_examples split_mapping dataset_splits = Ok num_examples →
  fst <$> num_examples = fst <$> split_mapping
  ∧ ∀ split, split ∈ (fst <$> split_mapping) →
      ∃ mapped n,
        Py.getitem split_mapping split = Ok mapped
        ∧ Py.getitem dataset_splits mapped = Ok n
        ∧ (split, n) ∈ num_examples.
Proof.
  unfold mapped_examples. intros Hmap%rmap_ok. split.
  - induction Hmap as [|split [split' n] l num Hsplit Hmap IH]; [done|].
    simpl. f_equal; [|done].
    destruct (Py.getitem split_mapping split) as [mapped|]; simpl in Hsplit; [|done].
    destruct (Py.getitem dataset_splits mapped); simpl in Hsplit; [|done]. congruence.
  - intros split [i Hi]%list_elem_of_lookup.
    destruct (Forall2_lookup_l _ _ _ _ _ Hmap Hi) as ([split' n] & Hnum & Hsplit).
    destruct (Py.getitem split_mapping split) as [mapped|]; simpl in Hsplit; [|done].
    destruct (Py.getitem dataset_splits mapped) as [n'|] eqn:Hn; simpl in Hsplit; [|done].
    injection Hsplit as <- <-. exists mapped, n'.
    split_and!; [done..|]. by eapply list_elem_of_lookup_2.
Qed.

Section Splits.
Context `{Externals} `{DatasetBackend}.

(** X8.  Every task that add_task registers offers as its splits the keys of
    its split mapping, with one example count for each.  For each such split
    the mapping names a split that get_dataset_splits reported, the count is
    that split's count, and the task's dataset function, called on it, gets
    past both dictionary lookups of get_tf_dataset whenever the loaded
    dataset holds the reported splits: from the world load_dataset left, it
    goes on with apply_template and the conversion, and raises only if one
    of them does.  The templates are such that get_label_strings is quiet on
    them. *)
Theorem registered_splits_load (dataset_name : string) (subset_name : option string)
    (template_name : string) (name : option string)
    (split_mapping : option (list (string * string))) (st st' : State) :
  (∀ template, ∃ r, quiet (get_label_strings template) r) →
  add_task dataset_name subset_name template_name name split_mapping st = (Ok tt, st') →
  ∃ dataset_splits new,
    get_dataset_splits dataset_name subset_name = Ok dataset_splits
    ∧ TaskRegistry st' = TaskRegistry st ++ new
    ∧ Forall (loads_its_splits dataset_name subset_name dataset_splits) new.
Proof.
  intros Hquiet Hrun.
  destruct (add_task_template _ _ _ _ _ _ _ Hrun) as [template Htemplate].
  destruct (Hquiet template) as [r Hr].
  destruct (add_task_tasks _ _ _ _ _ _ _ _ _ Htemplate Hr Hrun)
    as (metrics & dataset_splits & num_examples & labels & _ & _ & Hsplits
        & Hnum & Hreg).
  exists dataset_splits. eexists. split; [done|]. split; [exact Hreg|].
  apply mapped_examples_ok in Hnum as [Hkeys Hnum].
  set (mapping := used_mapping split_mapping dataset_splits) in *.
  set (src := task_source dataset_name subset_name template mapping num_examples).
  assert (∀ task, source task = src →
            loads_its_splits dataset_name subset_name dataset_splits task) as Hsrc.
  { intros task Htask. unfold loads_its_splits. rewrite Htask. subst src. simpl.
    split_and!; try done.
    intros split Hsplit. destruct (Hnum split Hsplit) as (mapped & n & Hmapped & Hn & Hin).
    exists mapped, n. split_and!; try done.
    intros world world' loaded shuffle_files seed Hload Hloaded.
    destruct (getitem_is_ok loaded mapped) as [data Hdata].
    { apply Hloaded. apply getitem_ok in Hn.
      apply list_elem_of_fmap. by exists (mapped, n). }
    exists data. split; [done|].
    unfold get_tf_dataset, bind, lift. by rewrite Hload, Hmapped, Hdata. }
  unfold tasks_of. apply Forall_cons. split; [by apply Hsrc|].
  destruct labels as [[|l ls]|]; try apply Forall_nil_2.
  apply Forall_singleton. by apply Hsrc.
Qed.

End Splits.

Lemma registered_splits_load_witness :
  ∃ new,
    TaskRegistry Sample.after_sentiment = new
    ∧ Forall (λ task, fst <$> num_input_examples (source task) = splits (source task)) new.
Proof.
  destruct (registered_splits_load (H:=Sample.externals) (H0:=Cases.backend)
              "imdb" None "sentiment" None None Sample.empty_state
              Sample.after_sentiment)
    as (dataset_splits & new & Hsplits & Hreg & Hnew);
    [apply sample_labels_quiet | vm_compute; reflexivity|].
  exists new. split; [exact Hreg|].
  eapply Forall_impl; [exact Hnew|]. by intros task (_ & _ & _ & ? & _).
Defined.

Lemma getitem_identity (ks : list string) (k : string) :
  k ∈ ks → Py.getitem ((λ k, (k, k)) <$> ks) k = Ok k.
Proof.
  induction ks as [|k' ks IH]; [by intros ?%elem_of_nil|].
  intros Hin. simpl. destruct (String.eqb_spec k' k) as [->|Hne]; [done|].
  apply elem_of_cons in Hin as [->|Hin]; [done | by apply IH].
Qed.

Lemma getitem_NoDup {V} (d : list (string * V)) (k : string) (v : V) :
  NoDup (fst <$> d) → (k, v) ∈ d → Py.getitem d k = Ok v.
Proof.
  induction d as [|[k' v'] d IH]; [by intros _ ?%elem_of_nil|].
  rewrite fmap_cons. intros [Hfresh Hd]%NoDup_cons Hin. simpl in *.
  apply elem_of_cons in Hin as [[= -> ->]|Hin].
  - by rewrite String.eqb_refl.
  - destruct (String.eqb_spec k' k) as [->|Hne]; [|by apply IH].
    destruct Hfresh. apply list_elem_of_fmap. by exists (k, v).
Qed.

Lemma rmap_keys {V} (f : string → result (string * V)) (d : list (string * V)) :
  (∀ x, x ∈ d → f x.1 = Ok x) → rmap f (fst <$> d) = Ok d.
Proof.
  induction d as [|x d IH]; [done|].
  intros Hf. rewrite fmap_cons. simpl.
  rewrite (Hf x) by apply list_elem_of_here. simpl.
  rewrite IH; [done|]. intros y Hy. apply Hf. by apply list_elem_of_further.
Qed.

Lemma identity_keys (ks : list string) : fst <$> ((λ k, (k, k)) <$> ks) = ks.
Proof. induction ks as [|k ks IH]; [done|]. rewrite !fmap_cons. simpl. by rewrite IH. Qed.

(** with every split mapped to itself, the counts are those of the dataset *)
Lemma mapped_examples_identity (dataset_splits : list (string * nat)) :
  NoDup (fst <$> dataset_splits) →
  mapped_examples ((λ k, (k, k)) <$> (fst <$> dataset_splits)) dataset_splits
  = Ok dataset_splits.
Proof.
  intros Hkeys. unfold mapped_examples.
  rewrite identity_keys. apply rmap_keys. intros [k n] Hin. simpl.
  rewrite getitem_identity; [|apply list_elem_of_fmap; by exists (k, n)].
  simpl. by rewrite (getitem_NoDup _ k n).
Qed.

Section SplitProperties.
Context `{Externals}.

(** X9.  Called without a split mapping (or with an empty one), add_task
    maps every split of the dataset to itself: each task it registers offers
    the splits that get_dataset_splits reported, in that order, with their
    example counts.  The templates are such that get_label_strings is quiet
    on them. *)
Theorem add_task_default_splits (dataset_name : string) (subset_name : option string)
    (template_name : string) (name : option string)
    (split_mapping : option (list (string * string)))
    (dataset_splits : list (string * nat)) (st st' : State) :
  (∀ template, ∃ r, quiet (get_label_strings template) r) →
  split_mapping = None ∨ split_mapping = Some [] →
  get_dataset_splits dataset_name subset_name = Ok dataset_splits →
  NoDup (fst <$> dataset_splits) →
  add_task dataset_name subset_name template_name name split_mapping st = (Ok tt, st') →
  ∃ new,
    TaskRegistry st' = TaskRegistry st ++ new
    ∧ new ≠ []
    ∧ Forall (λ task,
        splits (source task) = fst <$> dataset_splits
        ∧ num_input_examples (source task) = dataset_splits
        ∧ fn_split_mapping (dataset_fn (source task))
          = (λ k, (k, k)) <$> (fst <$> dataset_splits)) new.
Proof.
  intros Hquiet Hmapping Hsplits Hkeys Hrun.
  destruct (add_task_template _ _ _ _ _ _ _ Hrun) as [template Htemplate].
  destruct (Hquiet template) as [r Hr].
  destruct (add_task_tasks _ _ _ _ _ _ _ _ _ Htemplate Hr Hrun)
    as (metrics & dataset_splits' & num_examples & labels & _ & _ & Hsplits'
        & Hnum & Hreg).
  assert (dataset_splits' = dataset_splits) as -> by congruence.
  assert (used_mapping split_mapping dataset_splits
          = (λ k, (k, k)) <$> (fst <$> dataset_splits)) as Hused
    by (by destruct Hmapping as [-> | ->]).
  rewrite Hused in Hnum, Hreg.
  rewrite mapped_examples_identity in Hnum by done. injection Hnum as <-.
  eexists. split; [exact Hreg|]. split; [done|].
  unfold tasks_of. apply Forall_cons. split.
  - simpl. by rewrite identity_keys.
  - destruct labels as [[|l ls]|]; try apply Forall_nil_2.
    apply Forall_singleton. simpl. by rewrite identity_keys.
Qed.

(** X10.  When the split mapping names a split that get_dataset_splits did
    not report, add_task raises KeyError on such a name at line 107, before
    it registers anything. *)
Theorem add_task_missing_split (dataset_name : string) (subset_name : option string)
    (template_name : string) (name : option string)
    (split_mapping : list (string * string)) (template : Template)
    (metrics : list Metric) (dataset_splits : list (string * nat))
    (split mapped : string) (st : State) :
  Py.getitem (get_dataset (all_templates st) dataset_name subset_name) template_name
    = Ok template →
  task_metrics dataset_name subset_name template = Ok metrics →
  get_dataset_splits dataset_name subset_name = Ok dataset_splits →
  Py.getitem split_mapping split = Ok mapped →
  mapped ∉ (fst <$> dataset_splits) →
  ∃ missing,
    missing ∈ (snd <$> split_mapping)
    ∧ (missing ∉ (fst <$> dataset_splits))
    ∧ add_task dataset_name subset_name template_name name (Some split_mapping) st
      = (Err (KeyError missing), st).
Proof.
  intros Htemplate Hmetrics Hsplits Hmapped Hmissing.
  assert (or_dict (Some split_mapping)
            ((λ k, (k, k)) <$> (fst <$> dataset_splits)) = split_mapping) as Hused
    by (by destruct split_mapping).
  pose (f := λ s : string,
          let? mapped := Py.getitem split_mapping s in
          let? n := Py.getitem dataset_splits mapped in Ok (s, n)).
  assert (split ∈ (fst <$> split_mapping)) as Hsplit.
  { apply getitem_ok in Hmapped. apply list_elem_of_fmap. by exists (split, mapped). }
  assert (∃ e, f split = Err e) as [e0 Hf].
  { unfold f. rewrite Hmapped. simpl.
    destruct (Py.getitem dataset_splits mapped) as [n|e0] eqn:Hn; [|by exists e0].
    destruct Hmissing. apply getitem_ok in Hn.
    apply list_elem_of_fmap. by exists (mapped, n). }
  destruct (rmap_fails f _ _ _ Hsplit Hf) as [e He].
  pose proof He as (split' & Hsplit' & Hf')%rmap_err.
  unfold f in Hf'.
  destruct (Py.getitem split_mapping split') as [mapped'|] eqn:Hmapped'; simpl in Hf'.
  2: { apply getitem_err in Hmapped' as [_ Hne]. done. }
  destruct (Py.getitem dataset_splits mapped') as [n|] eqn:Hn; simpl in Hf'; [done|].
  injection Hf' as <-. apply getitem_err in Hn as [-> Hn].
  exists mapped'. split_and!; [|done|].
  - apply getitem_ok in Hmapped'. apply list_elem_of_fmap. by exists (split', mapped').
  - unfold add_task, bind, gets, lift. rewrite Htemplate, Hmetrics, Hsplits, Hused.
    fold f. by rewrite He.
Qed.

End SplitProperties.

Lemma add_task_default_splits_witness :
  ∃ new,
    TaskRegistry Sample.after_sentiment = new
    ∧ Forall (λ task, num_input_examples (source task) = Sample.three_splits) new.
Proof.
  destruct (add_task_default_splits (H:=Sample.externals) "imdb" None "sentiment" None None
              Sample.three_splits Sample.empty_state Sample.after_sentiment)
    as (new & Hreg & _ & Hnew);
    [apply sample_labels_quiet | by left | reflexivity
    | apply (bool_decide_unpack _); vm_compute; reflexivity
    | vm_compute; reflexivity |].
  exists new. split; [exact Hreg|].
  eapply Forall_impl; [exact Hnew|]. by intros task (_ & ? & _).
Defined.

Lemma add_task_missing_split_witness :
  ∃ missing,
    add_task (H:=Sample.externals) "imdb" None "sentiment" None
      (Some Cases.round_mapping) Sample.empty_state
    = (Err (KeyError missing), Sample.empty_state).
Proof.
  destruct (add_task_missing_split (H:=Sample.externals) "imdb" None "sentiment" None
              Cases.round_mapping Sample.sentiment [accuracy] Sample.three_splits
              "train" "train_r1" Sample.empty_state)
    as (missing & _ & _ & Hrun);
    [reflexivity | reflexivity | reflexivity | reflexivity
    | apply (bool_decide_unpack _); vm_compute; reflexivity |].
  by exists missing.
Defined.

Section Frame.
Context `{Externals}.

(** eval leaves the globals as they are; it may read them *)
Hypothesis eval_keeps : ∀ template source st, (py_eval template source st).2 = st.




End Frame.


(** ** The lists of the manifest *)

Lemma with_subset_lookup (row : Row) (subset HF_name : string) :
  row !! "subset" = Some subset → row !! "HF_name" = Some HF_name →
  with_subset row (subset_of subset) !! "HF_name" = Some (Some HF_name)
  ∧ with_subset row (subset_of subset) !! "subset" = Some (subset_of subset).
Proof.
  intros Hsubset Hname. unfold with_subset, subset_of.
  case_decide as Hempty.
  - rewrite lookup_insert_ne by done. rewrite lookup_insert_eq, lookup_fmap, Hname. done.
  - by rewrite !lookup_fmap, Hname, Hsubset.
Qed.

(** what one row adds to the four lists *)
Lemma read_row_adds (row : Row) (l l' : Lists) :
  read_row row l = Ok l' →
  let added flag := match flag_pair flag row with Some entry => [entry] | None => [] end in
  let kept flag :=
    match flag_pair flag row with
    | Some entry => [with_subset row entry.2]
    | None => []
    end in
  do_train l' = do_train l ++ added "do_train"
  ∧ train_sets l' = train_sets l ++ kept "do_train"
  ∧ do_eval l' = do_eval l ++ added "do_eval"
  ∧ eval_sets l' = eval_sets l ++ kept "do_eval".
Proof.
  unfold read_row, row_get, flag_pair.
  destruct (row !! "skip") as [skip|]; simpl; [|done].
  destruct skip as [|c skip]; simpl.
  2: { intros [= <-]. by rewrite !app_nil_r. }
  destruct (row !! "subset") as [subset|]; simpl; [|done].
  rewrite subset_of_eqb.
  destruct (row !! "do_train") as [train|]; simpl; [|done].
  destruct (row !! "HF_name") as [HF_name|]; simpl.
  - destruct (row !! "do_eval") as [eval|]; simpl;
      [|by destruct (String.eqb train "TRUE")].
    destruct (String.eqb_spec train "TRUE"), (String.eqb_spec eval "TRUE");
      simpl; intros [= <-]; repeat case_decide; try done; simpl;
      by rewrite ?app_nil_r.
  - destruct (String.eqb_spec train "TRUE"); simpl; [done|].
    destruct (row !! "do_eval") as [eval|]; simpl; [|done].
    destruct (String.eqb_spec eval "TRUE"); simpl; [done|].
    intros [= <-]. by rewrite !app_nil_r.
Qed.

Lemma read_rows_adds (rows : list Row) (l l' : Lists) :
  read_rows rows l = Ok l' →
  do_train l' = do_train l ++ omap (flag_pair "do_train") rows
  ∧ do_eval l' = do_eval l ++ omap (flag_pair "do_eval") rows
  ∧ ∃ train_kept eval_kept,
      train_sets l' = train_sets l ++ train_kept
      ∧ eval_sets l' = eval_sets l ++ eval_kept
      ∧ Forall2 (λ kept entry, ∃ row, row ∈ rows ∧ kept_of "do_train" row kept entry)
          train_kept (omap (flag_pair "do_train") rows)
      ∧ Forall2 (λ kept entry, ∃ row, row ∈ rows ∧ kept_of "do_eval" row kept entry)
          eval_kept (omap (flag_pair "do_eval") rows).
Proof.
  revert l. induction rows as [|row rows IH]; intros l; simpl.
  - intros [= <-]. rewrite !app_nil_r. split_and!; try done.
    exists [], []. rewrite !app_nil_r. split_and!; try done; constructor.
  - destruct (read_row row l) as [l1|] eqn:Hrow; simpl; [|done].
    intros Hrows. apply read_row_adds in Hrow as (Htrain & Htrain_kept & Heval & Heval_kept).
    apply IH in Hrows
      as (Htrain' & Heval' & train_kept & eval_kept & Hts & Hes & Htk & Hek).
    assert (∀ flag (kept : list KeptRow),
              Forall2 (λ kept entry, ∃ row, row ∈ rows ∧ kept_of flag row kept entry)
                kept (omap (flag_pair flag) rows) →
              Forall2 (λ kept entry, ∃ row', row' ∈ row :: rows
                                            ∧ kept_of flag row' kept entry)
                (match flag_pair flag row with
                 | Some entry => [with_subset row entry.2]
                 | None => []
                 end ++ kept)
                (omap (flag_pair flag) (row :: rows))) as Hstep.
    { intros flag kept Hkept. simpl.
      assert (Forall2 (λ kept entry, ∃ row', row' ∈ row :: rows
                                            ∧ kept_of flag row' kept entry)
                kept (omap (flag_pair flag) rows)) as Hkept'.
      { eapply Forall2_impl; [done|]. intros k p (row' & Hin & Hk).
        exists row'. split; [by apply list_elem_of_further | done]. }
      destruct (flag_pair flag row) as [entry|] eqn:Hpair; simpl; [|done].
      constructor; [|done]. exists row. split; [apply list_elem_of_here | done]. }
    split_and!.
    + rewrite Htrain', Htrain, <- app_assoc. f_equal.
      by destruct (flag_pair "do_train" row).
    + rewrite Heval', Heval, <- app_assoc. f_equal.
      by destruct (flag_pair "do_eval" row).
    + eexists _, _. rewrite Hts, Hes, Htrain_kept, Heval_kept, <- !app_assoc.
      split_and!; [done | done | by apply Hstep | by apply Hstep].
Qed.

(** X12.  After the manifest is read, do_train holds, in the order of the
    manifest and with repeats, the pair (HF_name, subset or None) of every
    row with an empty skip field and do_train equal to TRUE, and nothing
    else; do_eval does the same for do_eval. *)
Theorem read_manifest_pairs (rows : list Row) (l : Lists) :
  read_manifest rows = Ok l →
  do_train l = omap (flag_pair "do_train") rows
  ∧ do_eval l = omap (flag_pair "do_eval") rows.
Proof. by intros (? & ? & _)%read_rows_adds. Qed.

(** X13.  After the manifest is read, train_sets and do_train go together:
    they have the same length, and the row at a position of train_sets is a
    row of the manifest, kept with None for an empty subset, whose HF_name
    and subset are the pair at that position of do_train.  The same holds of
    eval_sets and do_eval. *)
Theorem read_manifest_rows_and_pairs (rows : list Row) (l : Lists) :
  read_manifest rows = Ok l →
  let together flag :=
    Forall2 (λ (kept : KeptRow) (entry : Key),
               kept !! "HF_name" = Some (Some entry.1)
               ∧ kept !! "subset" = Some entry.2
               ∧ ∃ row, row ∈ rows ∧ row !! flag = Some "TRUE"
                        ∧ kept = with_subset row entry.2) in
  length (train_sets l) = length (do_train l)
  ∧ length (eval_sets l) = length (do_eval l)
  ∧ together "do_train" (train_sets l) (do_train l)
  ∧ together "do_eval" (eval_sets l) (do_eval l).
Proof.
  intros (Htrain & Heval & train_kept & eval_kept & Hts & Hes & Htk & Hek)%read_rows_adds.
  assert (∀ flag (kept : list KeptRow) (pairs : list Key),
            Forall2 (λ kept entry, ∃ row, row ∈ rows ∧ kept_of flag row kept entry)
              kept pairs →
            Forall2 (λ (kept : KeptRow) (entry : Key),
                       kept !! "HF_name" = Some (Some entry.1)
                       ∧ kept !! "subset" = Some entry.2
                       ∧ ∃ row, row ∈ rows ∧ row !! flag = Some "TRUE"
                                ∧ kept = with_subset row entry.2) kept pairs) as Hkept.
  { intros flag kept pairs Hall. eapply Forall2_impl; [done|].
    intros k [HF_name subset] (row & Hin & Hpair & ->). unfold flag_pair in Hpair.
    destruct (row !! "skip") as [[|? ?]|]; try done.
    destruct (row !! "subset") as [sub|] eqn:Hsub; try done.
    destruct (row !! flag) as [value|] eqn:Hflag; try done.
    destruct (row !! "HF_name") as [name|] eqn:Hname; try done.
    case_decide as Hvalue; [|done]. injection Hpair as <- <-. subst value. simpl.
    destruct (with_subset_lookup row sub name Hsub Hname) as [? ?].
    split_and!; try done. by exists row. }
  rewrite Htrain, Heval, Hts, Hes. simpl.
  split_and!; [by eapply Forall2_length | by eapply Forall2_length
              | by apply Hkept | by apply Hkept].
Qed.

(** X14.  Reading a row raises nothing but KeyError, and only for one of the
    five columns that the row lacks.  A row without the skip column raises
    KeyError on skip; a row with a skip mark is passed over even when it
    lacks every other column; and a row with neither flag at TRUE needs no
    HF_name. *)
Theorem read_row_errors (row : Row) (l : Lists) :
  (∀ e, read_row row l = Err e →
        ∃ column, column ∈ read_columns ∧ row !! column = None ∧ e = KeyError column)
  ∧ (row !! "skip" = None → read_row row l = Err (KeyError "skip"))
  ∧ (∀ skip, row !! "skip" = Some skip → skip ≠ EmptyString → read_row row l = Ok l)
  ∧ (∀ subset train eval,
       row !! "skip" = Some EmptyString → row !! "subset" = Some subset →
       row !! "do_train" = Some train → row !! "do_eval" = Some eval →
       train ≠ "TRUE" → eval ≠ "TRUE" → read_row row l = Ok l).
Proof.
  assert (∀ column, column ∈ read_columns → row !! column = None →
            ∃ column', column' ∈ read_columns ∧ row !! column' = None
                       ∧ KeyError column = KeyError column') as Hmissing
    by (intros column ? ?; by exists column).
  assert ("skip" ∈ read_columns ∧ "subset" ∈ read_columns ∧ "do_train" ∈ read_columns
          ∧ "do_eval" ∈ read_columns ∧ "HF_name" ∈ read_columns)
    as (Hc1 & Hc2 & Hc3 & Hc4 & Hc5)
    by (split_and!; by apply (bool_decide_unpack _)).
  unfold read_row, row_get. split_and!.
  - intros e.
    destruct (row !! "skip") as [skip|] eqn:Hskip; simpl;
      [|intros [= <-]; by apply Hmissing].
    destruct (truthy skip); [done|].
    destruct (row !! "subset") as [subset|] eqn:Hsubset; simpl;
      [|intros [= <-]; by apply Hmissing].
    destruct (row !! "do_train") as [train|] eqn:Htrain; simpl;
      [|intros [= <-]; by apply Hmissing].
    destruct (row !! "HF_name") as [HF_name|] eqn:Hname; simpl.
    + destruct (String.eqb train "TRUE"); simpl;
        (destruct (row !! "do_eval") as [eval|] eqn:Heval; simpl;
           [|intros [= <-]; by apply Hmissing]);
        by destruct (String.eqb eval "TRUE").
    + destruct (String.eqb train "TRUE"); simpl; [intros [= <-]; by apply Hmissing|].
      destruct (row !! "do_eval") as [eval|] eqn:Heval; simpl;
        [|intros [= <-]; by apply Hmissing].
      destruct (String.eqb eval "TRUE"); simpl; [|done].
      intros [= <-]; by apply Hmissing.
  - by intros ->.
  - intros skip -> Hskip. simpl. apply truthy_nonempty in Hskip. by rewrite Hskip.
  - intros subset train eval -> -> -> -> Htrain Heval. simpl.
    destruct (String.eqb_spec train "TRUE"); [done|].
    by destruct (String.eqb_spec eval "TRUE").
Qed.

Lemma read_manifest_pairs_witness :
  ∃ l, read_manifest Sample.manifest = Ok l
       ∧ do_train l = [("imdb", None); ("xsum", None)]
       ∧ do_eval l = [("imdb", None)].
Proof.
  destruct (read_manifest Sample.manifest) as [l|e] eqn:Hl;
    [|vm_compute in Hl; discriminate Hl].
  destruct (read_manifest_pairs Sample.manifest l Hl) as [Htrain Heval].
  exists l. split; [done|]. split; [exact Htrain | exact Heval].
Defined.

Lemma read_manifest_rows_and_pairs_witness :
  ∃ l, read_manifest Sample.manifest = Ok l
       ∧ length (train_sets l) = length (do_train l)
       ∧ length (eval_sets l) = length (do_eval l).
Proof.
  destruct (read_manifest Sample.manifest) as [l|e] eqn:Hl;
    [|vm_compute in Hl; discriminate Hl].
  destruct (read_manifest_rows_and_pairs Sample.manifest l Hl) as (Htrain & Heval & _).
  exists l. split; [done|]. split; [exact Htrain | exact Heval].
Defined.

(** ** What the loops add *)

(** A loop that completes has added, to the registry and to the two mixture
    lists, what its passes add, in order. *)
Lemma for_each_adds {A} (I : State → Prop) (gn gt ge : A → list string)
    (l : list A) (body : A → M unit) (st st' : State) :
  (∀ x s s', x ∈ l → I s → body x s = (Ok tt, s') →
     I s' ∧ names s' = names s ++ gn x
     ∧ train_mixture s' = train_mixture s ++ gt x
     ∧ eval_mixture s' = eval_mixture s ++ ge x) →
  I st → for_each l body st = (Ok tt, st') →
  I st' ∧ names st' = names st ++ (l ≫= gn)
  ∧ train_mixture st' = train_mixture st ++ (l ≫= gt)
  ∧ eval_mixture st' = eval_mixture st ++ (l ≫= ge).
Proof.
  revert st. induction l as [|x l IH]; intros st Hbody HI Hrun; simpl in Hrun.
  - injection Hrun as <-. by rewrite !app_nil_r.
  - apply bind_ok in Hrun as ([] & st1 & Hx & Hrun).
    destruct (Hbody x st st1) as (HI1 & Hn1 & Ht1 & He1);
      [apply list_elem_of_here | done | done |].
    destruct (IH st1) as (HI' & Hn' & Ht' & He'); [|done|done|].
    { intros y s s' Hy. apply Hbody. by apply list_elem_of_further. }
    split; [done|]. rewrite Hn', Ht', He', Hn1, Ht1, He1, !bind_cons, <- !app_assoc.
    done.
Qed.

Section Adds.
Context `{Externals}.

(** what get_label_strings gives for each template, the same whatever the
    globals hold and without changing them *)
Variable label_strings : Template → result (option (list string)).
Hypothesis labels_are :
  ∀ template, quiet (get_label_strings template) (label_strings template).

Lemma add_task_adds (dataset_name : string) (subset_name : option string)
    (template_name : string) (name : option string)
    (split_mapping : option (list (string * string))) (st st' : State) :
  add_task dataset_name subset_name template_name name split_mapping st = (Ok tt, st') →
  all_templates st' = all_templates st
  ∧ names st'
    = names st
      ++ template_names label_strings (get_dataset (all_templates st) dataset_name subset_name)
           (λ _, or_str name (get_task_name dataset_name subset_name template_name))
           template_name
  ∧ train_mixture st' = train_mixture st
  ∧ eval_mixture st' = eval_mixture st.
Proof.
  intros Hrun.
  destruct (add_task_template _ _ _ _ _ _ _ Hrun) as [template Htemplate].
  destruct (add_task_ok _ _ _ _ _ _ _ _ _ Htemplate (labels_are template) Hrun)
    as (? & ? & ? & _ & _ & Htc & Htrain & Heval & _).
  destruct (add_task_tasks _ _ _ _ _ _ _ _ _ Htemplate (labels_are template) Hrun)
    as (metrics & dataset_splits & num_examples & labels & Hlabels & _ & _ & _ & Hreg).
  split_and!; try done.
  unfold names, template_names, score_names. rewrite Hreg, Htemplate, Hlabels, fmap_app.
  f_equal. by destruct labels as [[|l ls]|].
Qed.

Lemma register_template_adds (do_train do_eval : list Key)
    (dataset_name : string) (subset_name : option string)
    (dataset : DatasetTemplates) (template_name : string) (st st' : State) :
  register_template do_train do_eval dataset_name subset_name dataset template_name st
    = (Ok tt, st') →
  all_templates st' = all_templates st
  ∧ names st'
    = names st
      ++ template_names label_strings (get_dataset (all_templates st) dataset_name subset_name)
           (get_task_name dataset_name subset_name) template_name
  ∧ train_mixture st'
    = train_mixture st
      ++ (if decide ((dataset_name, subset_name) ∈ do_train)
          then [get_task_name dataset_name subset_name template_name] else [])
  ∧ eval_mixture st'
    = eval_mixture st
      ++ (if decide ((dataset_name, subset_name) ∈ do_eval)
          then match Py.getitem dataset template_name with
               | Ok template =>
                   if original_task (metadata template)
                   then [get_task_name dataset_name subset_name template_name]
                   else []
               | Err _ => []
               end
          else []).
Proof.
  unfold register_template. intros Hrun.
  apply bind_ok in Hrun as ([] & st1 & Hadd & Hrun).
  apply add_task_adds in Hadd as (Htc1 & Hn1 & Ht1 & He1).
  apply bind_ok in Hrun as ([] & st2 & Htrain & Hrun).
  assert (all_templates st2 = all_templates st1 ∧ names st2 = names st1
          ∧ eval_mixture st2 = eval_mixture st1
          ∧ train_mixture st2
            = train_mixture st1
              ++ (if decide ((dataset_name, subset_name) ∈ do_train)
                  then [get_task_name dataset_name subset_name template_name] else []))
    as (Htc2 & Hn2 & He2 & Ht2).
  { destruct (decide ((dataset_name, subset_name) ∈ do_train)) as [Hkey|Hkey].
    - rewrite bool_decide_eq_true_2 in Htrain by done.
      by apply modify_ok in Htrain as ->.
    - rewrite bool_decide_eq_false_2 in Htrain by done.
      injection Htrain as <-. by rewrite app_nil_r. }
  assert (all_templates st' = all_templates st2 ∧ names st' = names st2
          ∧ train_mixture st' = train_mixture st2
          ∧ eval_mixture st'
            = eval_mixture st2
              ++ (if decide ((dataset_name, subset_name) ∈ do_eval)
                  then match Py.getitem dataset template_name with
                       | Ok template =>
                           if original_task (metadata template)
                           then [get_task_name dataset_name subset_name template_name]
                           else []
                       | Err _ => []
                       end
                  else [])) as (Htc3 & Hn3 & Ht3 & He3).
  { destruct (decide ((dataset_name, subset_name) ∈ do_eval)) as [Hkey|Hkey].
    - rewrite bool_decide_eq_true_2 in Hrun by done.
      apply bind_ok in Hrun as (template & st3 & [Htemplate ->]%lift_ok & Hrun).
      rewrite Htemplate. destruct (original_task (metadata template)).
      + by apply modify_ok in Hrun as ->.
      + injection Hrun as <-. by rewrite app_nil_r.
    - rewrite bool_decide_eq_false_2 in Hrun by done.
      injection Hrun as <-. by rewrite app_nil_r. }
  unfold template_names in *. cbn [or_str] in Hn1.
  split_and!; congruence.
Qed.

End Adds.

Lemma bind_singleton {A B} (f : A → B) (l : list A) : l ≫= (λ x, [f x]) = f <$> l.
Proof. induction l as [|x l IH]; [done|]. rewrite bind_cons, fmap_cons, IH. done. Qed.

Lemma bind_nothing {A B} (l : list A) : l ≫= (λ _, @nil B) = [].
Proof. induction l as [|x l IH]; [done|]. by rewrite bind_cons, IH. Qed.

Section LoopAdds.
Context `{Externals}.

(** what get_label_strings gives for each template, the same whatever the
    globals hold and without changing them *)
Variable label_strings : Template → result (option (list string)).
Hypothesis labels_are :
  ∀ template, quiet (get_label_strings template) (label_strings template).

Lemma register_dataset_adds (do_train do_eval : list Key) (c : TemplateCollection)
    (key : Key) (st st' : State) :
  get_dataset (all_templates st) = get_dataset c →
  register_dataset do_train do_eval key st = (Ok tt, st') →
  get_dataset (all_templates st') = get_dataset c
  ∧ names st' = names st ++ dataset_names label_strings do_train do_eval c key
  ∧ train_mixture st' = train_mixture st ++ dataset_train do_train c key
  ∧ eval_mixture st' = eval_mixture st ++ dataset_eval do_eval c key.
Proof.
  destruct key as [dataset_name subset_name].
  unfold register_dataset, dataset_names, dataset_train, dataset_eval. simpl.
  intros Hc.
  destruct (decide ((dataset_name, subset_name) ∉ (do_train ++ do_eval)%list))
    as [Hkey|Hkey].
  - rewrite bool_decide_eq_true_2 by done. intros ->%modify_ok. simpl.
    rewrite !decide_False, !app_nil_r; [done|..].
    + intros Hin. apply Hkey. rewrite elem_of_app. by right.
    + intros Hin. apply Hkey. rewrite elem_of_app. by left.
    + done.
  - rewrite bool_decide_eq_false_2 by done. intros Hrun.
    apply dec_stable in Hkey. rewrite (decide_True _ _ Hkey).
    apply bind_ok in Hrun as (templates & st1 & [-> ->]%gets_ok & Hrun).
    rewrite Hc in Hrun.
    apply (for_each_adds (λ s, get_dataset (all_templates s) = get_dataset c)
             (template_names label_strings (get_dataset c dataset_name subset_name)
                (get_task_name dataset_name subset_name))
             (λ template_name,
                if decide ((dataset_name, subset_name) ∈ do_train)
                then [get_task_name dataset_name subset_name template_name] else [])
             (λ template_name,
                if decide ((dataset_name, subset_name) ∈ do_eval)
                then match Py.getitem (get_dataset c dataset_name subset_name)
                             template_name with
                     | Ok template =>
                         if original_task (metadata template)
                         then [get_task_name dataset_name subset_name template_name]
                         else []
                     | Err _ => []
                     end
                else [])) in Hrun as (Hc' & Hn & Ht & He); [| |done].
    + split; [done|]. rewrite Hn, Ht, He. split_and!; [done| |].
      * f_equal. destruct (decide ((dataset_name, subset_name) ∈ do_train)) as [Hk|Hk];
          [rewrite !decide_True by done; apply bind_singleton
          |rewrite !decide_False by done; apply bind_nothing].
      * f_equal. destruct (decide ((dataset_name, subset_name) ∈ do_eval)) as [Hk|Hk];
          [by rewrite !decide_True by done
          |rewrite !decide_False by done; apply bind_nothing].
    + intros template_name s s' _ Hs Hbody.
      apply (register_template_adds label_strings labels_are) in Hbody
        as (Htc & Hn & Ht & He).
      rewrite Htc, Hs in *. done.
Qed.

Lemma register_anli_template_adds (anli_round template_name : string) (st st' : State) :
  register_anli_template anli_round template_name st = (Ok tt, st') →
  all_templates st' = all_templates st
  ∧ names st'
    = names st
      ++ template_names label_strings (get_dataset (all_templates st) "anli" None)
           (anli_task_name anli_round) template_name
  ∧ train_mixture st' = train_mixture st
  ∧ eval_mixture st' = eval_mixture st ++ [anli_task_name anli_round template_name].
Proof.
  unfold register_anli_template. intros Hrun.
  apply bind_ok in Hrun as ([] & st1 & Hadd & Hrun).
  apply (add_task_adds label_strings labels_are) in Hadd as (Htc1 & Hn1 & Ht1 & He1).
  apply modify_ok in Hrun as ->. simpl.
  unfold template_names in *. cbv beta in Hn1.
  assert (or_str (Some (anli_task_name anli_round template_name))
            (get_task_name "anli" None template_name)
          = anli_task_name anli_round template_name) as Hname.
  { unfold anli_task_name.
    destruct (get_task_name "anli" None template_name); by rewrite ?append_cons. }
  rewrite Hname in Hn1. split_and!; try done. by rewrite He1.
Qed.

Lemma register_anli_round_adds (c : TemplateCollection) (anli_round : string)
    (st st' : State) :
  get_dataset (all_templates st) = get_dataset c →
  register_anli_round anli_round st = (Ok tt, st') →
  get_dataset (all_templates st') = get_dataset c
  ∧ names st' = names st ++ anli_names label_strings c anli_round
  ∧ train_mixture st' = train_mixture st
  ∧ eval_mixture st' = eval_mixture st ++ anli_eval c anli_round.
Proof.
  unfold register_anli_round, anli_names, anli_eval. intros Hc Hrun.
  apply bind_ok in Hrun as (templates & st1 & [-> ->]%gets_ok & Hrun).
  rewrite Hc in Hrun.
  apply (for_each_adds (λ s, get_dataset (all_templates s) = get_dataset c)
           (template_names label_strings (get_dataset c "anli" None) (anli_task_name anli_round))
           (λ _, [])
           (λ template_name, [anli_task_name anli_round template_name]))
    in Hrun as (Hc' & Hn & Ht & He); [| |done].
  - rewrite bind_nothing, app_nil_r in Ht. rewrite bind_singleton in He. done.
  - intros template_name s s' _ Hs Hbody.
    apply register_anli_template_adds in Hbody as (Htc & Hn & Ht & He).
    rewrite Htc, Hs in *. by rewrite app_nil_r.
Qed.

(** lines 173 to 206: what the two loops add, in order *)
Lemma register_tasks_adds (do_train do_eval : list Key) (st st' : State) :
  register_tasks do_train do_eval st = (Ok tt, st') →
  names st'
  = names st
    ++ (keys (remove "anli" None (all_templates st))
          ≫= dataset_names label_strings do_train do_eval (all_templates st))
    ++ (anli_rounds ≫= anli_names label_strings (all_templates st))
  ∧ train_mixture st'
    = train_mixture st
      ++ (keys (remove "anli" None (all_templates st))
            ≫= dataset_train do_train (all_templates st))
  ∧ eval_mixture st'
    = eval_mixture st
      ++ (keys (remove "anli" None (all_templates st))
            ≫= dataset_eval do_eval (all_templates st))
      ++ (anli_rounds ≫= anli_eval (all_templates st)).
Proof.
  unfold register_tasks. intros Hrun.
  apply bind_ok in Hrun as ([] & st0 & ->%modify_ok & Hrun).
  apply bind_ok in Hrun as (ks & st0 & [-> ->]%gets_ok & Hrun).
  apply bind_ok in Hrun as ([] & st1 & Hmain & Hanli).
  set (c := all_templates st) in *. simpl in Hmain.
  apply (for_each_adds (λ s, get_dataset (all_templates s) = get_dataset c)
           (dataset_names label_strings do_train do_eval c) (dataset_train do_train c)
           (dataset_eval do_eval c)) in Hmain as (Hc1 & Hn1 & Ht1 & He1); [| |done].
  2: { intros key s s' _ Hs Hbody. by apply register_dataset_adds. }
  apply (for_each_adds (λ s, get_dataset (all_templates s) = get_dataset c)
           (anli_names label_strings c) (λ _, []) (anli_eval c)) in Hanli
    as (Hc2 & Hn2 & Ht2 & He2); [| |done].
  2: { intros anli_round s s' _ Hs Hbody.
       apply (register_anli_round_adds c) in Hbody as (? & ? & ? & ?); [|done].
       by rewrite app_nil_r. }
  rewrite bind_nothing, app_nil_r in Ht2.
  rewrite Hn2, Ht2, He2, Hn1, Ht1, He1, <- !app_assoc. done.
Qed.

End LoopAdds.

(** ** The registry and the mixture lists, after the script *)

Section AfterTheScript.
Context `{Externals}.

(** what get_label_strings gives for each template, the same whatever the
    globals hold and without changing them *)
Variable label_strings : Template → result (option (list string)).
Hypothesis labels_are :
  ∀ template, quiet (get_label_strings template) (label_strings template).

Lemma script_adds (rows : list Row) (collection : TemplateCollection)
    (l : Lists) (st : State) (ms : list Mixture) :
  script rows collection = Ok (l, st, ms) →
  names st
  = (keys (remove "anli" None collection)
       ≫= dataset_names label_strings (do_train l) (do_eval l) collection)
    ++ (anli_rounds ≫= anli_names label_strings collection)
  ∧ train_mixture st
    = keys (remove "anli" None collection) ≫= dataset_train (do_train l) collection
  ∧ eval_mixture st
    = (keys (remove "anli" None collection) ≫= dataset_eval (do_eval l) collection)
      ++ (anli_rounds ≫= anli_eval collection)
  ∧ ms = mixtures st.
Proof.
  intros (_ & Htasks & Hms)%script_ok.
  by apply (register_tasks_adds label_strings labels_are) in Htasks as (Hn & Ht & He).
Qed.

(** X15.  When the script completes, the registry holds, in this order: for
    every pair of the collection other than anli that is in do_train or
    do_eval, and every template name of the pair, the task name and, when the
    template has labels, the task name with _score_eval; then, for every
    round r1, r2, r3 and every ANLI template name, the round's task name and,
    when the template has labels, that name with _score_eval.  It holds
    nothing else: a pair that the manifest selects for neither training nor
    evaluation registers no task.  The labels of a template are what
    get_label_strings gives for it, which is the same whatever the globals
    hold, and get_label_strings changes no global. *)
Theorem registry_after_script (rows : list Row) (collection : TemplateCollection)
    (l : Lists) (st : State) (ms : list Mixture) :
  script rows collection = Ok (l, st, ms) →
  names st
  = (keys (remove "anli" None collection)
       ≫= dataset_names label_strings (do_train l) (do_eval l) collection)
    ++ (anli_rounds ≫= anli_names label_strings collection).
Proof. by intros (? & _)%script_adds. Qed.

Lemma template_names_head (dataset : DatasetTemplates) (name_of : string → string)
    (template_name : string) :
  template_name ∈ all_template_names dataset →
  name_of template_name ∈ template_names label_strings dataset name_of template_name.
Proof.
  intros Hin. unfold template_names.
  destruct (getitem_is_ok dataset template_name Hin) as [template ->].
  apply list_elem_of_here.
Qed.

Lemma dataset_train_registered (do_train do_eval : list Key) (c : TemplateCollection)
    (key : Key) (name : string) :
  name ∈ dataset_train do_train c key → name ∈ dataset_names label_strings do_train do_eval c key.
Proof.
  unfold dataset_train, dataset_names. case_decide as Hkey; [|by intros ?%elem_of_nil].
  rewrite decide_True by (rewrite elem_of_app; by left).
  intros (template_name & -> & Hin)%list_elem_of_fmap.
  apply list_elem_of_bind. exists template_name. split; [|done].
  by apply template_names_head.
Qed.

Lemma dataset_eval_registered (do_train do_eval : list Key) (c : TemplateCollection)
    (key : Key) (name : string) :
  name ∈ dataset_eval do_eval c key → name ∈ dataset_names label_strings do_train do_eval c key.
Proof.
  unfold dataset_eval, dataset_names. case_decide as Hkey; [|by intros ?%elem_of_nil].
  rewrite decide_True by (rewrite elem_of_app; by right).
  intros (template_name & Hname & Hin)%list_elem_of_bind.
  apply list_elem_of_bind. exists template_name. split; [|done].
  destruct (Py.getitem _ template_name) as [template|]; [|by apply elem_of_nil in Hname].
  destruct (original_task (metadata template)); [|by apply elem_of_nil in Hname].
  apply list_elem_of_singleton in Hname as ->.
  by apply (template_names_head _ (get_task_name key.1 key.2)).
Qed.

Lemma anli_eval_registered (c : TemplateCollection) (anli_round name : string) :
  name ∈ anli_eval c anli_round → name ∈ anli_names label_strings c anli_round.
Proof.
  unfold anli_eval, anli_names.
  intros (template_name & -> & Hin)%list_elem_of_fmap.
  apply list_elem_of_bind. exists template_name. split; [|done].
  by apply (template_names_head _ (anli_task_name anli_round)).
Qed.

End AfterTheScript.

Section MixtureLists.
Context `{Externals}.

(** get_label_strings is quiet on every template *)
Hypothesis labels_quiet : ∀ template, ∃ r, quiet (get_label_strings template) r.

(** what a quiet call gives is what it gives at any state one looks at *)
Lemma quiet_at (st0 : State) (template : Template) :
  quiet (get_label_strings template) (get_label_strings template st0).1.
Proof. destruct (labels_quiet template) as [r Hr]. rewrite Hr. exact Hr. Qed.

(** X16.  When the script completes, train_mixture is, in the order of the
    collection and of the template names, get_task_name of every template
    name of every pair of the collection, other than anli, that is in
    do_train; no ANLI task and no score_eval task is in it.  The templates
    are such that get_label_strings is quiet on them. *)
Theorem train_mixture_after_script (rows : list Row) (collection : TemplateCollection)
    (l : Lists) (st : State) (ms : list Mixture) :
  script rows collection = Ok (l, st, ms) →
  train_mixture st
  = keys (remove "anli" None collection) ≫= dataset_train (do_train l) collection.
Proof.
  intros Hscript.
  by destruct (script_adds _ (quiet_at (initial_state collection)) _ _ _ _ _ Hscript)
    as (_ & ? & _).
Qed.

(** X17.  When the script completes, eval_mixture is, in order:
    get_task_name of every template with original_task set, of every pair of
    the collection other than anli that is in do_eval; then, round by round,
    the round's task name of every ANLI template name.  The templates are
    such that get_label_strings is quiet on them. *)
Theorem eval_mixture_after_script (rows : list Row) (collection : TemplateCollection)
    (l : Lists) (st : State) (ms : list Mixture) :
  script rows collection = Ok (l, st, ms) →
  eval_mixture st
  = (keys (remove "anli" None collection) ≫= dataset_eval (do_eval l) collection)
    ++ (anli_rounds ≫= anli_eval collection).
Proof.
  intros Hscript.
  by destruct (script_adds _ (quiet_at (initial_state collection)) _ _ _ _ _ Hscript)
    as (_ & _ & ? & _).
Qed.

(** X18.  When the script completes, every name in train_mixture and in
    eval_mixture, and so every task of each of the seven mixtures, is the
    name of a registered task.  The templates are such that
    get_label_strings is quiet on them. *)
Theorem mixtures_name_registered_tasks (rows : list Row)
    (collection : TemplateCollection) (l : Lists) (st : State) (ms : list Mixture) :
  script rows collection = Ok (l, st, ms) →
  Forall (λ name, name ∈ names st) (train_mixture st)
  ∧ Forall (λ name, name ∈ names st) (eval_mixture st)
  ∧ Forall (λ m, Forall (λ task, task ∈ names st) (mixture_tasks m)) ms.
Proof.
  intros Hscript.
  destruct (script_adds _ (quiet_at (initial_state collection)) _ _ _ _ _ Hscript)
    as (Hn & Ht & He & ->).
  assert (Forall (λ name, name ∈ names st) (train_mixture st)) as Htrain.
  { rewrite Hn, Ht. apply Forall_forall.
    intros name (key & Hname & Hkey)%list_elem_of_bind.
    rewrite elem_of_app. left. apply list_elem_of_bind. exists key.
    split; [by apply dataset_train_registered | done]. }
  assert (Forall (λ name, name ∈ names st) (eval_mixture st)) as Heval.
  { rewrite Hn, He. apply Forall_forall.
    intros name [(key & Hname & Hkey)%list_elem_of_bind
                | (anli_round & Hname & Hround)%list_elem_of_bind]%elem_of_app;
      rewrite elem_of_app; [left|right]; apply list_elem_of_bind.
    - exists key. split; [by apply dataset_eval_registered | done].
    - exists anli_round. split; [by apply anli_eval_registered | done]. }
  split; [done|]. split; [done|].
  rewrite Forall_forall in Htrain, Heval.
  unfold mixtures. repeat apply Forall_cons_2; [..|apply Forall_nil_2]; simpl;
    apply Forall_forall; intros task [_ Hin]%list_elem_of_filter; auto.
Qed.

End MixtureLists.

Lemma registry_after_script_witness :
  match script (H:=Sample.externals) Sample.manifest Sample.collection with
  | Ok (_, st, _) =>
      names st
      = ["imdb_sentiment"; "imdb_sentiment_score_eval"; "xsum_summary";
         "anli_entails_r1"; "anli_entails_r1_score_eval";
         "anli_entails_r2"; "anli_entails_r2_score_eval";
         "anli_entails_r3"; "anli_entails_r3_score_eval"]
  | Err _ => False
  end.
Proof.
  destruct (script (H:=Sample.externals) Sample.manifest Sample.collection)
    as [[[l st] ms]|e] eqn:Hscript; [|vm_compute in Hscript; discriminate Hscript].
  rewrite (registry_after_script (H:=Sample.externals) Sample.label_strings
             sample_label_strings _ _ _ _ _ Hscript).
  assert (do_train l = [("imdb", None); ("xsum", None)] ∧ do_eval l = [("imdb", None)])
    as [-> ->].
  { apply (f_equal (λ r, match r with Ok (l, _, _) => Some (do_train l, do_eval l)
                                 | Err _ => None end)) in Hscript.
    vm_compute in Hscript. by injection Hscript as -> ->. }
  vm_compute. reflexivity.
Defined.

Lemma train_mixture_after_script_witness :
  match script (H:=Sample.externals) Sample.manifest Sample.collection with
  | Ok (_, st, _) => train_mixture st = ["imdb_sentiment"; "xsum_summary"]
  | Err _ => False
  end.
Proof.
  destruct (script (H:=Sample.externals) Sample.manifest Sample.collection)
    as [[[l st] ms]|e] eqn:Hscript; [|vm_compute in Hscript; discriminate Hscript].
  rewrite (train_mixture_after_script (H:=Sample.externals) sample_labels_quiet
             _ _ _ _ _ Hscript).
  assert (do_train l = [("imdb", None); ("xsum", None)]) as ->.
  { apply (f_equal (λ r, match r with Ok (l, _, _) => Some (do_train l)
                                 | Err _ => None end)) in Hscript.
    vm_compute in Hscript. by injection Hscript as ->. }
  vm_compute. reflexivity.
Defined.

Lemma eval_mixture_after_script_witness :
  match script (H:=Sample.externals) Sample.manifest Sample.collection with
  | Ok (_, st, _) =>
      eval_mixture st
      = ["imdb_sentiment"; "anli_entails_r1"; "anli_entails_r2"; "anli_entails_r3"]
  | Err _ => False
  end.
Proof.
  destruct (script (H:=Sample.externals) Sample.manifest Sample.collection)
    as [[[l st] ms]|e] eqn:Hscript; [|vm_compute in Hscript; discriminate Hscript].
  rewrite (eval_mixture_after_script (H:=Sample.externals) sample_labels_quiet
             _ _ _ _ _ Hscript).
  assert (do_eval l = [("imdb", None)]) as ->.
  { apply (f_equal (λ r, match r with Ok (l, _, _) => Some (do_eval l)
                                 | Err _ => None end)) in Hscript.
    vm_compute in Hscript. by injection Hscript as ->. }
  vm_compute. reflexivity.
Defined.

Lemma mixtures_name_registered_tasks_witness :
  match script (H:=Sample.externals) Sample.manifest Sample.collection with
  | Ok (_, st, ms) =>
      Forall (λ m, Forall (λ task, task ∈ names st) (mixture_tasks m)) ms
  | Err _ => False
  end.
Proof.
  destruct (script (H:=Sample.externals) Sample.manifest Sample.collection)
    as [[[l st] ms]|e] eqn:Hscript; [|vm_compute in Hscript; discriminate Hscript].
  by destruct (mixtures_name_registered_tasks (H:=Sample.externals) sample_labels_quiet
                 _ _ _ _ _ Hscript)
    as (_ & _ & ?).
Defined.

(** ** The target of a template *)



Section Target.
Context `{Externals}.


End Target.


(** ** The names kept in clean_score_eval_tasks *)

Lemma endswith_app (s p : string) : Py.endswith (s +:+ p) p = true.
Proof.
  induction s as [|c s IH].
  - change (EmptyString +:+ p) with p.
    destruct p; cbn [Py.endswith]; by rewrite String.eqb_refl.
  - change (String c s +:+ p) with (String c (s +:+ p)).
    cbn [Py.endswith]. rewrite IH. apply orb_true_r.
Qed.

(** the suffix does not overlap itself: it has no proper border *)
Lemma score_eval_no_border (x : string) :
  Py.startswith (x +:+ "_score_eval") "_score_eval" = true →
  x = EmptyString ∨ Py.startswith x "_score_eval" = true.
Proof.
  intros Hs.
  do 11 (destruct x as [|? x]; [by (left + (vm_compute in Hs; discriminate))|];
         change (String ?a ?s +:+ ?t) with (String a (s +:+ t)) in Hs;
         cbn [Py.startswith] in Hs |- *;
         match type of Hs with
         | (if Ascii.eqb ?a ?b then _ else _) = true =>
             destruct (Ascii.eqb_spec a b) as [<-|]; [|discriminate]
         end;
         cbn [Ascii.eqb Bool.eqb]).
  right. by destruct x.
Qed.

Lemma cut_suffix (base : string) :
  Py.contains base "_score_eval" = false →
  Py.cut (base +:+ "_score_eval") "_score_eval" = Some (base, EmptyString).
Proof.
  induction base as [|c base IH]; [done|].
  cbn [Py.contains]. intros [Hstart Hrest]%orb_false_elim.
  change (String c base +:+ "_score_eval") with (String c (base +:+ "_score_eval")).
  cbn [Py.cut].
  destruct (Py.startswith (String c (base +:+ "_score_eval")) "_score_eval") eqn:Hs.
  - change (String c (base +:+ "_score_eval")) with (String c base +:+ "_score_eval") in Hs.
    apply score_eval_no_border in Hs as [?|Hs]; [done|congruence].
  - by rewrite IH.
Qed.

Lemma before_score_eval_suffix (base : string) :
  Py.contains base "_score_eval" = false →
  before_score_eval (base +:+ "_score_eval") = base.
Proof.
  intros Hc. unfold before_score_eval, Py.split.
  rewrite length_append, Nat.add_comm. cbn [String.length Nat.add Py.split_rounds].
  by rewrite cut_suffix.
Qed.

(** X20.  For a name without _score_eval in it, the mixture
    clean_score_eval_tasks holds the name followed by _score_eval exactly
    when that task is registered and the name itself is in eval_mixture and
    not deny-listed. *)
Theorem clean_score_eval_tasks_members (st : State) (m : Mixture) (base : string) :
  m ∈ mixtures st → mixture_name m = "clean_score_eval_tasks" →
  Py.contains base "_score_eval" = false →
  (base +:+ "_score_eval") ∈ mixture_tasks m
  ↔ (base +:+ "_score_eval") ∈ names st
    ∧ base ∈ eval_mixture st
    ∧ base ∉ TASK_BLACKLIST.
Proof.
  intros Hm Hname Hbase. unfold mixtures in Hm.
  repeat (apply elem_of_cons in Hm as [->|Hm]; [try discriminate Hname|]);
    [|by apply elem_of_nil in Hm].
  cbn [mixture_tasks]. rewrite list_elem_of_filter.
  rewrite before_score_eval_suffix, endswith_app by done.
  split; [intros ((_ & He & Hb) & Hn)|intros (Hn & He & Hb)]; done.
Qed.

Lemma clean_score_eval_tasks_members_witness :
  Forall (λ m, mixture_name m = "clean_score_eval_tasks" →
               "imdb_sentiment_score_eval" ∈ mixture_tasks m)
         (mixtures {| all_templates := Sample.collection;
                      TaskRegistry := TaskRegistry Sample.after_sentiment;
                      train_mixture := [];
                      eval_mixture := ["imdb_sentiment"] |}).
Proof.
  apply Forall_forall. intros m Hm Hname.
  apply (proj2 (clean_score_eval_tasks_members _ m "imdb_sentiment" Hm Hname eq_refl)).
  split_and!; by apply (bool_decide_unpack _).
Defined.
